(** * The loyalty transaction engine of the dashboard

    A shallow embedding of the tier utilities ([getTierBySpend],
    [getTierByPoints], [getCustomerTier]) and of the transaction section of
    [components/Dashboard.tsx] ([checkDiscountEligibility], the customer
    lookup effect, [tierInfo], [billDetails], [handleTransactionSubmit]),
    followed by the overview totals, the PIN check, the search, the
    analytics (average order value, tier counts, top customers), the settings
    editors, the account handlers of [App.tsx] and the storage key of
    [useLocalStorage].

    Numbers.  A JavaScript [number] is a double.  An amount (a bill, a
    discount, a balance, a total) is held as the exact rational ([Q]) the
    code's double approximates: each is within a rounding of it.  Where the
    code takes a whole number out of a computed double, a rounding decides
    the result, and the model follows the doubles themselves:
    [JS.roundDouble] is rounding to the nearest double, [JS.sub], [JS.mul]
    and [JS.div] are the operators on doubles; [pointsEarned], a floor of a
    difference, and [parseInt] in the settings editors are computed with
    them.  The infinities are outside the model.  The one non-number the
    engine can meet is the NaN that [parseFloat] gives on an empty or
    non-numeric text; a parsed text is therefore an [option Q], with [None]
    for NaN.  Instants ([Date]) are integers, in milliseconds; the [date]
    text of a history entry, written by [toISOString], is held as the
    instant it denotes. *)

From Stdlib Require Import ZArith QArith Qround Qminmax Qpower Lqa Lia.
From Stdlib Require Import List Ascii String Bool Permutation Sorted.
From Stdlib Require Decimal DecimalString DecimalNat.
Import ListNotations.

Open Scope Q_scope.

(** ** JavaScript operators on numbers *)

Module JS.

(** [a >= b], [a > b], [a <= b], [a < b] on numbers. *)
Definition geb (a b : Q) : bool := Qle_bool b a.
Definition gtb (a b : Q) : bool := negb (Qle_bool a b).
Definition leb (a b : Q) : bool := Qle_bool a b.
Definition ltb (a b : Q) : bool := negb (Qle_bool b a).

(** What [parseFloat] returns: [Some q], or [None] for NaN. *)
Definition parsed : Type := option Q.

(** [x || 0]: NaN and zero are falsy. *)
Definition orZero (x : parsed) : Q :=
  match x with
  | Some q => if Qeq_bool q 0 then 0 else q
  | None => 0
  end.

(** [x < b] where [x] may be NaN: every comparison with NaN is false. *)
Definition nan_ltb (x : parsed) (b : Q) : bool :=
  match x with
  | Some q => ltb q b
  | None => false
  end.

(** [!x] on a number: only zero is falsy. *)
Definition falsy (q : Q) : bool := Qeq_bool q 0.

Definition Math_floor (q : Q) : Q := inject_Z (Qfloor q).
Definition Math_max (a b : Q) : Q := Qmax a b.
Definition Math_min3 (a b c : Q) : Q := Qmin (Qmin a b) c.

(** [s || d] on strings: only the empty string is falsy. *)
Definition orString (s d : string) : string :=
  match s with
  | EmptyString => d
  | _ => s
  end.

(** *** Doubles

    A [number] is an IEEE 754 binary64.  [roundDouble x] is the double
    nearest to [x], halves going to the even mantissa: what [parseFloat]
    and [parseInt] return for a numeral of value [x], and what [-], [*] and
    [/] return for an exact result [x]. *)

(** The binary exponent of a positive [x]: [2^k <= x < 2^(k+1)]. *)
Definition ilog2 (x : Q) : Z :=
  let k := (Z.log2 (Qnum x) - Z.log2 (Zpos (Qden x)))%Z in
  if Qle_bool (2 ^ k) x then k else (k - 1)%Z.

Definition roundHalfEven (r : Q) : Z :=
  let f := Qfloor r in
  match Qcompare (r - inject_Z f) (1 # 2) with
  | Lt => f
  | Gt => (f + 1)%Z
  | Eq => if Z.even f then f else (f + 1)%Z
  end.

(** The exponent of the last place: 53 bits of mantissa, and no exponent
    below that of the subnormals. *)
Definition exponent (x : Q) : Z := Z.max (ilog2 x - 52) (-1074).

Definition roundPositive (x : Q) : Q :=
  inject_Z (roundHalfEven (x * 2 ^ (- exponent x))) * 2 ^ exponent x.

Definition roundDouble (x : Q) : Q :=
  Qred match Qcompare x 0 with
       | Eq => 0
       | Gt => roundPositive x
       | Lt => - roundPositive (- x)
       end.

(** [Number.MAX_SAFE_INTEGER], [2^53 - 1]: up to it every whole number is
    a double. *)
Definition MAX_SAFE_INTEGER : Z := 9007199254740991.

(** [x - y], [x * y], [x / y] on doubles. *)
Definition sub (x y : Q) : Q := roundDouble (roundDouble x - roundDouble y).
Definition mul (x y : Q) : Q := roundDouble (roundDouble x * roundDouble y).
Definition div (x y : Q) : Q := roundDouble (roundDouble x / roundDouble y).

End JS.

(** ** types.ts *)

Module TransactionHistory.
Record t : Type := mk {
  date : Z;                        (* the instant the ISO text denotes, ms *)
  bill : Q;
  discountPercentage : option Q;   (* [discountPercentage?] *)
  finalBill : Q;
  pointsUsed : option Q;           (* [pointsUsed?] *)
  points : Q
}.
End TransactionHistory.

Module Customer.
Record t : Type := mk {
  mobile : string;
  name : string;
  pin : string;
  points : Q;
  totalSpent : Q;
  history : list TransactionHistory.t
}.
End Customer.

Inductive Tier : Type := Bronze | Silver | Gold | Platinum.

Record TierThreshold : Type := { minSpend : Q; minPoints : Q }.

Module TierSettings.
Record t : Type := mk {
  bronze : TierThreshold;
  silver : TierThreshold;
  gold : TierThreshold;
  platinum : TierThreshold
}.
End TierSettings.

Module DiscountSettings.
Record t : Type := mk { bronze : Q; silver : Q; gold : Q; platinum : Q }.

(** [settings[tier.toLowerCase()]] *)
Definition get (s : t) (tier : Tier) : Q :=
  match tier with
  | Bronze => bronze s
  | Silver => silver s
  | Gold => gold s
  | Platinum => platinum s
  end.
End DiscountSettings.

Module DeadlineSettings.
Record t : Type := mk { bronze : Q; silver : Q; gold : Q; platinum : Q }.

Definition get (s : t) (tier : Tier) : Q :=
  match tier with
  | Bronze => bronze s
  | Silver => silver s
  | Gold => gold s
  | Platinum => platinum s
  end.
End DeadlineSettings.

Record Admin : Type := {
  businessName : string;
  username : string;
  password : string
}.

Module LastTransactionDetails.
Record t : Type := mk {
  mobile : string;
  customerName : string;
  businessName : string;
  finalBill : Q;
  pointsUsed : Q;
  pointsEarned : Q;
  newTotalPoints : Q;
  deadlineDays : option Q
}.
End LastTransactionDetails.

(** The order of the tiers, Bronze lowest. *)
Definition tier_rank (t : Tier) : nat :=
  match t with
  | Bronze => 0
  | Silver => 1
  | Gold => 2
  | Platinum => 3
  end.

Definition tier_le (a b : Tier) : Prop := (tier_rank a <= tier_rank b)%nat.

(** ** utils/tierUtils.ts *)

Definition getTierBySpend (customer : Customer.t) (settings : TierSettings.t) : Tier :=
  if JS.geb (Customer.totalSpent customer) (minSpend (TierSettings.platinum settings)) then Platinum
  else if JS.geb (Customer.totalSpent customer) (minSpend (TierSettings.gold settings)) then Gold
  else if JS.geb (Customer.totalSpent customer) (minSpend (TierSettings.silver settings)) then Silver
  else Bronze.

Definition getTierByPoints (customer : Customer.t) (settings : TierSettings.t) : Tier :=
  if JS.geb (Customer.points customer) (minPoints (TierSettings.platinum settings)) then Platinum
  else if JS.geb (Customer.points customer) (minPoints (TierSettings.gold settings)) then Gold
  else if JS.geb (Customer.points customer) (minPoints (TierSettings.silver settings)) then Silver
  else Bronze.

Definition getCustomerTier (customer : Customer.t) (settings : TierSettings.t) : Tier :=
  if JS.geb (Customer.totalSpent customer) (minSpend (TierSettings.platinum settings))
     || JS.geb (Customer.points customer) (minPoints (TierSettings.platinum settings)) then Platinum
  else if JS.geb (Customer.totalSpent customer) (minSpend (TierSettings.gold settings))
     || JS.geb (Customer.points customer) (minPoints (TierSettings.gold settings)) then Gold
  else if JS.geb (Customer.totalSpent customer) (minSpend (TierSettings.silver settings))
     || JS.geb (Customer.points customer) (minPoints (TierSettings.silver settings)) then Silver
  else Bronze.

(** ** components/Dashboard.tsx: discount eligibility *)

Module Eligibility.
Record t : Type := mk {
  eligible : bool;
  daysSinceLastTxn : option Q;
  deadline : option Q;
  pointsTier : option Tier
}.

(** [{ eligible: true, daysSinceLastTxn: null, deadline: null, pointsTier: null }] *)
Definition fresh : t := mk true None None None.
End Eligibility.

(** [1000 * 60 * 60 * 24] *)
Definition msPerDay : Z := 1000 * 60 * 60 * 24.

(** The callback of [history.reduce]:
    [new Date(tx.date) > new Date(latest.date) ? tx : latest]. *)
Definition laterOf (latest tx : TransactionHistory.t) : TransactionHistory.t :=
  if (TransactionHistory.date tx >? TransactionHistory.date latest)%Z then tx else latest.

(** [checkDiscountEligibility]; [now] is the instant [new Date()] reads.
    [reduce] without an initial value starts from the first entry. *)
Definition checkDiscountEligibility (now : Z) (customer : Customer.t)
    (deadlineSettings : DeadlineSettings.t) (tierSettings : TierSettings.t)
    : Eligibility.t :=
  match Customer.history customer with
  | [] => Eligibility.fresh
  | first :: rest =>
      let lastTransaction := fold_left laterOf rest first in
      let lastTxnDate := TransactionHistory.date lastTransaction in
      let daysSinceLastTxn :=
        JS.Math_floor (inject_Z (now - lastTxnDate) / inject_Z msPerDay) in
      let pointsTier := getTierByPoints customer tierSettings in
      let deadline := DeadlineSettings.get deadlineSettings pointsTier in
      let eligible := JS.leb daysSinceLastTxn deadline in
      Eligibility.mk eligible (Some daysSinceLastTxn) (Some deadline) (Some pointsTier)
  end.

(** ** components/Dashboard.tsx: the transaction section *)

(** The props the section reads. *)
Record Props : Type := {
  currentUser : option Admin;
  customers : list Customer.t;
  tierSettings : TierSettings.t;
  discountSettings : DiscountSettings.t;
  deadlineSettings : DeadlineSettings.t
}.

(** The [useState] cells the engine reads.  The three numeric text fields
    are held as what [parseFloat] gives on them. *)
Record State : Type := {
  countryCode : string;
  mobile : string;
  name : string;
  pin : string;
  billAmount : JS.parsed;
  cashGiven : JS.parsed;
  currentCustomer : option Customer.t;
  isNewCustomer : bool;
  canUsePoints : bool;
  usePointsAndDiscount : bool;
  pointsToUse : JS.parsed;
  eligibility : Eligibility.t
}.

Definition isSome {A : Type} (o : option A) : bool :=
  match o with Some _ => true | None => false end.

(** The [useEffect] on [mobile]: the customer lookup (run while no
    confirmation is shown). *)
Definition lookupEffect (now : Z) (p : Props) (st : State) : State :=
  if (10 <=? String.length (mobile st))%nat then
    let fullMobile := (countryCode st ++ mobile st)%string in
    let existingCustomer :=
      find (fun c => String.eqb (Customer.mobile c) fullMobile
                     || String.eqb (Customer.mobile c) (mobile st))
           (customers p) in
    match existingCustomer with
    | Some c =>
        {| countryCode := countryCode st; mobile := mobile st;
           name := Customer.name c; pin := pin st;
           billAmount := billAmount st; cashGiven := cashGiven st;
           currentCustomer := Some c;
           isNewCustomer := false;
           canUsePoints := JS.gtb (Customer.points c) 0;
           usePointsAndDiscount := false;
           pointsToUse := pointsToUse st;
           eligibility :=
             checkDiscountEligibility now c (deadlineSettings p) (tierSettings p) |}
    | None =>
        {| countryCode := countryCode st; mobile := mobile st;
           name := EmptyString; pin := pin st;
           billAmount := billAmount st; cashGiven := cashGiven st;
           currentCustomer := None;
           isNewCustomer := true;
           canUsePoints := false;
           usePointsAndDiscount := false;
           pointsToUse := pointsToUse st;
           eligibility := Eligibility.fresh |}
    end
  else
    {| countryCode := countryCode st; mobile := mobile st;
       name := EmptyString; pin := pin st;
       billAmount := billAmount st; cashGiven := cashGiven st;
       currentCustomer := None;
       isNewCustomer := isNewCustomer st;
       canUsePoints := false;
       usePointsAndDiscount := false;
       pointsToUse := pointsToUse st;
       eligibility := eligibility st |}.

Record TierInfo : Type := {
  spendTier : Tier;
  pointsTier : Tier;
  effectiveTier : Tier
}.

Definition tierInfo (p : Props) (st : State) : option TierInfo :=
  match currentCustomer st with
  | None => None
  | Some c =>
      Some {| spendTier := getTierBySpend c (tierSettings p);
              pointsTier := getTierByPoints c (tierSettings p);
              effectiveTier := getCustomerTier c (tierSettings p) |}
  end.

Module BillDetails.
Record t : Type := mk {
  subtotal : Q;
  discountPercentage : Q;
  discountAmount : Q;
  finalBill : Q;
  pointsUsed : Q;
  cashPayable : Q;
  pointsEarned : Q
}.
End BillDetails.

(** The guard of the discount:
    [usePointsAndDiscount && eligibility.eligible && currentCustomer
     && subtotal > 0 && tierInfo]. *)
Definition discountGuard (p : Props) (st : State) (subtotal : Q) : bool :=
  usePointsAndDiscount st && Eligibility.eligible (eligibility st)
  && isSome (currentCustomer st) && JS.gtb subtotal 0 && isSome (tierInfo p st).

(** The arithmetic of a bill: [num] reads a number out of a text or out of
    the store, [sub], [mul] and [div] are [-], [*] and [/]. *)
Module Arith.
Record t : Type := mk {
  num : Q -> Q;
  sub : Q -> Q -> Q;
  mul : Q -> Q -> Q;
  div : Q -> Q -> Q
}.
Definition exact : t := mk (fun x => x) Qminus Qmult Qdiv.
Definition double : t := mk JS.roundDouble JS.sub JS.mul JS.div.
End Arith.

(** Lines 328-345, from [subtotal] to [cashPayable], in a given
    arithmetic. *)
Definition cashPayableIn (A : Arith.t) (p : Props) (st : State) : Q :=
  let subtotal := Arith.num A (JS.orZero (billAmount st)) in
  let discountPercentage :=
    if discountGuard p st subtotal then
      match tierInfo p st with
      | Some ti =>
          Arith.num A
            (JS.orZero (Some (DiscountSettings.get (discountSettings p) (effectiveTier ti))))
      | None => 0
      end
    else 0 in
  let discountAmount :=
    if discountGuard p st subtotal
    then Arith.mul A subtotal (Arith.div A discountPercentage 100) else 0 in
  let finalBill := Arith.sub A subtotal discountAmount in
  let pointsUsed :=
    match currentCustomer st with
    | Some c =>
        if usePointsAndDiscount st && JS.gtb (Arith.num A (Customer.points c)) 0 then
          let desiredPoints := Arith.num A (JS.orZero (pointsToUse st)) in
          JS.Math_min3 (Arith.num A (Customer.points c)) finalBill desiredPoints
        else 0
    | None => 0
    end in
  Arith.sub A finalBill pointsUsed.

(** The amounts of the bill are held exactly: each is within a rounding of
    the code's double.  [pointsEarned] is a floor, which a rounding can move
    by a whole point (a bill of 10.40 paid with 20.40 earns 9 points, not
    10), so it is computed from [cash] and [cashPayable] as the double
    arithmetic of the code yields them. *)
Definition billDetails (p : Props) (st : State) : BillDetails.t :=
  let subtotal := JS.orZero (billAmount st) in
  let discountPercentage :=
    if discountGuard p st subtotal then
      match tierInfo p st with
      | Some ti =>
          JS.orZero (Some (DiscountSettings.get (discountSettings p) (effectiveTier ti)))
      | None => 0
      end
    else 0 in
  let discountAmount :=
    if discountGuard p st subtotal then subtotal * (discountPercentage / 100) else 0 in
  let finalBill := subtotal - discountAmount in
  let pointsUsed :=
    match currentCustomer st with
    | Some c =>
        if usePointsAndDiscount st && JS.gtb (Customer.points c) 0 then
          let desiredPoints := JS.orZero (pointsToUse st) in
          JS.Math_min3 (Customer.points c) finalBill desiredPoints
        else 0
    | None => 0
    end in
  let cashPayable := finalBill - pointsUsed in
  let cash := JS.orZero (cashGiven st) in
  let pointsEarned :=
    JS.Math_max 0 (JS.Math_floor (JS.sub cash (cashPayableIn Arith.double p st))) in
  BillDetails.mk subtotal discountPercentage discountAmount finalBill
                 pointsUsed cashPayable pointsEarned.

(** ** components/Dashboard.tsx: committing a transaction *)

(** What a successful submit hands to [setCustomers] and to
    [setLastTransactionDetails]. *)
Record Committed : Type := {
  nextCustomers : list Customer.t;
  lastTransactionDetails : LastTransactionDetails.t
}.

(** [currentCustomer ? currentCustomer.mobile : `${countryCode}${mobile}`] *)
Definition targetMobile (st : State) : string :=
  match currentCustomer st with
  | Some c => Customer.mobile c
  | None => (countryCode st ++ mobile st)%string
  end.

(** The entry a submit writes; [now] is the instant [new Date()] reads. *)
Definition newHistoryEntry (now : Z) (p : Props) (st : State) : TransactionHistory.t :=
  let bd := billDetails p st in
  let redeemed := usePointsAndDiscount st && Eligibility.eligible (eligibility st) in
  {| TransactionHistory.date := now;
     TransactionHistory.bill := BillDetails.subtotal bd;
     TransactionHistory.discountPercentage :=
       if redeemed then Some (BillDetails.discountPercentage bd) else None;
     TransactionHistory.finalBill := BillDetails.finalBill bd;
     TransactionHistory.pointsUsed :=
       Some (if redeemed then BillDetails.pointsUsed bd else 0);
     TransactionHistory.points := BillDetails.pointsEarned bd |}.

(** [(c.points - pointsUsed) + pointsEarned] *)
Definition finalPoints (bd : BillDetails.t) (c : Customer.t) : Q :=
  (Customer.points c - BillDetails.pointsUsed bd) + BillDetails.pointsEarned bd.

(** The callback of [customers.map]. *)
Definition updateCustomer (target : string) (bd : BillDetails.t)
    (entry : TransactionHistory.t) (c : Customer.t) : Customer.t :=
  if negb (String.eqb (Customer.mobile c) target) then c
  else
    {| Customer.mobile := Customer.mobile c;
       Customer.name := Customer.name c;
       Customer.pin := Customer.pin c;
       Customer.points := finalPoints bd c;
       Customer.totalSpent := Customer.totalSpent c + BillDetails.finalBill bd;
       Customer.history := Customer.history c ++ [entry] |}.

(** The variable [newTotalPoints] after the [map]: it starts at 0 and the
    callback assigns it at every customer it updates, in order. *)
Definition newTotalPointsAfterMap (target : string) (bd : BillDetails.t)
    (cs : list Customer.t) : Q :=
  fold_left
    (fun acc c =>
       if negb (String.eqb (Customer.mobile c) target) then acc
       else finalPoints bd c)
    cs 0.

(** [{ ...currentCustomer, points: newTotalPoints }] *)
Definition withPoints (c : Customer.t) (pts : Q) : Customer.t :=
  {| Customer.mobile := Customer.mobile c;
     Customer.name := Customer.name c;
     Customer.pin := Customer.pin c;
     Customer.points := pts;
     Customer.totalSpent := Customer.totalSpent c;
     Customer.history := Customer.history c |}.

(** The record [handleTransactionSubmit] creates for a new customer. *)
Definition newCustomer (now : Z) (p : Props) (st : State) : Customer.t :=
  let bd := billDetails p st in
  let newTotalPoints := BillDetails.pointsEarned bd in
  {| Customer.mobile := targetMobile st;
     Customer.name := JS.orString (name st) "Guest";
     Customer.pin := pin st;
     Customer.points := newTotalPoints;
     Customer.totalSpent := BillDetails.finalBill bd;
     Customer.history := [newHistoryEntry now p st] |}.

(** [handleTransactionSubmit]: [None] when it alerts and returns, leaving
    every state cell as it was. *)
Definition handleTransactionSubmit (now : Z) (p : Props) (st : State)
    : option Committed :=
  let bd := billDetails p st in
  let subtotal := BillDetails.subtotal bd in
  let finalBill := BillDetails.finalBill bd in
  let pointsUsed := BillDetails.pointsUsed bd in
  let pointsEarned := BillDetails.pointsEarned bd in
  let cashPayable := BillDetails.cashPayable bd in
  let cash := cashGiven st in        (* [parseFloat(cashGiven)], no default *)
  if JS.falsy subtotal || JS.leb subtotal 0 then None
  else if JS.nan_ltb cash cashPayable then None
  else
    let entry := newHistoryEntry now p st in
    let target := targetMobile st in
    let details (newTotalPoints : Q) (deadlineDays : option Q) :=
      {| LastTransactionDetails.mobile := target;
         LastTransactionDetails.customerName := JS.orString (name st) "Guest";
         LastTransactionDetails.businessName :=
           JS.orString
             (match currentUser p with
              | Some a => businessName a
              | None => EmptyString
              end) "Our Store";
         LastTransactionDetails.finalBill := finalBill;
         LastTransactionDetails.pointsUsed := pointsUsed;
         LastTransactionDetails.pointsEarned := pointsEarned;
         LastTransactionDetails.newTotalPoints := newTotalPoints;
         LastTransactionDetails.deadlineDays := deadlineDays |} in
    if isNewCustomer st then
      let newTotalPoints := pointsEarned in
      Some {| nextCustomers := customers p ++ [newCustomer now p st];
              lastTransactionDetails :=
                details newTotalPoints
                        (Some (DeadlineSettings.bronze (deadlineSettings p))) |}
    else
      let updatedCustomers := map (updateCustomer target bd entry) (customers p) in
      let newTotalPoints := newTotalPointsAfterMap target bd (customers p) in
      let deadlineDays :=
        match Eligibility.deadline (eligibility st),
              Eligibility.daysSinceLastTxn (eligibility st) with
        | Some deadline, Some days => Some (JS.Math_max 0 (deadline - days))
        | _, _ =>
            match currentCustomer st with
            | Some c =>
                (* Customer with no history *)
                let currentPointsTier :=
                  getTierByPoints (withPoints c newTotalPoints) (tierSettings p) in
                Some (DeadlineSettings.get (deadlineSettings p) currentPointsTier)
            | None => None
            end
        end in
      Some {| nextCustomers := updatedCustomers;
              lastTransactionDetails := details newTotalPoints deadlineDays |}.

(** The two checks of [handleTransactionSubmit] both pass: the subtotal
    is positive and [cash < cashPayable] is false. *)
Definition committed (now : Z) (p : Props) (st : State) : Prop :=
  0 < BillDetails.subtotal (billDetails p st)
  /\ JS.nan_ltb (cashGiven st) (BillDetails.cashPayable (billDetails p st)) = false.

(** ** App.tsx: the default settings *)

Definition DEFAULT_TIER_SETTINGS : TierSettings.t :=
  {| TierSettings.bronze := {| minSpend := 0; minPoints := 0 |};
     TierSettings.silver := {| minSpend := 2000; minPoints := 100 |};
     TierSettings.gold := {| minSpend := 10000; minPoints := 500 |};
     TierSettings.platinum := {| minSpend := 50000; minPoints := 2500 |} |}.

Definition DEFAULT_DISCOUNT_SETTINGS : DiscountSettings.t :=
  {| DiscountSettings.bronze := 0; DiscountSettings.silver := 5;
     DiscountSettings.gold := 10; DiscountSettings.platinum := 15 |}.

Definition DEFAULT_DEADLINE_SETTINGS : DeadlineSettings.t :=
  {| DeadlineSettings.bronze := 365; DeadlineSettings.silver := 180;
     DeadlineSettings.gold := 90; DeadlineSettings.platinum := 60 |}.

(** ** The form: initial state and the [onChange] handlers *)

(** The initial values of the [useState] cells; an empty text field parses
    to NaN. *)
Definition initialState : State :=
  {| countryCode := "+91"; mobile := EmptyString; name := EmptyString;
     pin := EmptyString; billAmount := None; cashGiven := None;
     currentCustomer := None; isNewCustomer := false; canUsePoints := false;
     usePointsAndDiscount := false; pointsToUse := None;
     eligibility := Eligibility.fresh |}.

(** [setMobile], followed by the lookup effect it triggers. *)
Definition setMobile (now : Z) (p : Props) (m : string) (st : State) : State :=
  lookupEffect now p
    {| countryCode := countryCode st; mobile := m; name := name st;
       pin := pin st; billAmount := billAmount st; cashGiven := cashGiven st;
       currentCustomer := currentCustomer st; isNewCustomer := isNewCustomer st;
       canUsePoints := canUsePoints st;
       usePointsAndDiscount := usePointsAndDiscount st;
       pointsToUse := pointsToUse st; eligibility := eligibility st |}.

(** [setName] and [setPin], as a new customer fills them in. *)
Definition setNameAndPin (n pn : string) (st : State) : State :=
  {| countryCode := countryCode st; mobile := mobile st; name := n;
     pin := pn; billAmount := billAmount st; cashGiven := cashGiven st;
     currentCustomer := currentCustomer st; isNewCustomer := isNewCustomer st;
     canUsePoints := canUsePoints st;
     usePointsAndDiscount := usePointsAndDiscount st;
     pointsToUse := pointsToUse st; eligibility := eligibility st |}.

(** [setBillAmount] and [setCashGiven]. *)
Definition setAmounts (bill cash : JS.parsed) (st : State) : State :=
  {| countryCode := countryCode st; mobile := mobile st; name := name st;
     pin := pin st; billAmount := bill; cashGiven := cash;
     currentCustomer := currentCustomer st; isNewCustomer := isNewCustomer st;
     canUsePoints := canUsePoints st;
     usePointsAndDiscount := usePointsAndDiscount st;
     pointsToUse := pointsToUse st; eligibility := eligibility st |}.

(** [setPointsToUse] and [setUsePointsAndDiscount]: the two inputs of the
    redemption box, which is rendered only when
    [canUsePoints && currentCustomer]. *)
Definition setRedemption (pts : JS.parsed) (use : bool) (st : State) : State :=
  if canUsePoints st && isSome (currentCustomer st) then
    {| countryCode := countryCode st; mobile := mobile st; name := name st;
       pin := pin st; billAmount := billAmount st; cashGiven := cashGiven st;
       currentCustomer := currentCustomer st; isNewCustomer := isNewCustomer st;
       canUsePoints := canUsePoints st;
       usePointsAndDiscount := use;
       pointsToUse := pts; eligibility := eligibility st |}
  else st.

(** ** Sample data *)

(** 1 January 2024, 00:00 UTC, in milliseconds. *)
Definition jan1 : Z := 1704067200000.

Definition dayAfter (n : Z) : Z := (jan1 + n * msPerDay)%Z.

(** A customer with 200 points whose spend makes her Gold. *)
Definition asha : Customer.t :=
  {| Customer.mobile := "+919876543210"; Customer.name := "Asha";
     Customer.pin := "1234"; Customer.points := 200;
     Customer.totalSpent := 12000;
     Customer.history :=
       [ {| TransactionHistory.date := jan1;
            TransactionHistory.bill := 12000;
            TransactionHistory.discountPercentage := None;
            TransactionHistory.finalBill := 12000;
            TransactionHistory.pointsUsed := Some 0;
            TransactionHistory.points := 200 |} ] |}.

(** A customer who was imported with a balance and no history. *)
Definition bala : Customer.t :=
  {| Customer.mobile := "9123456780"; Customer.name := "Bala";
     Customer.pin := "4321"; Customer.points := 80;
     Customer.totalSpent := 0; Customer.history := [] |}.

(** A customer whose 600 points make her Gold by points (90 days). *)
Definition devi : Customer.t :=
  {| Customer.mobile := "+919555500000"; Customer.name := "Devi";
     Customer.pin := "2468"; Customer.points := 600;
     Customer.totalSpent := 3000;
     Customer.history :=
       [ {| TransactionHistory.date := jan1;
            TransactionHistory.bill := 3000;
            TransactionHistory.discountPercentage := None;
            TransactionHistory.finalBill := 3000;
            TransactionHistory.pointsUsed := Some 0;
            TransactionHistory.points := 600 |} ] |}.

Definition shop : Props :=
  {| currentUser := Some {| businessName := "Corner Store";
                            username := "admin"; password := "secret" |};
     customers := [asha; bala; devi];
     tierSettings := DEFAULT_TIER_SETTINGS;
     discountSettings := DEFAULT_DISCOUNT_SETTINGS;
     deadlineSettings := DEFAULT_DEADLINE_SETTINGS |}.

(** Asha returns after 30 days, asks for the discount and 50 points on a
    bill of 1000, and hands over 900. *)
Definition ashaRedeems : State :=
  setRedemption (Some 50) true
    (setAmounts (Some 1000) (Some 900)
       (setMobile (dayAfter 30) shop "9876543210" initialState)).

(** Asha returns after 200 days, past the 180 days of her points tier
    (Silver), ticks the redemption box, asks for 50 points and pays 950. *)
Definition ashaLate : State :=
  setRedemption (Some 50) true
    (setAmounts (Some 1000) (Some 950)
       (setMobile (dayAfter 200) shop "9876543210" initialState)).

(** Asha with the redemption box left unticked and -5 typed in it. *)
Definition ashaUnticked : State :=
  setRedemption (Some (-5)) false
    (setAmounts (Some 1000) (Some 1000)
       (setMobile (dayAfter 30) shop "9876543210" initialState)).

(** Devi returns 100 days after her last purchase and pays a bill of 500
    in full. *)
Definition deviReturns : State :=
  setAmounts (Some 500) (Some 500)
    (setMobile (dayAfter 100) shop "9555500000" initialState).

(** Bala's first recorded purchase. *)
Definition balaBuys : State :=
  setAmounts (Some 300) (Some 350)
    (setMobile (dayAfter 30) shop "9123456780" initialState).

(** A walk-in with an unknown number; the cash field is left empty. *)
Definition walkInNoCash : State :=
  setAmounts (Some 100) None
    (setNameAndPin "Chitra" "0000"
       (setMobile (dayAfter 30) shop "9000000001" initialState)).

(** The same walk-in paying 700 for a bill of 100. *)
Definition walkInPays : State :=
  setAmounts (Some 100) (Some 700)
    (setNameAndPin "Chitra" "0000"
       (setMobile (dayAfter 30) shop "9000000001" initialState)).

(** A walk-in whose bill of 10.40 is paid with 20.40, and one whose bill
    of 5.10 is paid with 105.10. *)
Definition walkInCoins : State :=
  setAmounts (Some (1040 # 100)) (Some (2040 # 100))
    (setNameAndPin "Chitra" "0000"
       (setMobile (dayAfter 30) shop "9000000001" initialState)).

Definition walkInNote : State :=
  setAmounts (Some (510 # 100)) (Some (10510 # 100))
    (setNameAndPin "Chitra" "0000"
       (setMobile (dayAfter 30) shop "9000000001" initialState)).

(** Asha, 30 days on, with her Gold discount and 50 points on a bill of
    56.50, hands over 1.85. *)
Definition ashaSmallBill : State :=
  setRedemption (Some 50) true
    (setAmounts (Some (5650 # 100)) (Some (185 # 100))
       (setMobile (dayAfter 30) shop "9876543210" initialState)).

(** ** The ledger *)

(** The sum of the [finalBill] values of a history. *)
Definition sumFinalBill (h : list TransactionHistory.t) : Q :=
  fold_right (fun e acc => TransactionHistory.finalBill e + acc) 0 h.

(** [totalSpent] agrees with the history. *)
Definition consistent (c : Customer.t) : Prop :=
  Customer.totalSpent c == sumFinalBill (Customer.history c).

(** The collections that come from the empty one through
    [handleTransactionSubmit] alone, whatever the form holds each time. *)
Inductive Ledger : list Customer.t -> Prop :=
| ledger_empty : Ledger []
| ledger_submit (now : Z) (p : Props) (st : State) (r : Committed) :
    Ledger (customers p) ->
    handleTransactionSubmit now p st = Some r ->
    Ledger (nextCustomers r).

(** A shop that has not sold anything yet, and its first sale. *)
Definition newShop : Props :=
  {| currentUser := None; customers := [];
     tierSettings := DEFAULT_TIER_SETTINGS;
     discountSettings := DEFAULT_DISCOUNT_SETTINGS;
     deadlineSettings := DEFAULT_DEADLINE_SETTINGS |}.

Definition firstSale : State :=
  setAmounts (Some 100) (Some 700)
    (setNameAndPin "Chitra" "0000"
       (setMobile jan1 newShop "9000000001" initialState)).

(** The collection after the first sale, and Chitra's second purchase:
    250 on the bill, 40 points asked for, 300 handed over. *)
Definition afterFirstSale : list Customer.t :=
  match handleTransactionSubmit jan1 newShop firstSale with
  | Some r => nextCustomers r
  | None => []
  end.

Definition shopAfterFirstSale : Props :=
  {| currentUser := None; customers := afterFirstSale;
     tierSettings := DEFAULT_TIER_SETTINGS;
     discountSettings := DEFAULT_DISCOUNT_SETTINGS;
     deadlineSettings := DEFAULT_DEADLINE_SETTINGS |}.

Definition secondSale : State :=
  setRedemption (Some 40) true
    (setAmounts (Some 250) (Some 300)
       (setMobile (dayAfter 10) shopAfterFirstSale "9000000001" initialState)).

Definition afterSecondSale : list Customer.t :=
  match handleTransactionSubmit (dayAfter 10) shopAfterFirstSale secondSale with
  | Some r => nextCustomers r
  | None => []
  end.

(** ** components/Dashboard.tsx: the overview and the other sections *)

(** The sum a [reduce] or [forEach] accumulates, written on the list. *)
Definition sumOf {A : Type} (f : A -> Q) (l : list A) : Q :=
  fold_right (fun x acc => f x + acc) 0 l.

(** The number of records stored under a mobile. *)
Definition countKey (key : string) (cs : list Customer.t) : nat :=
  List.length (filter (fun c => String.eqb (Customer.mobile c) key) cs).

Module DashboardStats.
Record t : Type := mk {
  totalCustomers : nat;
  totalRevenue : Q;
  totalPoints : Q
}.
End DashboardStats.

(** [dashboardStats], the memo behind the overview cards. *)
Definition dashboardStats (cs : list Customer.t) : DashboardStats.t :=
  let totalCustomers := List.length cs in
  let totalRevenue :=
    fold_left (fun acc c => acc + JS.orZero (Some (Customer.totalSpent c))) cs 0 in
  let totalPoints :=
    fold_left (fun acc c => acc + JS.orZero (Some (Customer.points c))) cs 0 in
  DashboardStats.mk totalCustomers totalRevenue totalPoints.

(** [setCustomers]: the parent stores the collection and passes it back. *)
Definition withCustomers (p : Props) (cs : list Customer.t) : Props :=
  {| currentUser := currentUser p; customers := cs;
     tierSettings := tierSettings p;
     discountSettings := discountSettings p;
     deadlineSettings := deadlineSettings p |}.

(** [handlePinVerify]: it either opens the transaction form or sets
    [pinError].  [pin.length] is read as the length of the text. *)
Inductive PinOutcome : Type :=
| PinAccepted
| PinRejected (pinError : string).

Definition handlePinVerify (st : State) : PinOutcome :=
  if isNewCustomer st then
    if (String.length (pin st) =? 4)%nat then PinAccepted
    else PinRejected "PIN must be 4 digits."
  else
    match currentCustomer st with
    | Some c =>
        if String.eqb (Customer.pin c) (pin st) then PinAccepted
        else PinRejected "Incorrect PIN code."
    | None => PinRejected "Incorrect PIN code."
    end.

(** [SearchSection.handleSearch]: what it hands to [setFoundCustomer] and
    to [setNotFound]. *)
Definition handleSearch (cs : list Customer.t) (searchTerm : string)
    : option Customer.t * bool :=
  let customer := find (fun c => String.eqb (Customer.mobile c) searchTerm) cs in
  (customer, negb (isSome customer)).

(** The days left for the tier benefits, as the search card, the customers
    table and the customers' SMS compute them; [None] is shown as N/A. *)
Definition daysLeft (now : Z) (c : Customer.t) (dl : DeadlineSettings.t)
    (ts : TierSettings.t) : option Q :=
  let e := checkDiscountEligibility now c dl ts in
  match Eligibility.deadline e, Eligibility.daysSinceLastTxn e with
  | Some deadline, Some days => Some (JS.Math_max 0 (deadline - days))
  | _, _ => Eligibility.deadline e
  end.

(** ** components/Dashboard.tsx: the analytics section *)

Module Analytics.

(** [Math.round]: to the nearest whole number, halves upwards. *)
Definition Math_round (q : Q) : Q := inject_Z (Qfloor (q + (1 # 2))).

(** The three totals the [forEach] accumulates. *)
Definition totalRevenue (cs : list Customer.t) : Q :=
  fold_left (fun acc c => acc + JS.orZero (Some (Customer.totalSpent c))) cs 0.

Definition totalPoints (cs : list Customer.t) : Q :=
  fold_left (fun acc c => acc + JS.orZero (Some (Customer.points c))) cs 0.

Definition totalTxns (cs : list Customer.t) : nat :=
  fold_left (fun acc c => (acc + List.length (Customer.history c))%nat) cs 0%nat.

(** [totalTxns > 0 ? Math.round(totalRevenue / totalTxns) : 0] *)
Definition aov (cs : list Customer.t) : Q :=
  if (0 <? totalTxns cs)%nat then
    Math_round (totalRevenue cs / inject_Z (Z.of_nat (totalTxns cs)))
  else 0.

Definition tier_eqb (a b : Tier) : bool :=
  match a, b with
  | Bronze, Bronze | Silver, Silver | Gold, Gold | Platinum, Platinum => true
  | _, _ => false
  end.

(** [acc[tier] = (acc[tier] || 0) + 1] on an object whose keys keep the
    order in which they were first set. *)
Fixpoint bump (tier : Tier) (acc : list (Tier * nat)) : list (Tier * nat) :=
  match acc with
  | [] => [(tier, 1%nat)]
  | (t, n) :: rest =>
      if tier_eqb t tier then (t, (n + 1)%nat) :: rest
      else (t, n) :: bump tier rest
  end.

(** [tierCounts], and with it [pieData], its entries. *)
Definition tierCounts (cs : list Customer.t) (ts : TierSettings.t)
    : list (Tier * nat) :=
  fold_left (fun acc c => bump (getCustomerTier c ts) acc) cs [].

(** The comparator of the sort, [b.totalSpent - a.totalSpent]. *)
Definition bySpendDesc (a b : Customer.t) : Q :=
  Customer.totalSpent b - Customer.totalSpent a.

(** [Array.prototype.sort] is stable; on a comparator that orders the
    elements consistently it returns what this stable insertion sort
    returns. *)
Fixpoint insertSorted {A : Type} (cmp : A -> A -> Q) (x : A) (l : list A) : list A :=
  match l with
  | [] => [x]
  | y :: rest =>
      if JS.leb (cmp x y) 0 then x :: y :: rest
      else y :: insertSorted cmp x rest
  end.

Definition sort {A : Type} (cmp : A -> A -> Q) (l : list A) : list A :=
  fold_right (insertSorted cmp) [] l.

(** [[...customers].sort(...).slice(0, 5)] *)
Definition topCustomers (cs : list Customer.t) : list Customer.t :=
  firstn 5 (sort bySpendDesc cs).

End Analytics.

(** The count an object of tier counts holds for a tier, 0 when the key is
    not set; and the number of customers of a tier. *)
Definition countOf (tier : Tier) (acc : list (Tier * nat)) : nat :=
  match find (fun e => Analytics.tier_eqb (fst e) tier) acc with
  | Some e => snd e
  | None => 0%nat
  end.

Definition customersInTier (tier : Tier) (cs : list Customer.t)
    (ts : TierSettings.t) : nat :=
  List.length (filter (fun c => Analytics.tier_eqb (getCustomerTier c ts) tier) cs).

(** Descending by [totalSpent]. *)
Definition spendsAtLeast (a b : Customer.t) : Prop :=
  Customer.totalSpent b <= Customer.totalSpent a.

(** ** App.tsx: accounts *)

Module App.

(** The two cells the account handlers touch. *)
Record state : Type := mk {
  admins : list Admin;
  currentUser : option Admin
}.

(** [handleLogin]: the next state and the boolean it returns. *)
Definition handleLogin (st : state) (u pw : string) : state * bool :=
  match find (fun a => String.eqb (username a) u && String.eqb (password a) pw)
             (admins st) with
  | Some admin => ({| admins := admins st; currentUser := Some admin |}, true)
  | None => (st, false)
  end.

(** [handleRegister] *)
Definition handleRegister (st : state) (bn u pw : string) : state * bool :=
  if existsb (fun a => String.eqb (username a) u) (admins st) then (st, false)
  else
    let newAdmin := {| businessName := bn; username := u; password := pw |} in
    ({| admins := admins st ++ [newAdmin]; currentUser := Some newAdmin |}, true).

(** [handleLogout] *)
Definition handleLogout (st : state) : state :=
  {| admins := admins st; currentUser := None |}.

(** [!s] on a string. *)
Definition isEmpty (s : string) : bool :=
  match s with EmptyString => true | _ => false end.

(** [AuthPage.handleRegisterSubmit]: the next state and [regError]
    (empty when the account was created). *)
Definition handleRegisterSubmit (st : state)
    (regBusinessName regUsername regPassword regConfirmPassword : string)
    : state * string :=
  if negb (String.eqb regPassword regConfirmPassword) then
    (st, "Passwords do not match."%string)
  else if isEmpty regBusinessName || isEmpty regUsername || isEmpty regPassword then
    (st, "All fields are required."%string)
  else
    let '(st', success) := handleRegister st regBusinessName regUsername regPassword in
    (st', if success then EmptyString else "Username already exists."%string).

(** [AuthPage.handleLoginSubmit]: the next state and [loginError]. *)
Definition handleLoginSubmit (st : state) (loginUsername loginPassword : string)
    : state * string :=
  let '(st', success) := handleLogin st loginUsername loginPassword in
  (st', if success then EmptyString else "Invalid username or password."%string).

(** Every stored account has a business name, a username and a password. *)
Definition complete (a : Admin) : Prop :=
  businessName a <> EmptyString /\ username a <> EmptyString
  /\ password a <> EmptyString.

(** The account lists the registration form can build from none. *)
Inductive Registered : list Admin -> Prop :=
| registered_none : Registered []
| registered_submit (st : state) (bn u pw pw2 : string) :
    Registered (admins st) ->
    Registered (admins (fst (handleRegisterSubmit st bn u pw pw2))).

End App.

(** ** hooks/useLocalStorage.ts: the storage key *)

(** [username ? `${username}_${key}` : key] *)
Definition userKey (key : string) (user : option string) : string :=
  match user with
  | Some u => if App.isEmpty u then key else (u ++ "_" ++ key)%string
  | None => key
  end.

(** Whether a text holds an underscore. *)
Fixpoint hasUnderscore (s : string) : bool :=
  match s with
  | EmptyString => false
  | String c rest => Ascii.eqb c "_"%char || hasUnderscore rest
  end.

(** The keys [App] stores under. *)
Definition storeKeys : list string :=
  ["adminsDB"; "loyaltyDB"; "loyaltySettings"; "loyaltyDiscounts";
   "loyaltyDeadlines"; "smsLogsDB"]%string.

(** ** components/Dashboard.tsx: the settings editors *)

Module Editor.

(** A decimal digit's value. *)
Definition digitOf (c : ascii) : option N :=
  let n := N_of_ascii c in
  if (48 <=? n)%N && (n <=? 57)%N then Some (n - 48)%N else None.

(** [/^\d*$/.test(value)] *)
Fixpoint allDigits (s : string) : bool :=
  match s with
  | EmptyString => true
  | String c rest => isSome (digitOf c) && allDigits rest
  end.

(** The white space [parseInt] skips, for a text of ASCII characters. *)
Definition isWhiteSpace (c : ascii) : bool :=
  let n := N_of_ascii c in
  ((9 <=? n)%N && (n <=? 13)%N) || (n =? 32)%N.

Fixpoint skipWhiteSpace (s : string) : string :=
  match s with
  | String c rest => if isWhiteSpace c then skipWhiteSpace rest else s
  | EmptyString => s
  end.

(** The longest run of digits at the start of a text, read in base 10;
    [None] when the text does not start with a digit. *)
Fixpoint digitsPrefix (s : string) (acc : N) (seen : bool) : option N :=
  match s with
  | EmptyString => if seen then Some acc else None
  | String c rest =>
      match digitOf c with
      | Some d => digitsPrefix rest (acc * 10 + d)%N true
      | None => if seen then Some acc else None
      end
  end.

(** The whole number [parseInt(s, 10)] reads: white space, an optional
    sign, digits; [None] when there is no digit to read. *)
Definition mathInt (s : string) : option Z :=
  match skipWhiteSpace s with
  | String "-" rest => option_map (fun n => (- Z.of_N n)%Z) (digitsPrefix rest 0 false)
  | String "+" rest => option_map Z.of_N (digitsPrefix rest 0 false)
  | t => option_map Z.of_N (digitsPrefix t 0 false)
  end.

(** [parseInt(s, 10)]: the double nearest to the whole number read, NaN
    when there is none.  (A numeral of more than 308 digits can exceed the
    largest double; the code has Infinity there, which the model does not
    hold.) *)
Definition parseInt (s : string) : JS.parsed :=
  option_map (fun z => JS.roundDouble (inject_Z z)) (mathInt s).

(** [parseInt(s, 10) || 0] *)
Definition parseIntOrZero (s : string) : Q := JS.orZero (parseInt s).

(** The text of a whole number that is not negative, as typed. *)
Definition numeral (n : nat) : string :=
  DecimalString.NilZero.string_of_uint (Nat.to_uint n).

(** The form state of the discount and of the deadline editor. *)
Record TierTexts : Type := {
  bronze : string;
  silver : string;
  gold : string;
  platinum : string
}.

Definition text (fs : TierTexts) (tier : Tier) : string :=
  match tier with
  | Bronze => bronze fs
  | Silver => silver fs
  | Gold => gold fs
  | Platinum => platinum fs
  end.

(** [{ ...prev, [tier]: value }] *)
Definition setText (tier : Tier) (value : string) (prev : TierTexts) : TierTexts :=
  match tier with
  | Bronze => {| bronze := value; silver := silver prev; gold := gold prev;
                 platinum := platinum prev |}
  | Silver => {| bronze := bronze prev; silver := value; gold := gold prev;
                 platinum := platinum prev |}
  | Gold => {| bronze := bronze prev; silver := silver prev; gold := value;
               platinum := platinum prev |}
  | Platinum => {| bronze := bronze prev; silver := silver prev; gold := gold prev;
                   platinum := value |}
  end.

(** [handleInputChange] of [DiscountSettingsEditor] and of
    [DeadlineSettingsEditor]. *)
Definition handleInputChange (tier : Tier) (value : string) (fs : TierTexts)
    : TierTexts :=
  if allDigits value then setText tier value fs else fs.

(** [DiscountSettingsEditor.handleSaveChanges]: what it hands to
    [setDiscountSettings]. *)
Definition saveDiscounts (formState : TierTexts) : DiscountSettings.t :=
  {| DiscountSettings.bronze := parseIntOrZero (bronze formState);
     DiscountSettings.silver := parseIntOrZero (silver formState);
     DiscountSettings.gold := parseIntOrZero (gold formState);
     DiscountSettings.platinum := parseIntOrZero (platinum formState) |}.

(** [DeadlineSettingsEditor.handleSaveChanges] *)
Definition saveDeadlines (formState : TierTexts) : DeadlineSettings.t :=
  {| DeadlineSettings.bronze := parseIntOrZero (bronze formState);
     DeadlineSettings.silver := parseIntOrZero (silver formState);
     DeadlineSettings.gold := parseIntOrZero (gold formState);
     DeadlineSettings.platinum := parseIntOrZero (platinum formState) |}.

(** The form state of the tier editor: two texts for every tier. *)
Record ThresholdTexts : Type := {
  minSpendText : string;
  minPointsText : string
}.

Record TierForm : Type := {
  bronzeTexts : ThresholdTexts;
  silverTexts : ThresholdTexts;
  goldTexts : ThresholdTexts;
  platinumTexts : ThresholdTexts
}.

Inductive Field : Type := MinSpend | MinPoints.

Definition texts (fs : TierForm) (tier : Tier) : ThresholdTexts :=
  match tier with
  | Bronze => bronzeTexts fs
  | Silver => silverTexts fs
  | Gold => goldTexts fs
  | Platinum => platinumTexts fs
  end.

Definition fieldText (t : ThresholdTexts) (field : Field) : string :=
  match field with
  | MinSpend => minSpendText t
  | MinPoints => minPointsText t
  end.

(** [{ ...prev[tier], [field]: value }] *)
Definition setField (field : Field) (value : string) (t : ThresholdTexts)
    : ThresholdTexts :=
  match field with
  | MinSpend => {| minSpendText := value; minPointsText := minPointsText t |}
  | MinPoints => {| minSpendText := minSpendText t; minPointsText := value |}
  end.

(** [TierSettingsEditor.handleInputChange] *)
Definition handleTierInputChange (tier : Tier) (field : Field) (value : string)
    (prev : TierForm) : TierForm :=
  if allDigits value then
    match tier with
    | Bronze => {| bronzeTexts := setField field value (bronzeTexts prev);
                   silverTexts := silverTexts prev; goldTexts := goldTexts prev;
                   platinumTexts := platinumTexts prev |}
    | Silver => {| bronzeTexts := bronzeTexts prev;
                   silverTexts := setField field value (silverTexts prev);
                   goldTexts := goldTexts prev; platinumTexts := platinumTexts prev |}
    | Gold => {| bronzeTexts := bronzeTexts prev; silverTexts := silverTexts prev;
                 goldTexts := setField field value (goldTexts prev);
                 platinumTexts := platinumTexts prev |}
    | Platinum => {| bronzeTexts := bronzeTexts prev; silverTexts := silverTexts prev;
                     goldTexts := goldTexts prev;
                     platinumTexts := setField field value (platinumTexts prev) |}
    end
  else prev.

Definition saveThreshold (t : ThresholdTexts) : TierThreshold :=
  {| minSpend := parseIntOrZero (minSpendText t);
     minPoints := parseIntOrZero (minPointsText t) |}.

(** [TierSettingsEditor.handleSaveChanges] *)
Definition saveTiers (formState : TierForm) : TierSettings.t :=
  {| TierSettings.bronze := saveThreshold (bronzeTexts formState);
     TierSettings.silver := saveThreshold (silverTexts formState);
     TierSettings.gold := saveThreshold (goldTexts formState);
     TierSettings.platinum := saveThreshold (platinumTexts formState) |}.

(** The threshold of a tier in a settings value. *)
Definition threshold (s : TierSettings.t) (tier : Tier) : TierThreshold :=
  match tier with
  | Bronze => TierSettings.bronze s
  | Silver => TierSettings.silver s
  | Gold => TierSettings.gold s
  | Platinum => TierSettings.platinum s
  end.

Definition thresholdField (t : TierThreshold) (field : Field) : Q :=
  match field with
  | MinSpend => minSpend t
  | MinPoints => minPoints t
  end.

End Editor.

(** * Properties *)

(** ** Doubles *)

Lemma pow2_pos (e : Z) : 0 < 2 ^ e.
Proof. apply Qpower_0_lt. reflexivity. Qed.

Lemma pow2_add (a b : Z) : 2 ^ (a + b) == 2 ^ a * 2 ^ b.
Proof. apply Qpower_plus. discriminate. Qed.

Lemma pow2_le (a b : Z) : (a <= b)%Z -> 2 ^ a <= 2 ^ b.
Proof. intro H. apply Qpower_le_compat_l; [exact H | discriminate]. Qed.

Lemma pow2_lt_inv (a b : Z) : 2 ^ a < 2 ^ b -> (a < b)%Z.
Proof. intro H. apply (Qpower_lt_compat_l_inv 2); [exact H | reflexivity]. Qed.

Lemma pow2_Z (a : Z) : (0 <= a)%Z -> inject_Z (2 ^ a) == 2 ^ a.
Proof. intro H. apply (Zpower_Qpower 2 a H). Qed.

Lemma pow2_cancel (e : Z) : 2 ^ (- e) * 2 ^ e == 1.
Proof. rewrite <- pow2_add. replace (- e + e)%Z with 0%Z by lia. reflexivity. Qed.

(** [JS.ilog2] is the binary exponent. *)
Lemma ilog2_spec (x : Q) : 0 < x -> 2 ^ JS.ilog2 x <= x /\ x < 2 ^ (JS.ilog2 x + 1).
Proof.
  intro Hx. destruct x as [n d]. unfold JS.ilog2. cbn [Qnum Qden].
  assert (Hn : (0 < n)%Z) by (unfold Qlt in Hx; cbn in Hx; lia).
  set (a := Z.log2 n). set (b := Z.log2 (Z.pos d)).
  assert (Ha0 : (0 <= a)%Z) by apply Z.log2_nonneg.
  assert (Hb0 : (0 <= b)%Z) by apply Z.log2_nonneg.
  destruct (Z.log2_spec n Hn) as [Ha1 Ha2]. fold a in Ha1, Ha2.
  destruct (Z.log2_spec (Z.pos d) eq_refl) as [Hb1 Hb2]. fold b in Hb1, Hb2.
  assert (Qa1 : 2 ^ a <= inject_Z n) by (rewrite <- pow2_Z by lia; rewrite <- Zle_Qle; lia).
  assert (Qa2 : inject_Z n < 2 ^ (a + 1))
    by (rewrite <- pow2_Z by lia; rewrite <- Zlt_Qlt; lia).
  assert (Qb1 : 2 ^ b <= inject_Z (Z.pos d))
    by (rewrite <- pow2_Z by lia; rewrite <- Zle_Qle; lia).
  assert (Qb2 : inject_Z (Z.pos d) < 2 ^ (b + 1))
    by (rewrite <- pow2_Z by lia; rewrite <- Zlt_Qlt; lia).
  assert (Hd : 0 < inject_Z (Z.pos d)) by reflexivity.
  assert (Hxd : (n # d) * inject_Z (Z.pos d) == inject_Z n).
  { unfold Qeq, Qmult, inject_Z. cbn. lia. }
  assert (Up : n # d < 2 ^ (a - b + 1)).
  { apply (Qmult_lt_r _ _ (inject_Z (Z.pos d)) Hd). rewrite Hxd.
    eapply Qlt_le_trans; [exact Qa2|].
    replace (a + 1)%Z with ((a - b + 1) + b)%Z by lia. rewrite pow2_add.
    apply Qmult_le_l; [apply pow2_pos | exact Qb1]. }
  assert (Lo : 2 ^ (a - b - 1) <= n # d).
  { apply (Qmult_le_r _ _ (inject_Z (Z.pos d)) Hd). rewrite Hxd.
    eapply Qle_trans; [|exact Qa1].
    replace a with ((a - b - 1) + (b + 1))%Z at 2 by lia. rewrite pow2_add.
    apply Qmult_le_l; [apply pow2_pos | apply Qlt_le_weak; exact Qb2]. }
  destruct (Qle_bool (2 ^ (a - b)) (n # d)) eqn:E.
  - apply Qle_bool_iff in E. split; assumption.
  - split; [exact Lo|]. replace (a - b - 1 + 1)%Z with (a - b)%Z by lia.
    apply Qnot_le_lt. intro H. apply Qle_bool_iff in H. congruence.
Qed.

Lemma ilog2_mono (x y : Q) : 0 < x -> x <= y -> (JS.ilog2 x <= JS.ilog2 y)%Z.
Proof.
  intros Hx Hxy.
  destruct (ilog2_spec x Hx) as [Lx _].
  destruct (ilog2_spec y (Qlt_le_trans _ _ _ Hx Hxy)) as [_ Uy].
  assert (H : 2 ^ JS.ilog2 x < 2 ^ (JS.ilog2 y + 1)).
  { eapply Qle_lt_trans; [exact Lx|]. eapply Qle_lt_trans; [exact Hxy | exact Uy]. }
  apply pow2_lt_inv in H. lia.
Qed.

Lemma ilog2_below (x : Q) (l : Z) : 0 < x -> x < 2 ^ l -> (JS.ilog2 x < l)%Z.
Proof.
  intros Hx H. destruct (ilog2_spec x Hx) as [Lx _].
  apply pow2_lt_inv. eapply Qle_lt_trans; eassumption.
Qed.

Lemma ilog2_above (x : Q) (l : Z) : 2 ^ l <= x -> (l <= JS.ilog2 x)%Z.
Proof.
  intro H. assert (Hx : 0 < x) by (eapply Qlt_le_trans; [apply (pow2_pos l) | exact H]).
  destruct (ilog2_spec x Hx) as [_ Ux].
  assert (H' : 2 ^ l < 2 ^ (JS.ilog2 x + 1)) by (eapply Qle_lt_trans; eassumption).
  apply pow2_lt_inv in H'. lia.
Qed.

(** Rounding to the nearest whole number, halves to the even one. *)
Lemma roundHalfEven_bounds (r : Q) :
  (Qfloor r <= JS.roundHalfEven r <= Qfloor r + 1)%Z.
Proof.
  unfold JS.roundHalfEven.
  destruct (Qcompare (r - inject_Z (Qfloor r)) (1 # 2));
    [destruct (Z.even (Qfloor r))|..]; lia.
Qed.

Lemma roundHalfEven_mono (r s : Q) : r <= s -> (JS.roundHalfEven r <= JS.roundHalfEven s)%Z.
Proof.
  intro H. pose proof (Qfloor_resp_le r s H) as Hf.
  pose proof (roundHalfEven_bounds r) as Br. pose proof (roundHalfEven_bounds s) as Bs.
  destruct (Z.eq_dec (Qfloor r) (Qfloor s)) as [E|E]; [|lia].
  clear Br Bs. unfold JS.roundHalfEven. rewrite <- E.
  destruct (Qcompare (r - inject_Z (Qfloor r)) (1 # 2)) eqn:Cr;
  destruct (Qcompare (s - inject_Z (Qfloor r)) (1 # 2)) eqn:Cs;
    try (destruct (Z.even (Qfloor r))); try lia; exfalso;
    repeat match goal with
           | C : Qcompare _ _ = Eq |- _ => apply Qeq_alt in C
           | C : Qcompare _ _ = Lt |- _ => apply Qlt_alt in C
           | C : Qcompare _ _ = Gt |- _ => apply Qgt_alt in C
           end; lra.
Qed.

Lemma roundHalfEven_comp (r s : Q) : r == s -> JS.roundHalfEven r = JS.roundHalfEven s.
Proof.
  intro H. apply Z.le_antisymm; apply roundHalfEven_mono; rewrite H; apply Qle_refl.
Qed.

Lemma roundHalfEven_Z (z : Z) : JS.roundHalfEven (inject_Z z) = z.
Proof.
  unfold JS.roundHalfEven. rewrite Qfloor_Z.
  assert (E : Qcompare (inject_Z z - inject_Z z) (1 # 2) = Lt).
  { apply (proj1 (Qlt_alt _ _)). generalize (inject_Z z). intro q. lra. }
  rewrite E. reflexivity.
Qed.

Lemma roundPositive_eq (x : Q) :
  JS.roundPositive x = inject_Z (JS.roundHalfEven (x * 2 ^ (- JS.exponent x))) * 2 ^ JS.exponent x.
Proof. reflexivity. Qed.

Lemma roundPositive_nonneg (x : Q) : 0 < x -> 0 <= JS.roundPositive x.
Proof.
  intro Hx. rewrite roundPositive_eq.
  apply Qmult_le_0_compat; [|apply Qlt_le_weak, pow2_pos].
  change 0 with (inject_Z 0). rewrite <- Zle_Qle.
  eapply Z.le_trans; [|apply roundHalfEven_bounds].
  change 0%Z with (Qfloor 0). apply Qfloor_resp_le.
  apply Qmult_le_0_compat; [lra | apply Qlt_le_weak, pow2_pos].
Qed.

Lemma scaled_below (x : Q) : 0 < x -> x * 2 ^ (- JS.exponent x) < 2 ^ 53.
Proof.
  intro Hx. destruct (ilog2_spec x Hx) as [_ U].
  apply (Qmult_lt_r _ _ (2 ^ JS.exponent x) (pow2_pos _)).
  rewrite <- Qmult_assoc, pow2_cancel, Qmult_1_r, <- pow2_add.
  eapply Qlt_le_trans; [exact U|]. apply pow2_le. unfold JS.exponent. lia.
Qed.

Lemma scaled_above (x : Q) :
  0 < x -> (-1074 < JS.exponent x)%Z -> 2 ^ 52 <= x * 2 ^ (- JS.exponent x).
Proof.
  intros Hx He. destruct (ilog2_spec x Hx) as [L _].
  apply (Qmult_le_r _ _ (2 ^ JS.exponent x) (pow2_pos _)).
  rewrite <- Qmult_assoc, pow2_cancel, Qmult_1_r, <- pow2_add.
  eapply Qle_trans; [|exact L]. apply pow2_le. unfold JS.exponent in *. lia.
Qed.

Lemma roundPositive_mono (x y : Q) :
  0 < x -> x <= y -> JS.roundPositive x <= JS.roundPositive y.
Proof.
  intros Hx Hxy. assert (Hy : 0 < y) by lra.
  pose proof (ilog2_mono x y Hx Hxy) as Hl.
  rewrite !roundPositive_eq.
  destruct (Z.eq_dec (JS.exponent x) (JS.exponent y)) as [E|E].
  - rewrite E. apply Qmult_le_compat_r; [|apply Qlt_le_weak, pow2_pos].
    rewrite <- Zle_Qle. apply roundHalfEven_mono.
    apply Qmult_le_compat_r; [exact Hxy | apply Qlt_le_weak, pow2_pos].
  - assert (Hlt : (JS.exponent x + 1 <= JS.exponent y)%Z) by (unfold JS.exponent in *; lia).
    assert (Hey : (-1074 < JS.exponent y)%Z) by (unfold JS.exponent in *; lia).
    apply Qle_trans with (2 ^ 53 * 2 ^ JS.exponent x).
    + apply Qmult_le_compat_r; [|apply Qlt_le_weak, pow2_pos].
      rewrite <- (pow2_Z 53) by lia. rewrite <- Zle_Qle.
      pose proof (roundHalfEven_bounds (x * 2 ^ (- JS.exponent x))) as [_ B].
      pose proof (scaled_below x Hx) as S.
      assert (F : (Qfloor (x * 2 ^ (- JS.exponent x)) < 2 ^ 53)%Z).
      { rewrite Zlt_Qlt. eapply Qle_lt_trans; [apply Qfloor_le|].
        rewrite pow2_Z by lia. exact S. }
      lia.
    + apply Qle_trans with (2 ^ 52 * 2 ^ JS.exponent y).
      * rewrite <- !pow2_add. apply pow2_le. lia.
      * apply Qmult_le_compat_r; [|apply Qlt_le_weak, pow2_pos].
        rewrite <- (pow2_Z 52) by lia. rewrite <- Zle_Qle.
        eapply Z.le_trans; [|apply roundHalfEven_bounds].
        pose proof (scaled_above y Hy Hey) as S.
        rewrite <- (Qfloor_Z (2 ^ 52)). apply Qfloor_resp_le.
        rewrite pow2_Z by lia. exact S.
Qed.

Lemma roundDouble_0 : JS.roundDouble 0 = 0.
Proof. reflexivity. Qed.

Lemma roundDouble_mono (x y : Q) : x <= y -> JS.roundDouble x <= JS.roundDouble y.
Proof.
  intro H. unfold JS.roundDouble. apply Qred_le.
  destruct (Qcompare x 0) eqn:Cx; destruct (Qcompare y 0) eqn:Cy;
    repeat match goal with
           | C : Qcompare _ _ = Eq |- _ => apply Qeq_alt in C
           | C : Qcompare _ _ = Lt |- _ => apply Qlt_alt in C
           | C : Qcompare _ _ = Gt |- _ => apply Qgt_alt in C
           end;
    try (exfalso; lra); try apply Qle_refl.
  - apply roundPositive_nonneg. lra.
  - assert (0 <= JS.roundPositive (- x)) by (apply roundPositive_nonneg; lra). lra.
  - assert (JS.roundPositive (- y) <= JS.roundPositive (- x))
      by (apply roundPositive_mono; lra). lra.
  - assert (0 <= JS.roundPositive (- x)) by (apply roundPositive_nonneg; lra).
    assert (0 <= JS.roundPositive y) by (apply roundPositive_nonneg; lra). lra.
  - apply roundPositive_mono; lra.
Qed.

(** The sign of a double difference is the sign of the difference. *)
Lemma sub_nonpos (x y : Q) : x <= y -> JS.sub x y <= 0.
Proof.
  intro H. unfold JS.sub.
  apply Qle_trans with (JS.roundDouble 0); [|rewrite roundDouble_0; apply Qle_refl].
  apply roundDouble_mono. pose proof (roundDouble_mono x y H). lra.
Qed.

Lemma sub_nonneg (x y : Q) : y <= x -> 0 <= JS.sub x y.
Proof.
  intro H. unfold JS.sub.
  apply Qle_trans with (JS.roundDouble 0); [rewrite roundDouble_0; apply Qle_refl|].
  apply roundDouble_mono. pose proof (roundDouble_mono y x H). lra.
Qed.

(** Whole numbers below 2^53 are doubles. *)
Lemma roundPositive_whole (z : Z) :
  (0 < z < 2 ^ 53)%Z -> JS.roundPositive (inject_Z z) == inject_Z z.
Proof.
  intros [H0 H1].
  assert (Hx : 0 < inject_Z z) by (change 0 with (inject_Z 0); rewrite <- Zlt_Qlt; lia).
  assert (Hl : (JS.ilog2 (inject_Z z) < 53)%Z).
  { apply ilog2_below; [exact Hx|]. rewrite <- pow2_Z by lia. rewrite <- Zlt_Qlt. exact H1. }
  assert (Hl0 : (0 <= JS.ilog2 (inject_Z z))%Z).
  { apply ilog2_above. change (2 ^ 0) with (inject_Z 1). rewrite <- Zle_Qle. lia. }
  rewrite roundPositive_eq.
  set (e := JS.exponent (inject_Z z)).
  assert (He : (e = JS.ilog2 (inject_Z z) - 52)%Z) by (unfold e, JS.exponent; lia).
  assert (Hs : inject_Z z * 2 ^ (- e) == inject_Z (z * 2 ^ (- e))).
  { rewrite inject_Z_mult, pow2_Z by lia. reflexivity. }
  rewrite (roundHalfEven_comp _ _ Hs), roundHalfEven_Z.
  rewrite inject_Z_mult, pow2_Z by lia.
  rewrite <- Qmult_assoc, pow2_cancel. apply Qmult_1_r.
Qed.

Lemma Qred_whole (q : Q) (z : Z) : q == inject_Z z -> Qred q = inject_Z z.
Proof.
  intro H. rewrite (Qred_complete _ _ H). unfold inject_Z, Qred. cbn.
  destruct (Z.ggcd z 1) as [g [a b]] eqn:E.
  pose proof (Z.ggcd_correct_divisors z 1) as D. rewrite E in D. destruct D as [D1 D2].
  pose proof (Z.ggcd_gcd z 1) as G. rewrite E in G. cbn in G. rewrite Z.gcd_1_r in G.
  subst g. assert (Ha : a = z) by lia. assert (Hb : b = 1%Z) by lia.
  rewrite Ha, Hb. reflexivity.
Qed.

Lemma roundDouble_whole (z : Z) :
  (0 <= z < 2 ^ 53)%Z -> JS.roundDouble (inject_Z z) = inject_Z z.
Proof.
  intros [H0 H1]. destruct (Z.eq_dec z 0) as [->|Hz]; [reflexivity|].
  unfold JS.roundDouble.
  assert (C : Qcompare (inject_Z z) 0 = Gt).
  { apply (proj1 (Qgt_alt _ _)). change 0 with (inject_Z 0). rewrite <- Zlt_Qlt. lia. }
  rewrite C. apply Qred_whole. apply roundPositive_whole. lia.
Qed.

(** A non-negative whole number rounds to a non-negative whole number. *)
Lemma roundDouble_whole_any (z : Z) :
  (0 <= z)%Z -> exists k : Z, (0 <= k)%Z /\ JS.roundDouble (inject_Z z) = inject_Z k.
Proof.
  intro H0. destruct (Z_lt_le_dec z (2 ^ 53)) as [H1|H1].
  - exists z. split; [exact H0 | apply roundDouble_whole; lia].
  - assert (Hx : 0 < inject_Z z) by (change 0 with (inject_Z 0); rewrite <- Zlt_Qlt; lia).
    assert (Hl : (53 <= JS.ilog2 (inject_Z z))%Z).
    { apply ilog2_above. rewrite <- pow2_Z by lia. rewrite <- Zle_Qle. exact H1. }
    unfold JS.roundDouble.
    assert (C : Qcompare (inject_Z z) 0 = Gt) by (apply (proj1 (Qgt_alt _ _)); exact Hx).
    rewrite C. rewrite roundPositive_eq.
    set (e := JS.exponent (inject_Z z)).
    assert (He : (1 <= e)%Z) by (unfold e, JS.exponent; lia).
    set (m := JS.roundHalfEven (inject_Z z * 2 ^ (- e))).
    assert (Hm : (0 <= m)%Z).
    { unfold m. eapply Z.le_trans; [|apply roundHalfEven_bounds].
      change 0%Z with (Qfloor 0). apply Qfloor_resp_le.
      apply Qmult_le_0_compat; [lra | apply Qlt_le_weak, pow2_pos]. }
    exists (m * 2 ^ e)%Z. split; [apply Z.mul_nonneg_nonneg; lia|].
    apply Qred_whole. rewrite inject_Z_mult, pow2_Z by lia. reflexivity.
Qed.

Lemma ilog2_comp (x y : Q) : 0 < x -> x == y -> JS.ilog2 x = JS.ilog2 y.
Proof.
  intros Hx E. assert (Hy : 0 < y) by (rewrite <- E; exact Hx).
  apply Z.le_antisymm; apply ilog2_mono; try assumption; rewrite E; apply Qle_refl.
Qed.

Lemma roundPositive_comp (x y : Q) : 0 < x -> x == y -> JS.roundPositive x == JS.roundPositive y.
Proof.
  intros Hx E. rewrite !roundPositive_eq. unfold JS.exponent.
  rewrite <- (ilog2_comp x y Hx E).
  assert (S : x * 2 ^ (- Z.max (JS.ilog2 x - 52) (-1074))
              == y * 2 ^ (- Z.max (JS.ilog2 x - 52) (-1074)))
    by (apply Qmult_comp; [exact E | reflexivity]).
  rewrite (roundHalfEven_comp _ _ S). reflexivity.
Qed.

Lemma roundDouble_comp (x y : Q) : x == y -> JS.roundDouble x = JS.roundDouble y.
Proof.
  intro E. unfold JS.roundDouble. apply Qred_complete. rewrite <- E.
  destruct (Qcompare x 0) eqn:C.
  - reflexivity.
  - apply Qlt_alt in C. rewrite (roundPositive_comp (- x) (- y)); [reflexivity | lra |].
    rewrite E. reflexivity.
  - apply Qgt_alt in C. apply roundPositive_comp; [lra | exact E].
Qed.

(** A mantissa of at most 53 bits over an exponent in range is a double. *)
Lemma roundPositive_fixed (m e : Z) :
  (0 < m <= 2 ^ 53)%Z -> (-1074 <= e)%Z ->
  JS.roundPositive (inject_Z m * 2 ^ e) == inject_Z m * 2 ^ e.
Proof.
  intros [Hm0 Hm1] He.
  set (y := inject_Z m * 2 ^ e).
  assert (Hy : 0 < y).
  { unfold y. apply Qmult_lt_0_compat; [|apply pow2_pos].
    change 0 with (inject_Z 0). rewrite <- Zlt_Qlt. exact Hm0. }
  assert (Hlo : (JS.exponent y <= e + 1)%Z).
  { assert (JS.ilog2 y < 54 + e)%Z; [|unfold JS.exponent; lia].
    apply ilog2_below; [exact Hy|]. unfold y. rewrite pow2_add.
    apply Qmult_lt_compat_r; [apply pow2_pos|].
    rewrite <- (pow2_Z 54) by lia. rewrite <- Zlt_Qlt. lia. }
  assert (K : exists k : Z, y * 2 ^ (- JS.exponent y) == inject_Z k).
  { destruct (Z_le_gt_dec (JS.exponent y) e) as [L|G].
    - exists (m * 2 ^ (e - JS.exponent y))%Z.
      rewrite inject_Z_mult, pow2_Z by lia. unfold y.
      rewrite <- Qmult_assoc, <- pow2_add.
      replace (e + - JS.exponent y)%Z with (e - JS.exponent y)%Z by lia. reflexivity.
    - assert (E1 : JS.exponent y = (e + 1)%Z) by lia.
      assert (Hm : m = (2 ^ 53)%Z).
      { destruct (Z.eq_dec m (2 ^ 53)) as [E|N]; [exact E|exfalso].
        assert (JS.ilog2 y < 53 + e)%Z; [|unfold JS.exponent in E1; lia].
        apply ilog2_below; [exact Hy|]. unfold y. rewrite pow2_add.
        apply Qmult_lt_compat_r; [apply pow2_pos|].
        rewrite <- (pow2_Z 53) by lia. rewrite <- Zlt_Qlt. lia. }
      exists (2 ^ 52)%Z. rewrite E1. unfold y. rewrite Hm.
      rewrite !pow2_Z by lia. rewrite <- Qmult_assoc, <- !pow2_add.
      replace (53 + (e + - (e + 1)))%Z with 52%Z by lia. reflexivity. }
  destruct K as [k Hk].
  rewrite roundPositive_eq. rewrite (roundHalfEven_comp _ _ Hk), roundHalfEven_Z.
  rewrite <- Hk. rewrite <- Qmult_assoc, pow2_cancel. apply Qmult_1_r.
Qed.

Lemma roundPositive_repr (x : Q) :
  0 < x -> exists m : Z, (0 <= m <= 2 ^ 53)%Z
                         /\ JS.roundPositive x = inject_Z m * 2 ^ JS.exponent x.
Proof.
  intro Hx. exists (JS.roundHalfEven (x * 2 ^ (- JS.exponent x))). split; [|reflexivity].
  pose proof (roundHalfEven_bounds (x * 2 ^ (- JS.exponent x))) as [B1 B2].
  split.
  - eapply Z.le_trans; [|exact B1]. change 0%Z with (Qfloor 0). apply Qfloor_resp_le.
    apply Qmult_le_0_compat; [lra | apply Qlt_le_weak, pow2_pos].
  - assert (F : (Qfloor (x * 2 ^ (- JS.exponent x)) < 2 ^ 53)%Z); [|lia].
    rewrite Zlt_Qlt. eapply Qle_lt_trans; [apply Qfloor_le|].
    rewrite pow2_Z by lia. apply scaled_below. exact Hx.
Qed.

Lemma roundPositive_idem (x : Q) :
  0 < x -> 0 < JS.roundPositive x -> JS.roundPositive (JS.roundPositive x) == JS.roundPositive x.
Proof.
  intros Hx Hr. destruct (roundPositive_repr x Hx) as (m & [M0 M1] & E).
  rewrite E in *. apply roundPositive_fixed; [|unfold JS.exponent; lia].
  split; [|exact M1]. destruct (Z.eq_dec m 0) as [->|N]; [|lia].
  exfalso. rewrite Qmult_0_l in Hr. revert Hr. apply Qlt_irrefl.
Qed.

(** Rounding a double leaves it as it is. *)
Lemma roundDouble_idem (x : Q) : JS.roundDouble (JS.roundDouble x) = JS.roundDouble x.
Proof.
  unfold JS.roundDouble at 2 3.
  destruct (Qcompare x 0) eqn:C.
  - reflexivity.
  - apply Qlt_alt in C. assert (Hx : 0 < - x) by lra.
    pose proof (roundPositive_nonneg _ Hx) as N.
    destruct (Qlt_le_dec 0 (JS.roundPositive (- x))) as [P|Z0].
    + rewrite (roundDouble_comp _ (- JS.roundPositive (- x))) by apply Qred_correct.
      unfold JS.roundDouble.
      assert (C' : Qcompare (- JS.roundPositive (- x)) 0 = Lt) by (apply (proj1 (Qlt_alt _ _)); lra).
      rewrite C'. apply Qred_complete.
      rewrite (roundPositive_comp (- - JS.roundPositive (- x)) (JS.roundPositive (- x)));
        [| lra | apply Qopp_involutive].
      rewrite (roundPositive_idem _ Hx P). reflexivity.
    + assert (E : - JS.roundPositive (- x) == 0) by lra.
      rewrite (Qred_complete _ _ E). reflexivity.
  - apply Qgt_alt in C.
    pose proof (roundPositive_nonneg _ C) as N.
    destruct (Qlt_le_dec 0 (JS.roundPositive x)) as [P|Z0].
    + rewrite (roundDouble_comp _ (JS.roundPositive x)) by apply Qred_correct.
      unfold JS.roundDouble.
      assert (C' : Qcompare (JS.roundPositive x) 0 = Gt) by (apply (proj1 (Qgt_alt _ _)); lra).
      rewrite C'. apply Qred_complete. apply (roundPositive_idem _ C P).
    + assert (E : JS.roundPositive x == 0) by lra.
      rewrite (Qred_complete _ _ E). reflexivity.
Qed.

Lemma sub_0_r (x : Q) : JS.sub x 0 = JS.roundDouble x.
Proof.
  unfold JS.sub. rewrite roundDouble_0.
  rewrite (roundDouble_comp (JS.roundDouble x - 0) (JS.roundDouble x))
    by (generalize (JS.roundDouble x); intro q; lra).
  apply roundDouble_idem.
Qed.

(** From here on [roundDouble] is used through the lemmas above. *)
Opaque JS.roundDouble.


(** ** The comparison operators *)

Lemma geb_true (a b : Q) : JS.geb a b = true <-> b <= a.
Proof. unfold JS.geb. apply Qle_bool_iff. Qed.

Lemma leb_true (a b : Q) : JS.leb a b = true <-> a <= b.
Proof. unfold JS.leb. apply Qle_bool_iff. Qed.

Lemma gtb_true (a b : Q) : JS.gtb a b = true <-> b < a.
Proof.
  unfold JS.gtb. rewrite negb_true_iff.
  destruct (Qle_bool a b) eqn:E.
  - apply Qle_bool_iff in E. split; [discriminate | intro H; exfalso; lra].
  - split; [intros _ | reflexivity].
    apply Qnot_le_lt. intro H. apply Qle_bool_iff in H. congruence.
Qed.

Lemma gtb_false (a b : Q) : JS.gtb a b = false <-> a <= b.
Proof.
  unfold JS.gtb. rewrite negb_false_iff. apply Qle_bool_iff.
Qed.

Lemma ltb_true (a b : Q) : JS.ltb a b = true <-> a < b.
Proof. apply (gtb_true b a). Qed.

Lemma ltb_false (a b : Q) : JS.ltb a b = false <-> b <= a.
Proof. apply (gtb_false b a). Qed.

Lemma orZero_Some (q : Q) : JS.orZero (Some q) == q.
Proof.
  unfold JS.orZero. destruct (Qeq_bool q 0) eqn:E; [|reflexivity].
  apply Qeq_bool_iff in E. symmetry. exact E.
Qed.

Lemma Math_min3_glb (a b c : Q) :
  JS.Math_min3 a b c <= a /\ JS.Math_min3 a b c <= b /\ JS.Math_min3 a b c <= c.
Proof.
  unfold JS.Math_min3. repeat split.
  - eapply Qle_trans; [apply Q.le_min_l | apply Q.le_min_l].
  - eapply Qle_trans; [apply Q.le_min_l | apply Q.le_min_r].
  - apply Q.le_min_r.
Qed.

Lemma Math_min3_pos (a b c : Q) :
  0 < a -> 0 < b -> 0 < c -> 0 < JS.Math_min3 a b c.
Proof.
  intros Ha Hb Hc. unfold JS.Math_min3.
  apply Q.min_glb_lt; [apply Q.min_glb_lt|]; assumption.
Qed.

(** ** Tier classification *)

Example tier_spend_gold :
  getTierBySpend (Customer.mk "9876543210" "Asha" "1234" 40 12000 []) DEFAULT_TIER_SETTINGS = Gold.
Proof. reflexivity. Qed.

Example tier_effective_platinum_by_points :
  getCustomerTier (Customer.mk "9876543210" "Asha" "1234" 2500 100 []) DEFAULT_TIER_SETTINGS
  = Platinum.
Proof. reflexivity. Qed.

(** C8: for every customer and every tier settings, monotone or not, the
    effective tier [getCustomerTier] is at least the spend tier
    [getTierBySpend] and at least the points tier [getTierByPoints] in the
    order Bronze < Silver < Gold < Platinum, and it is exactly the higher of
    the two. *)
Theorem getCustomerTier_is_max (c : Customer.t) (s : TierSettings.t) :
  tier_le (getTierBySpend c s) (getCustomerTier c s)
  /\ tier_le (getTierByPoints c s) (getCustomerTier c s)
  /\ tier_rank (getCustomerTier c s)
     = Nat.max (tier_rank (getTierBySpend c s)) (tier_rank (getTierByPoints c s)).
Proof.
  unfold tier_le, getCustomerTier, getTierBySpend, getTierByPoints.
  destruct (JS.geb (Customer.totalSpent c) (minSpend (TierSettings.platinum s)));
  destruct (JS.geb (Customer.points c) (minPoints (TierSettings.platinum s)));
  destruct (JS.geb (Customer.totalSpent c) (minSpend (TierSettings.gold s)));
  destruct (JS.geb (Customer.points c) (minPoints (TierSettings.gold s)));
  destruct (JS.geb (Customer.totalSpent c) (minSpend (TierSettings.silver s)));
  destruct (JS.geb (Customer.points c) (minPoints (TierSettings.silver s)));
  cbn; repeat split; lia.
Qed.

(** ** The bill *)

Lemma tierInfo_known (p : Props) (st : State) (c : Customer.t) :
  currentCustomer st = Some c ->
  tierInfo p st
  = Some {| spendTier := getTierBySpend c (tierSettings p);
            pointsTier := getTierByPoints c (tierSettings p);
            effectiveTier := getCustomerTier c (tierSettings p) |}.
Proof. intro H. unfold tierInfo. rewrite H. reflexivity. Qed.

Lemma discountGuard_true (p : Props) (st : State) (subtotal : Q) :
  discountGuard p st subtotal = true
  <-> usePointsAndDiscount st = true
      /\ Eligibility.eligible (eligibility st) = true
      /\ currentCustomer st <> None
      /\ 0 < subtotal.
Proof.
  unfold discountGuard, tierInfo.
  rewrite !andb_true_iff, gtb_true.
  destruct (currentCustomer st) as [c|]; cbn; split.
  - intros [[[[H1 H2] _] H3] _]. repeat split; try assumption. discriminate.
  - intros (H1 & H2 & _ & H3). repeat split; assumption.
  - intros [[[_ H] _] _]. discriminate.
  - intros (_ & _ & H & _). congruence.
Qed.

Example scenario_plain_bill :
  let bd := billDetails shop (setAmounts (Some 1000) (Some 1000) initialState) in
  BillDetails.finalBill bd == 1000 /\ BillDetails.cashPayable bd == 1000
  /\ BillDetails.pointsEarned bd == 0.
Proof. vm_compute. repeat split. Qed.

Example scenario_discount_and_points :
  let bd := billDetails shop ashaRedeems in
  BillDetails.discountAmount bd == 100 /\ BillDetails.finalBill bd == 900
  /\ BillDetails.pointsUsed bd == 50 /\ BillDetails.cashPayable bd == 850
  /\ BillDetails.pointsEarned bd == 50.
Proof. vm_compute. repeat split. Qed.

(** C2: in [billDetails], [discountPercentage] and [discountAmount] are both
    0 unless the redemption box is ticked, the customer is eligible, a
    customer is known and the subtotal is positive; when all four hold,
    [discountPercentage] is the discount setting of the effective tier and
    [discountAmount] is [subtotal * discountPercentage / 100]; in every case
    [finalBill = subtotal - discountAmount]. *)
Theorem billDetails_discount (p : Props) (st : State) :
  let bd := billDetails p st in
  BillDetails.subtotal bd = JS.orZero (billAmount st)
  /\ (~ (usePointsAndDiscount st = true
         /\ Eligibility.eligible (eligibility st) = true
         /\ currentCustomer st <> None
         /\ 0 < BillDetails.subtotal bd) ->
      BillDetails.discountPercentage bd = 0 /\ BillDetails.discountAmount bd = 0)
  /\ (forall c : Customer.t,
        usePointsAndDiscount st = true ->
        Eligibility.eligible (eligibility st) = true ->
        currentCustomer st = Some c ->
        0 < BillDetails.subtotal bd ->
        BillDetails.discountPercentage bd
          == DiscountSettings.get (discountSettings p) (getCustomerTier c (tierSettings p))
        /\ BillDetails.discountAmount bd
          == BillDetails.subtotal bd * BillDetails.discountPercentage bd / 100)
  /\ BillDetails.finalBill bd = BillDetails.subtotal bd - BillDetails.discountAmount bd.
Proof.
  cbn zeta. unfold billDetails. cbn [BillDetails.subtotal BillDetails.discountPercentage
    BillDetails.discountAmount BillDetails.finalBill].
  set (subtotal := JS.orZero (billAmount st)).
  repeat split.
  - destruct (discountGuard p st subtotal) eqn:G; [|reflexivity].
    apply discountGuard_true in G. contradiction.
  - destruct (discountGuard p st subtotal) eqn:G; [|reflexivity].
    apply discountGuard_true in G. contradiction.
  - assert (G : discountGuard p st subtotal = true).
    { apply discountGuard_true. repeat split; try assumption. congruence. }
    rewrite G, (tierInfo_known p st c) by assumption. cbn [effectiveTier].
    apply orZero_Some.
  - assert (G : discountGuard p st subtotal = true).
    { apply discountGuard_true. repeat split; try assumption. congruence. }
    rewrite G. field.
Qed.

(** The guard of the redemption:
    [usePointsAndDiscount && currentCustomer && currentCustomer.points > 0]. *)
Lemma pointsUsed_guard_on (p : Props) (st : State) (c : Customer.t) :
  usePointsAndDiscount st = true ->
  currentCustomer st = Some c ->
  0 < Customer.points c ->
  BillDetails.pointsUsed (billDetails p st)
  = JS.Math_min3 (Customer.points c) (BillDetails.finalBill (billDetails p st))
                 (JS.orZero (pointsToUse st)).
Proof.
  intros Hu Hc Hp. unfold billDetails.
  cbn [BillDetails.pointsUsed BillDetails.finalBill].
  rewrite Hc, Hu. apply gtb_true in Hp. rewrite Hp. reflexivity.
Qed.

Lemma pointsUsed_guard_off (p : Props) (st : State) :
  ~ (usePointsAndDiscount st = true
     /\ exists c, currentCustomer st = Some c /\ 0 < Customer.points c) ->
  BillDetails.pointsUsed (billDetails p st) = 0.
Proof.
  intro H. unfold billDetails. cbn [BillDetails.pointsUsed].
  destruct (currentCustomer st) as [c|]; [|reflexivity].
  destruct (usePointsAndDiscount st); [|reflexivity].
  destruct (JS.gtb (Customer.points c) 0) eqn:G; [|reflexivity].
  exfalso. apply H. split; [reflexivity|]. exists c. split; [reflexivity|].
  apply gtb_true. exact G.
Qed.

Lemma billDetails_discount_witness :
  (usePointsAndDiscount ashaRedeems = true
   /\ Eligibility.eligible (eligibility ashaRedeems) = true
   /\ currentCustomer ashaRedeems = Some asha
   /\ 0 < BillDetails.subtotal (billDetails shop ashaRedeems)
   /\ BillDetails.discountPercentage (billDetails shop ashaRedeems)
      == DiscountSettings.get (discountSettings shop)
           (getCustomerTier asha (tierSettings shop))
   /\ BillDetails.discountAmount (billDetails shop ashaRedeems)
      == BillDetails.subtotal (billDetails shop ashaRedeems)
         * BillDetails.discountPercentage (billDetails shop ashaRedeems) / 100)
  /\ (Eligibility.eligible (eligibility ashaLate) = false
      /\ BillDetails.discountPercentage (billDetails shop ashaLate) = 0
      /\ BillDetails.discountAmount (billDetails shop ashaLate) = 0).
Proof.
  split.
  - destruct (billDetails_discount shop ashaRedeems) as (_ & _ & H & _).
    assert (Hu : usePointsAndDiscount ashaRedeems = true) by reflexivity.
    assert (He : Eligibility.eligible (eligibility ashaRedeems) = true)
      by (vm_compute; reflexivity).
    assert (Hc : currentCustomer ashaRedeems = Some asha) by reflexivity.
    assert (Hs : 0 < BillDetails.subtotal (billDetails shop ashaRedeems))
      by (vm_compute; reflexivity).
    exact (conj Hu (conj He (conj Hc (conj Hs (H asha Hu He Hc Hs))))).
  - destruct (billDetails_discount shop ashaLate) as (_ & H & _).
    assert (He : Eligibility.eligible (eligibility ashaLate) = false)
      by (vm_compute; reflexivity).
    split; [exact He|].
    apply H. intros (_ & E & _). rewrite He in E. discriminate E.
Defined.

(** C3, as the code has it: [pointsUsed] is 0 unless the redemption box is
    ticked and a known customer has positive points; under that guard it is
    [min(customer.points, finalBill, requestedPoints)] and so at most each of
    the three; with the guard off the three bounds hold whenever the
    customer's points, the final bill and the requested points are not
    negative; and [cashPayable = finalBill - pointsUsed] for every input. *)
Theorem billDetails_pointsUsed (p : Props) (st : State) :
  let bd := billDetails p st in
  let requestedPoints := JS.orZero (pointsToUse st) in
  (~ (usePointsAndDiscount st = true
      /\ exists c, currentCustomer st = Some c /\ 0 < Customer.points c) ->
   BillDetails.pointsUsed bd = 0)
  /\ (forall c : Customer.t,
        usePointsAndDiscount st = true ->
        currentCustomer st = Some c ->
        0 < Customer.points c ->
        BillDetails.pointsUsed bd
          = JS.Math_min3 (Customer.points c) (BillDetails.finalBill bd) requestedPoints
        /\ BillDetails.pointsUsed bd <= Customer.points c
        /\ BillDetails.pointsUsed bd <= BillDetails.finalBill bd
        /\ BillDetails.pointsUsed bd <= requestedPoints)
  /\ (forall c : Customer.t,
        currentCustomer st = Some c ->
        0 <= Customer.points c ->
        0 <= BillDetails.finalBill bd ->
        0 <= requestedPoints ->
        BillDetails.pointsUsed bd <= Customer.points c
        /\ BillDetails.pointsUsed bd <= BillDetails.finalBill bd
        /\ BillDetails.pointsUsed bd <= requestedPoints)
  /\ BillDetails.cashPayable bd = BillDetails.finalBill bd - BillDetails.pointsUsed bd.
Proof.
  cbn zeta.
  assert (On : forall c : Customer.t,
             usePointsAndDiscount st = true ->
             currentCustomer st = Some c ->
             0 < Customer.points c ->
             BillDetails.pointsUsed (billDetails p st)
               = JS.Math_min3 (Customer.points c)
                   (BillDetails.finalBill (billDetails p st))
                   (JS.orZero (pointsToUse st))
             /\ BillDetails.pointsUsed (billDetails p st) <= Customer.points c
             /\ BillDetails.pointsUsed (billDetails p st)
                <= BillDetails.finalBill (billDetails p st)
             /\ BillDetails.pointsUsed (billDetails p st)
                <= JS.orZero (pointsToUse st)).
  { intros c Hu Hc Hp.
    rewrite (pointsUsed_guard_on p st c Hu Hc Hp).
    split; [reflexivity | apply Math_min3_glb]. }
  split; [apply pointsUsed_guard_off|].
  split; [exact On|].
  split; [|reflexivity].
  intros c Hc Hp Hf Hr.
  destruct (usePointsAndDiscount st) eqn:Hu.
  - destruct (Qlt_le_dec 0 (Customer.points c)) as [Hpos|Hneg].
    + apply (On c eq_refl Hc Hpos).
    + rewrite pointsUsed_guard_off.
      * repeat split; assumption.
      * intros (_ & c' & Hc' & Hp'). rewrite Hc in Hc'. injection Hc' as <-. lra.
  - rewrite pointsUsed_guard_off.
    + repeat split; assumption.
    + intros (E & _). congruence.
Qed.

Lemma billDetails_pointsUsed_witness :
  (usePointsAndDiscount ashaRedeems = true
   /\ currentCustomer ashaRedeems = Some asha
   /\ 0 < Customer.points asha
   /\ BillDetails.pointsUsed (billDetails shop ashaRedeems)
      = JS.Math_min3 (Customer.points asha)
          (BillDetails.finalBill (billDetails shop ashaRedeems))
          (JS.orZero (pointsToUse ashaRedeems))
   /\ BillDetails.pointsUsed (billDetails shop ashaRedeems) <= Customer.points asha
   /\ BillDetails.pointsUsed (billDetails shop ashaRedeems)
      <= BillDetails.finalBill (billDetails shop ashaRedeems)
   /\ BillDetails.pointsUsed (billDetails shop ashaRedeems)
      <= JS.orZero (pointsToUse ashaRedeems))
  /\ (usePointsAndDiscount balaBuys = false
      /\ BillDetails.pointsUsed (billDetails shop balaBuys) = 0)
  /\ (currentCustomer balaBuys = Some bala
      /\ 0 <= Customer.points bala
      /\ 0 <= BillDetails.finalBill (billDetails shop balaBuys)
      /\ 0 <= JS.orZero (pointsToUse balaBuys)
      /\ BillDetails.pointsUsed (billDetails shop balaBuys) <= Customer.points bala
      /\ BillDetails.pointsUsed (billDetails shop balaBuys)
         <= BillDetails.finalBill (billDetails shop balaBuys)
      /\ BillDetails.pointsUsed (billDetails shop balaBuys)
         <= JS.orZero (pointsToUse balaBuys)).
Proof.
  split; [|split].
  - destruct (billDetails_pointsUsed shop ashaRedeems) as (_ & H & _).
    assert (Hu : usePointsAndDiscount ashaRedeems = true) by reflexivity.
    assert (Hc : currentCustomer ashaRedeems = Some asha) by reflexivity.
    assert (Hp : 0 < Customer.points asha) by (vm_compute; reflexivity).
    exact (conj Hu (conj Hc (conj Hp (H asha Hu Hc Hp)))).
  - destruct (billDetails_pointsUsed shop balaBuys) as (H & _).
    split; [reflexivity|].
    apply H. intros (E & _). vm_compute in E. discriminate E.
  - destruct (billDetails_pointsUsed shop balaBuys) as (_ & _ & H & _).
    assert (Hc : currentCustomer balaBuys = Some bala) by reflexivity.
    assert (Hp : 0 <= Customer.points bala) by (vm_compute; discriminate).
    assert (Hf : 0 <= BillDetails.finalBill (billDetails shop balaBuys))
      by (vm_compute; discriminate).
    assert (Hr : 0 <= JS.orZero (pointsToUse balaBuys)) by (vm_compute; discriminate).
    exact (conj Hc (conj Hp (conj Hf (conj Hr (H bala Hc Hp Hf Hr))))).
Defined.

(** C3 as stated fails: with the redemption box left unticked and -5 typed
    as the points to use, [pointsUsed] is 0, which is more than the -5
    requested. *)
Lemma pointsUsed_exceeds_requested :
  currentCustomer ashaUnticked = Some asha
  /\ JS.orZero (pointsToUse ashaUnticked) == -5
  /\ BillDetails.pointsUsed (billDetails shop ashaUnticked) == 0
  /\ ~ (BillDetails.pointsUsed (billDetails shop ashaUnticked)
        <= JS.orZero (pointsToUse ashaUnticked)).
Proof.
  split; [reflexivity|].
  split; [vm_compute; reflexivity|].
  split; [vm_compute; reflexivity|].
  vm_compute. intro H. apply H. reflexivity.
Qed.

(** ** Points earned *)

(** [Math.max(0, n)] of a whole number is a whole number, not negative. *)
Lemma Math_max_0_whole (z : Z) :
  JS.Math_max 0 (inject_Z z) = inject_Z (Z.max 0 z).
Proof.
  unfold JS.Math_max, Qmax, GenericMinMax.gmax.
  destruct (0 ?= inject_Z z) eqn:E.
  - apply Qeq_alt in E. unfold Qeq in E. cbn in E.
    assert (z = 0%Z) by lia. subst z. reflexivity.
  - apply Qlt_alt in E. unfold Qlt in E. cbn in E.
    rewrite Z.max_r by lia. reflexivity.
  - apply Qgt_alt in E. unfold Qlt in E. cbn in E.
    rewrite Z.max_l by lia. reflexivity.
Qed.

(** [pointsEarned] as a whole number. *)
Lemma pointsEarned_whole (p : Props) (st : State) :
  BillDetails.pointsEarned (billDetails p st)
  = inject_Z (Z.max 0 (Qfloor (JS.sub (JS.orZero (cashGiven st))
                                      (cashPayableIn Arith.double p st)))).
Proof.
  unfold billDetails. cbn [BillDetails.pointsEarned].
  unfold JS.Math_floor. apply Math_max_0_whole.
Qed.

(** C4: in [billDetails], [pointsEarned = max(0, floor(cash - cashPayable))],
    where [cash] and [cashPayable] are the doubles the code holds and [-] is
    their subtraction; for every input it is a whole number, never negative,
    and it is 0 whenever [cash <= cashPayable].  [cashPayable] is what lines
    328-345 yield in double arithmetic; the same lines in exact arithmetic
    yield the [cashPayable] of the bill, and with the redemption box
    unticked the double is that amount rounded once. *)
Theorem billDetails_pointsEarned (p : Props) (st : State) :
  let bd := billDetails p st in
  let cash := JS.roundDouble (JS.orZero (cashGiven st)) in
  let cashPayable := cashPayableIn Arith.double p st in
  BillDetails.pointsEarned bd
    = JS.Math_max 0 (JS.Math_floor (JS.sub cash cashPayable))
  /\ BillDetails.pointsEarned bd
     = inject_Z (Z.max 0 (Qfloor (JS.sub cash cashPayable)))
  /\ 0 <= BillDetails.pointsEarned bd
  /\ (cash <= cashPayable -> BillDetails.pointsEarned bd = 0)
  /\ cashPayableIn Arith.exact p st = BillDetails.cashPayable bd
  /\ (usePointsAndDiscount st = false ->
      cashPayable = JS.roundDouble (BillDetails.cashPayable bd)).
Proof.
  cbn zeta.
  set (cash := JS.roundDouble (JS.orZero (cashGiven st))).
  set (due := cashPayableIn Arith.double p st).
  assert (E : BillDetails.pointsEarned (billDetails p st)
              = inject_Z (Z.max 0 (Qfloor (JS.sub cash due)))).
  { rewrite pointsEarned_whole. fold due. unfold JS.sub at 1, cash.
    unfold JS.sub. rewrite roundDouble_idem. reflexivity. }
  split; [rewrite E; unfold JS.Math_floor; symmetry; apply Math_max_0_whole|].
  split; [exact E|]. split; [|split; [|split]].
  - rewrite E. change 0 with (inject_Z 0). rewrite <- Zle_Qle. apply Z.le_max_l.
  - intro H. rewrite E.
    pose proof (Qfloor_resp_le _ _ (sub_nonpos cash due H)) as Hd.
    change (Qfloor 0) with 0%Z in Hd.
    rewrite Z.max_l by exact Hd. reflexivity.
  - reflexivity.
  - intro Hu. unfold due, cashPayableIn, billDetails, discountGuard.
    rewrite Hu. cbn [andb BillDetails.cashPayable Arith.sub Arith.num Arith.double].
    assert (Hp : match currentCustomer st with
                 | Some _ => 0
                 | None => 0
                 end = 0) by (destruct (currentCustomer st); reflexivity).
    rewrite !Hp, !sub_0_r, !roundDouble_idem.
    apply roundDouble_comp. generalize (JS.orZero (billAmount st)). intro q. lra.
Qed.

Lemma billDetails_pointsEarned_witness :
  (JS.roundDouble (JS.orZero (cashGiven walkInNoCash))
     <= cashPayableIn Arith.double shop walkInNoCash
   /\ BillDetails.pointsEarned (billDetails shop walkInNoCash) = 0)
  /\ (usePointsAndDiscount walkInCoins = false
      /\ cashPayableIn Arith.double shop walkInCoins
         = JS.roundDouble (BillDetails.cashPayable (billDetails shop walkInCoins))
      /\ BillDetails.pointsEarned (billDetails shop walkInCoins) = 9).
Proof.
  pose proof (billDetails_pointsEarned shop walkInNoCash) as H0.
  pose proof (billDetails_pointsEarned shop walkInCoins) as H1.
  cbv zeta in H0, H1.
  destruct H0 as (_ & _ & _ & Z0 & _).
  destruct H1 as (_ & E1 & _ & _ & _ & R1).
  assert (Hc : JS.roundDouble (JS.orZero (cashGiven walkInNoCash))
               <= cashPayableIn Arith.double shop walkInNoCash)
    by (vm_compute; discriminate).
  assert (Hu : usePointsAndDiscount walkInCoins = false) by reflexivity.
  assert (E9 : inject_Z (Z.max 0 (Qfloor
                 (JS.sub (JS.roundDouble (JS.orZero (cashGiven walkInCoins)))
                         (cashPayableIn Arith.double shop walkInCoins)))) = 9)
    by (vm_compute; reflexivity).
  exact (conj (conj Hc (Z0 Hc)) (conj Hu (conj (R1 Hu) (eq_trans E1 E9)))).
Defined.

Example pointsEarned_floors :
  BillDetails.pointsEarned
    (billDetails shop (setAmounts (Some (1995 # 10)) (Some 250) initialState))
  = 50.
Proof. vm_compute. reflexivity. Qed.

(** The doubles nearest to 10.40 and 20.40 are less than 10 apart, those
    nearest to 5.10 and 105.10 are 100 apart: 9 points and 100 points, where
    the decimal amounts differ by 10 and by 100. *)
Example pointsEarned_of_doubles :
  BillDetails.pointsEarned (billDetails shop walkInCoins) = 9
  /\ JS.sub (2040 # 100) (1040 # 100) = 5629499534213119 # 562949953421312
  /\ BillDetails.pointsEarned (billDetails shop walkInNote) = 100
  /\ JS.sub (10510 # 100) (510 # 100) = 100.
Proof. repeat split; vm_compute; reflexivity. Qed.

(** With a discount the roundings of [*], [/] and [-] add up: of Asha's bill
    of 56.50 the code has 0.8500000000000014 left to pay where the amounts
    give 0.85, and her 1.85 earns no point. *)
Example pointsEarned_after_discount :
  BillDetails.cashPayable (billDetails shop ashaSmallBill) == 85 # 100
  /\ cashPayableIn Arith.double shop ashaSmallBill
     = 119626865102029 # 140737488355328
  /\ BillDetails.pointsEarned (billDetails shop ashaSmallBill) = 0.
Proof. repeat split; vm_compute; reflexivity. Qed.

(** ** Discount eligibility *)

Lemma fold_laterOf_latest (rest : list TransactionHistory.t) (first : TransactionHistory.t) :
  In (fold_left laterOf rest first) (first :: rest)
  /\ forall h, In h (first :: rest) ->
       (TransactionHistory.date h
        <= TransactionHistory.date (fold_left laterOf rest first))%Z.
Proof.
  revert first. induction rest as [|tx rest IH]; intro first; cbn [fold_left].
  - split; [left; reflexivity|].
    intros h [<-|[]]. apply Z.le_refl.
  - destruct (IH (laterOf first tx)) as [Hin Hmax]. split.
    + destruct Hin as [E|Hin].
      * rewrite <- E. unfold laterOf.
        destruct (TransactionHistory.date tx >? TransactionHistory.date first)%Z;
          [right; left | left]; reflexivity.
      * right; right; exact Hin.
    + assert (Hstep : (TransactionHistory.date first
                        <= TransactionHistory.date (laterOf first tx)
                       /\ TransactionHistory.date tx
                        <= TransactionHistory.date (laterOf first tx))%Z).
      { unfold laterOf.
        destruct (TransactionHistory.date tx >? TransactionHistory.date first)%Z eqn:E;
          lia. }
      intros h [<-|[<-|Hh]].
      * eapply Z.le_trans; [apply Hstep | apply Hmax; left; reflexivity].
      * eapply Z.le_trans; [apply Hstep | apply Hmax; left; reflexivity].
      * apply Hmax. right. exact Hh.
Qed.

Lemma floor_days (ms : Z) :
  JS.Math_floor (inject_Z ms / inject_Z msPerDay) = inject_Z (ms / msPerDay).
Proof. unfold JS.Math_floor. rewrite <- Zdiv_Qdiv. reflexivity. Qed.

(** C5: [checkDiscountEligibility] on an empty history gives
    [{eligible: true, daysSinceLastTxn: null, deadline: null, pointsTier: null}];
    otherwise [daysSinceLastTxn] is the floored number of whole days from the
    history entry with the greatest timestamp to now, [pointsTier] is
    [getTierByPoints], [deadline] is that tier's deadline setting, and
    [eligible] holds exactly when [daysSinceLastTxn <= deadline]. *)
Theorem checkDiscountEligibility_spec (now : Z) (customer : Customer.t)
    (dl : DeadlineSettings.t) (ts : TierSettings.t) :
  let e := checkDiscountEligibility now customer dl ts in
  (Customer.history customer = [] ->
   e = {| Eligibility.eligible := true; Eligibility.daysSinceLastTxn := None;
          Eligibility.deadline := None; Eligibility.pointsTier := None |})
  /\ (Customer.history customer <> [] ->
      exists (last : TransactionHistory.t) (days : Z),
        In last (Customer.history customer)
        /\ (forall h, In h (Customer.history customer) ->
              (TransactionHistory.date h <= TransactionHistory.date last)%Z)
        /\ (days * msPerDay <= now - TransactionHistory.date last
            < (days + 1) * msPerDay)%Z
        /\ Eligibility.daysSinceLastTxn e = Some (inject_Z days)
        /\ Eligibility.pointsTier e = Some (getTierByPoints customer ts)
        /\ Eligibility.deadline e
           = Some (DeadlineSettings.get dl (getTierByPoints customer ts))
        /\ (Eligibility.eligible e = true
            <-> inject_Z days <= DeadlineSettings.get dl (getTierByPoints customer ts))).
Proof.
  cbn zeta. unfold checkDiscountEligibility.
  destruct (Customer.history customer) as [|first rest].
  - split; [reflexivity | intro H; contradiction H; reflexivity].
  - split; [discriminate|]. intros _.
    destruct (fold_laterOf_latest rest first) as [Hin Hmax].
    set (last := fold_left laterOf rest first) in *.
    exists last, ((now - TransactionHistory.date last) / msPerDay)%Z.
    cbn [Eligibility.daysSinceLastTxn Eligibility.pointsTier Eligibility.deadline
         Eligibility.eligible].
    rewrite floor_days.
    split; [exact Hin|]. split; [exact Hmax|]. split.
    { assert (Hpos : (0 < msPerDay)%Z) by reflexivity.
      pose proof (Z.mul_div_le (now - TransactionHistory.date last) msPerDay Hpos).
      pose proof (Z.mul_succ_div_gt (now - TransactionHistory.date last) msPerDay Hpos).
      lia. }
    repeat split; try reflexivity; apply leb_true.
Qed.

Lemma checkDiscountEligibility_spec_witness :
  (Customer.history bala = []
   /\ checkDiscountEligibility (dayAfter 30) bala DEFAULT_DEADLINE_SETTINGS
        DEFAULT_TIER_SETTINGS
      = {| Eligibility.eligible := true; Eligibility.daysSinceLastTxn := None;
           Eligibility.deadline := None; Eligibility.pointsTier := None |})
  /\ (Customer.history devi <> []
      /\ exists (last : TransactionHistory.t) (days : Z),
           In last (Customer.history devi)
           /\ (forall h, In h (Customer.history devi) ->
                 (TransactionHistory.date h <= TransactionHistory.date last)%Z)
           /\ (days * msPerDay <= dayAfter 100 + 5000 - TransactionHistory.date last
               < (days + 1) * msPerDay)%Z
           /\ Eligibility.daysSinceLastTxn
                (checkDiscountEligibility (dayAfter 100 + 5000) devi
                   DEFAULT_DEADLINE_SETTINGS DEFAULT_TIER_SETTINGS)
              = Some (inject_Z days)
           /\ Eligibility.pointsTier
                (checkDiscountEligibility (dayAfter 100 + 5000) devi
                   DEFAULT_DEADLINE_SETTINGS DEFAULT_TIER_SETTINGS)
              = Some (getTierByPoints devi DEFAULT_TIER_SETTINGS)
           /\ Eligibility.deadline
                (checkDiscountEligibility (dayAfter 100 + 5000) devi
                   DEFAULT_DEADLINE_SETTINGS DEFAULT_TIER_SETTINGS)
              = Some (DeadlineSettings.get DEFAULT_DEADLINE_SETTINGS
                        (getTierByPoints devi DEFAULT_TIER_SETTINGS))
           /\ (Eligibility.eligible
                 (checkDiscountEligibility (dayAfter 100 + 5000) devi
                    DEFAULT_DEADLINE_SETTINGS DEFAULT_TIER_SETTINGS) = true
               <-> inject_Z days
                   <= DeadlineSettings.get DEFAULT_DEADLINE_SETTINGS
                        (getTierByPoints devi DEFAULT_TIER_SETTINGS))).
Proof.
  split.
  - assert (Hh : Customer.history bala = []) by reflexivity.
    exact (conj Hh
             (proj1 (checkDiscountEligibility_spec (dayAfter 30) bala
                       DEFAULT_DEADLINE_SETTINGS DEFAULT_TIER_SETTINGS) Hh)).
  - assert (Hh : Customer.history devi <> []) by (cbn; discriminate).
    exact (conj Hh
             (proj2 (checkDiscountEligibility_spec (dayAfter 100 + 5000) devi
                       DEFAULT_DEADLINE_SETTINGS DEFAULT_TIER_SETTINGS) Hh)).
Defined.

Example scenario_late_customer :
  let e := checkDiscountEligibility (dayAfter 100) devi DEFAULT_DEADLINE_SETTINGS
             DEFAULT_TIER_SETTINGS in
  Eligibility.eligible e = false
  /\ Eligibility.daysSinceLastTxn e = Some 100
  /\ Eligibility.deadline e = Some 90.
Proof. vm_compute. repeat split. Qed.

(** ** Committing a transaction *)

Lemma subtotal_check (q : Q) :
  JS.falsy q || JS.leb q 0 = false <-> 0 < q.
Proof.
  unfold JS.falsy. rewrite orb_false_iff. split.
  - intros [_ H]. apply Qnot_le_lt. intro L. apply leb_true in L. congruence.
  - intro H. split.
    + destruct (Qeq_bool q 0) eqn:E; [|reflexivity].
      apply Qeq_bool_iff in E. exfalso. lra.
    + destruct (JS.leb q 0) eqn:E; [|reflexivity].
      apply leb_true in E. exfalso. lra.
Qed.

Lemma submit_Some (now : Z) (p : Props) (st : State) (r : Committed) :
  handleTransactionSubmit now p st = Some r ->
  committed now p st
  /\ nextCustomers r
     = (if isNewCustomer st then customers p ++ [newCustomer now p st]
        else map (updateCustomer (targetMobile st) (billDetails p st)
                    (newHistoryEntry now p st)) (customers p)).
Proof.
  unfold handleTransactionSubmit, committed.
  destruct (JS.falsy (BillDetails.subtotal (billDetails p st))
            || JS.leb (BillDetails.subtotal (billDetails p st)) 0) eqn:S;
    [discriminate|].
  apply subtotal_check in S.
  destruct (JS.nan_ltb (cashGiven st) (BillDetails.cashPayable (billDetails p st)));
    [discriminate|].
  destruct (isNewCustomer st); intro H; injection H as <-; cbn [nextCustomers];
    repeat split; assumption.
Qed.

Lemma submit_commits (now : Z) (p : Props) (st : State) :
  committed now p st -> exists r, handleTransactionSubmit now p st = Some r.
Proof.
  intros [S C]. unfold handleTransactionSubmit.
  apply subtotal_check in S. rewrite S, C.
  destruct (isNewCustomer st); eexists; reflexivity.
Qed.

Lemma submit_rejects (now : Z) (p : Props) (st : State) :
  ~ committed now p st -> handleTransactionSubmit now p st = None.
Proof.
  intro H. destruct (handleTransactionSubmit now p st) as [r|] eqn:E; [|reflexivity].
  apply submit_Some in E. destruct E as [E _]. contradiction.
Qed.

Lemma sumFinalBill_app (h : list TransactionHistory.t) (e : TransactionHistory.t) :
  sumFinalBill (h ++ [e]) == sumFinalBill h + TransactionHistory.finalBill e.
Proof.
  induction h as [|x h IH]; cbn.
  - ring.
  - fold (sumFinalBill (h ++ [e])). fold (sumFinalBill h). rewrite IH. ring.
Qed.

Lemma updateCustomer_other (t : string) (bd : BillDetails.t)
    (e : TransactionHistory.t) (c : Customer.t) :
  Customer.mobile c <> t -> updateCustomer t bd e c = c.
Proof.
  intro H. unfold updateCustomer.
  apply String.eqb_neq in H. rewrite H. reflexivity.
Qed.

Lemma updateCustomer_target (t : string) (bd : BillDetails.t)
    (e : TransactionHistory.t) (c : Customer.t) :
  Customer.mobile c = t ->
  updateCustomer t bd e c
  = {| Customer.mobile := Customer.mobile c;
       Customer.name := Customer.name c;
       Customer.pin := Customer.pin c;
       Customer.points :=
         (Customer.points c - BillDetails.pointsUsed bd) + BillDetails.pointsEarned bd;
       Customer.totalSpent := Customer.totalSpent c + BillDetails.finalBill bd;
       Customer.history := Customer.history c ++ [e] |}.
Proof.
  intro H. unfold updateCustomer.
  apply String.eqb_eq in H. rewrite H. reflexivity.
Qed.

Lemma updateCustomer_identity (t : string) (bd : BillDetails.t)
    (e : TransactionHistory.t) (c : Customer.t) :
  Customer.mobile (updateCustomer t bd e c) = Customer.mobile c
  /\ Customer.name (updateCustomer t bd e c) = Customer.name c
  /\ Customer.pin (updateCustomer t bd e c) = Customer.pin c.
Proof.
  unfold updateCustomer.
  destruct (negb (Customer.mobile c =? t)%string); repeat split.
Qed.

Lemma updateCustomer_consistent (t : string) (bd : BillDetails.t)
    (e : TransactionHistory.t) (c : Customer.t) :
  TransactionHistory.finalBill e = BillDetails.finalBill bd ->
  consistent c -> consistent (updateCustomer t bd e c).
Proof.
  intros He Hc. unfold updateCustomer.
  destruct (negb (Customer.mobile c =? t)%string); [exact Hc|].
  unfold consistent in *. cbn [Customer.totalSpent Customer.history].
  rewrite sumFinalBill_app, He, Hc. reflexivity.
Qed.

Lemma newCustomer_consistent (now : Z) (p : Props) (st : State) :
  consistent (newCustomer now p st).
Proof.
  unfold consistent, newCustomer, newHistoryEntry. cbn. ring.
Qed.

Lemma submit_preserves_consistent (now : Z) (p : Props) (st : State) (r : Committed) :
  handleTransactionSubmit now p st = Some r ->
  Forall consistent (customers p) -> Forall consistent (nextCustomers r).
Proof.
  intros H Hall. apply submit_Some in H. destruct H as [_ ->].
  destruct (isNewCustomer st).
  - apply Forall_app. split; [exact Hall|].
    constructor; [apply newCustomer_consistent | constructor].
  - apply Forall_map. eapply Forall_impl; [|exact Hall].
    intros c Hc. apply updateCustomer_consistent; [reflexivity | exact Hc].
Qed.

Lemma Ledger_consistent (cs : list Customer.t) :
  Ledger cs -> Forall consistent cs.
Proof.
  induction 1 as [|now p st r _ IH H].
  - constructor.
  - exact (submit_preserves_consistent now p st r H IH).
Qed.

(** C1: whenever [handleTransactionSubmit] applies a transaction, an
    existing customer's record ends with
    [totalSpent_new = totalSpent_old + finalBill],
    [points_new = points_old - pointsUsed + pointsEarned] and a history with
    exactly one more entry, at the end; a new customer's record is created
    with [points = pointsEarned], [totalSpent = finalBill] and a history of
    length 1; and in every collection built from the empty one by
    [handleTransactionSubmit] alone, each customer's [totalSpent] is the sum
    of the [finalBill] values of its history. *)
Theorem submit_updates_ledger :
  (forall (now : Z) (p : Props) (st : State) (r : Committed),
     handleTransactionSubmit now p st = Some r ->
     let bd := billDetails p st in
     (isNewCustomer st = false ->
      List.length (nextCustomers r) = List.length (customers p)
      /\ forall (i : nat) (c : Customer.t),
           nth_error (customers p) i = Some c ->
           Customer.mobile c = targetMobile st ->
           exists c',
             nth_error (nextCustomers r) i = Some c'
             /\ Customer.totalSpent c'
                = Customer.totalSpent c + BillDetails.finalBill bd
             /\ Customer.points c'
                = Customer.points c - BillDetails.pointsUsed bd
                  + BillDetails.pointsEarned bd
             /\ exists e,
                  Customer.history c' = Customer.history c ++ [e]
                  /\ TransactionHistory.finalBill e = BillDetails.finalBill bd)
     /\ (isNewCustomer st = true ->
         exists c',
           nextCustomers r = customers p ++ [c']
           /\ Customer.mobile c' = targetMobile st
           /\ Customer.points c' = BillDetails.pointsEarned bd
           /\ Customer.totalSpent c' = BillDetails.finalBill bd
           /\ List.length (Customer.history c') = 1%nat))
  /\ (forall cs : list Customer.t,
        Ledger cs ->
        Forall (fun c => Customer.totalSpent c == sumFinalBill (Customer.history c)) cs).
Proof.
  split; [|exact Ledger_consistent].
  intros now p st r H. cbn zeta.
  apply submit_Some in H. destruct H as [_ ->]. split; intros ->.
  - split; [apply length_map|].
    intros i c Hi Hm.
    exists (updateCustomer (targetMobile st) (billDetails p st)
              (newHistoryEntry now p st) c).
    split; [apply map_nth_error; exact Hi|].
    rewrite (updateCustomer_target _ _ _ _ Hm).
    cbn [Customer.totalSpent Customer.points Customer.history].
    repeat split. exists (newHistoryEntry now p st). split; reflexivity.
  - exists (newCustomer now p st). repeat split.
Qed.

Lemma submit_updates_ledger_witness :
  (exists r,
     handleTransactionSubmit (dayAfter 30) shop balaBuys = Some r
     /\ isNewCustomer balaBuys = false
     /\ nth_error (customers shop) 1 = Some bala
     /\ Customer.mobile bala = targetMobile balaBuys
     /\ exists c',
          nth_error (nextCustomers r) 1 = Some c'
          /\ Customer.totalSpent c'
             = Customer.totalSpent bala
               + BillDetails.finalBill (billDetails shop balaBuys)
          /\ Customer.points c'
             = Customer.points bala
               - BillDetails.pointsUsed (billDetails shop balaBuys)
               + BillDetails.pointsEarned (billDetails shop balaBuys)
          /\ exists e,
               Customer.history c' = Customer.history bala ++ [e]
               /\ TransactionHistory.finalBill e
                  = BillDetails.finalBill (billDetails shop balaBuys))
  /\ (exists r,
        handleTransactionSubmit (dayAfter 30) shop walkInPays = Some r
        /\ isNewCustomer walkInPays = true
        /\ exists c',
             nextCustomers r = customers shop ++ [c']
             /\ Customer.mobile c' = targetMobile walkInPays
             /\ Customer.points c'
                = BillDetails.pointsEarned (billDetails shop walkInPays)
             /\ Customer.totalSpent c'
                = BillDetails.finalBill (billDetails shop walkInPays)
             /\ List.length (Customer.history c') = 1%nat)
  /\ (Ledger afterSecondSale
      /\ List.length afterSecondSale = 1%nat
      /\ Forall (fun c => Customer.totalSpent c == sumFinalBill (Customer.history c))
           afterSecondSale).
Proof.
  destruct submit_updates_ledger as [Step Inv].
  split; [|split].
  - destruct (handleTransactionSubmit (dayAfter 30) shop balaBuys) as [r|] eqn:E;
      [|vm_compute in E; discriminate E].
    exists r.
    assert (Hn : isNewCustomer balaBuys = false) by reflexivity.
    assert (Hi : nth_error (customers shop) 1 = Some bala) by reflexivity.
    assert (Hm : Customer.mobile bala = targetMobile balaBuys) by reflexivity.
    exact (conj eq_refl (conj Hn (conj Hi (conj Hm
             (proj2 (proj1 (Step (dayAfter 30) shop balaBuys r E) Hn) 1%nat bala Hi Hm))))).
  - destruct (handleTransactionSubmit (dayAfter 30) shop walkInPays) as [r|] eqn:E;
      [|vm_compute in E; discriminate E].
    exists r.
    assert (Hn : isNewCustomer walkInPays = true) by reflexivity.
    exact (conj eq_refl (conj Hn
             (proj2 (Step (dayAfter 30) shop walkInPays r E) Hn))).
  - assert (L1 : Ledger afterFirstSale).
    { unfold afterFirstSale.
      destruct (handleTransactionSubmit jan1 newShop firstSale) as [r|] eqn:E;
        [|constructor].
      exact (ledger_submit jan1 newShop firstSale r ledger_empty E). }
    assert (L2 : Ledger afterSecondSale).
    { unfold afterSecondSale.
      destruct (handleTransactionSubmit (dayAfter 10) shopAfterFirstSale secondSale)
        as [r|] eqn:E; [|constructor].
      exact (ledger_submit (dayAfter 10) shopAfterFirstSale secondSale r L1 E). }
    exact (conj L2 (conj eq_refl (Inv afterSecondSale L2))).
Defined.

(** C10: applying a transaction for the key [targetMobile] leaves every
    customer with another mobile exactly as it was, at its place in the
    collection; the customer it updates keeps its [mobile], [name] and [pin]
    (only [points], [totalSpent] and [history] change); and the collection
    keeps its length, or gains the one new customer at the end. *)
Theorem submit_frame (now : Z) (p : Props) (st : State) (r : Committed) :
  handleTransactionSubmit now p st = Some r ->
  List.length (nextCustomers r)
  = (List.length (customers p) + (if isNewCustomer st then 1 else 0))%nat
  /\ forall (i : nat) (c : Customer.t),
       nth_error (customers p) i = Some c ->
       exists c',
         nth_error (nextCustomers r) i = Some c'
         /\ Customer.mobile c' = Customer.mobile c
         /\ Customer.name c' = Customer.name c
         /\ Customer.pin c' = Customer.pin c
         /\ (Customer.mobile c <> targetMobile st -> c' = c).
Proof.
  intro H. apply submit_Some in H. destruct H as [_ ->].
  destruct (isNewCustomer st).
  - split; [rewrite length_app; reflexivity|].
    intros i c Hi. exists c. split.
    + rewrite nth_error_app1; [exact Hi|].
      apply nth_error_Some. congruence.
    + repeat split.
  - split; [rewrite length_map; lia|].
    intros i c Hi.
    exists (updateCustomer (targetMobile st) (billDetails p st)
              (newHistoryEntry now p st) c).
    split; [apply map_nth_error; exact Hi|].
    destruct (updateCustomer_identity (targetMobile st) (billDetails p st)
                (newHistoryEntry now p st) c) as (Hm & Hn & Hp).
    repeat split; try assumption.
    apply updateCustomer_other.
Qed.

Lemma submit_frame_witness :
  exists r,
    handleTransactionSubmit (dayAfter 30) shop balaBuys = Some r
    /\ List.length (nextCustomers r) = 3%nat
    /\ nth_error (nextCustomers r) 0 = Some asha
    /\ nth_error (nextCustomers r) 2 = Some devi
    /\ exists c',
         nth_error (nextCustomers r) 1 = Some c'
         /\ Customer.mobile c' = Customer.mobile bala
         /\ Customer.name c' = Customer.name bala
         /\ Customer.pin c' = Customer.pin bala.
Proof.
  destruct (handleTransactionSubmit (dayAfter 30) shop balaBuys) as [r|] eqn:E;
    [|vm_compute in E; discriminate E].
  exists r. destruct (submit_frame (dayAfter 30) shop balaBuys r E) as [Hlen Hfr].
  split; [reflexivity|]. split; [exact Hlen|].
  destruct (Hfr 0%nat asha eq_refl) as (a & Ha & _ & _ & _ & Ea).
  destruct (Hfr 2%nat devi eq_refl) as (d & Hd & _ & _ & _ & Ed).
  destruct (Hfr 1%nat bala eq_refl) as (b & Hb & Hm & Hn & Hp & _).
  rewrite Ea in Ha by (vm_compute; discriminate).
  rewrite Ed in Hd by (vm_compute; discriminate).
  split; [exact Ha|]. split; [exact Hd|].
  exists b. repeat split; assumption.
Defined.

(** ** Redemption past the deadline *)

Lemma billDetails_ineligible (p : Props) (st : State) :
  Eligibility.eligible (eligibility st) = false ->
  BillDetails.discountPercentage (billDetails p st) = 0
  /\ BillDetails.finalBill (billDetails p st)
     = BillDetails.subtotal (billDetails p st) - 0.
Proof.
  intro He.
  assert (G : discountGuard p st (JS.orZero (billAmount st)) = false).
  { unfold discountGuard. rewrite He, andb_false_r. reflexivity. }
  unfold billDetails.
  cbn [BillDetails.discountPercentage BillDetails.finalBill BillDetails.subtotal].
  rewrite G. split; reflexivity.
Qed.

Lemma newHistoryEntry_ineligible (now : Z) (p : Props) (st : State) :
  Eligibility.eligible (eligibility st) = false ->
  TransactionHistory.pointsUsed (newHistoryEntry now p st) = Some 0
  /\ TransactionHistory.discountPercentage (newHistoryEntry now p st) = None.
Proof.
  intro He. unfold newHistoryEntry.
  cbn [TransactionHistory.pointsUsed TransactionHistory.discountPercentage].
  rewrite He, andb_false_r. split; reflexivity.
Qed.

(** C9: when the redemption box is ticked for an existing customer with
    positive points whose eligibility is false, and a positive number of
    points is asked for, a committed transaction takes the computed
    [pointsUsed], which is positive, off the customer's balance, while the
    history entry it appends records [pointsUsed] as 0 and no
    [discountPercentage]. *)
Theorem ineligible_redemption_unrecorded
    (now : Z) (p : Props) (st : State) (c : Customer.t) (i : nat) (r : Committed) :
  isNewCustomer st = false ->
  currentCustomer st = Some c ->
  nth_error (customers p) i = Some c ->
  0 < Customer.points c ->
  usePointsAndDiscount st = true ->
  Eligibility.eligible (eligibility st) = false ->
  0 < JS.orZero (pointsToUse st) ->
  handleTransactionSubmit now p st = Some r ->
  let bd := billDetails p st in
  0 < BillDetails.pointsUsed bd
  /\ exists c' e,
       nth_error (nextCustomers r) i = Some c'
       /\ Customer.points c'
          = Customer.points c - BillDetails.pointsUsed bd + BillDetails.pointsEarned bd
       /\ Customer.history c' = Customer.history c ++ [e]
       /\ TransactionHistory.pointsUsed e = Some 0
       /\ TransactionHistory.discountPercentage e = None.
Proof.
  intros Hn Hc Hi Hp Hu He Hr H. cbn zeta.
  apply submit_Some in H. destruct H as [[Hs _] ->]. rewrite Hn.
  split.
  - rewrite (pointsUsed_guard_on p st c Hu Hc Hp).
    destruct (billDetails_ineligible p st He) as [_ ->].
    apply Math_min3_pos; [exact Hp | lra | exact Hr].
  - exists (updateCustomer (targetMobile st) (billDetails p st)
              (newHistoryEntry now p st) c), (newHistoryEntry now p st).
    split; [apply map_nth_error; exact Hi|].
    rewrite updateCustomer_target by (unfold targetMobile; rewrite Hc; reflexivity).
    cbn [Customer.points Customer.history].
    destruct (newHistoryEntry_ineligible now p st He) as [-> ->].
    repeat split.
Qed.

Lemma ineligible_redemption_unrecorded_witness :
  exists r,
    handleTransactionSubmit (dayAfter 200) shop ashaLate = Some r
    /\ 0 < BillDetails.pointsUsed (billDetails shop ashaLate)
    /\ exists c' e,
         nth_error (nextCustomers r) 0 = Some c'
         /\ Customer.points c'
            = Customer.points asha - BillDetails.pointsUsed (billDetails shop ashaLate)
              + BillDetails.pointsEarned (billDetails shop ashaLate)
         /\ Customer.history c' = Customer.history asha ++ [e]
         /\ TransactionHistory.pointsUsed e = Some 0
         /\ TransactionHistory.discountPercentage e = None.
Proof.
  destruct (handleTransactionSubmit (dayAfter 200) shop ashaLate) as [r|] eqn:E;
    [|vm_compute in E; discriminate E].
  exists r. split; [reflexivity|].
  apply (ineligible_redemption_unrecorded (dayAfter 200) shop ashaLate asha 0%nat r).
  - reflexivity.
  - reflexivity.
  - reflexivity.
  - vm_compute; reflexivity.
  - reflexivity.
  - vm_compute; reflexivity.
  - vm_compute; reflexivity.
  - exact E.
Defined.

Example ineligible_redemption_balance :
  match handleTransactionSubmit (dayAfter 200) shop ashaLate with
  | Some r =>
      match nth_error (nextCustomers r) 0 with
      | Some c' =>
          Customer.points c' == 150
          /\ map TransactionHistory.pointsUsed (Customer.history c') = [Some 0; Some 0]
      | None => False
      end
  | None => False
  end.
Proof. vm_compute. split; reflexivity. Qed.

(** ** The deadline reported for the notification *)

Lemma newTotalPoints_untouched (t : string) (bd : BillDetails.t)
    (cs : list Customer.t) (acc : Q) :
  ~ In t (map Customer.mobile cs) ->
  fold_left
    (fun acc c =>
       if negb (String.eqb (Customer.mobile c) t) then acc else finalPoints bd c)
    cs acc = acc.
Proof.
  revert acc. induction cs as [|x cs IH]; intros acc Hnot; cbn [fold_left].
  - reflexivity.
  - cbn [map In] in Hnot.
    assert (Hx : Customer.mobile x <> t) by (intro; apply Hnot; left; assumption).
    apply String.eqb_neq in Hx. rewrite Hx. cbn [negb].
    apply IH. intro; apply Hnot; right; assumption.
Qed.




(** The Bronze deadline is what a new customer is given whatever the points
    of the created record: Chitra leaves her first sale with 600 points,
    Gold by points, and is told 365 days, Bronze's. *)
Example new_customer_not_always_bronze :
  getTierByPoints (newCustomer (dayAfter 30) shop walkInPays) (tierSettings shop) = Gold
  /\ match handleTransactionSubmit (dayAfter 30) shop walkInPays with
     | Some r =>
         LastTransactionDetails.deadlineDays (lastTransactionDetails r) = Some 365
     | None => False
     end.
Proof. vm_compute. split; reflexivity. Qed.

(** What the lookup effect leaves in the state when it finds the customer. *)
Lemma lookupEffect_found (now : Z) (p : Props) (st : State) (c : Customer.t) :
  (10 <= String.length (mobile st))%nat ->
  find (fun c => String.eqb (Customer.mobile c) (countryCode st ++ mobile st)
                 || String.eqb (Customer.mobile c) (mobile st))
       (customers p) = Some c ->
  let st' := lookupEffect now p st in
  currentCustomer st' = Some c
  /\ isNewCustomer st' = false
  /\ In c (customers p)
  /\ usePointsAndDiscount st' = false
  /\ eligibility st'
     = checkDiscountEligibility now c (deadlineSettings p) (tierSettings p).
Proof.
  intros Hlen Hfind. cbn zeta. unfold lookupEffect.
  apply Nat.leb_le in Hlen. rewrite Hlen, Hfind. cbn.
  repeat split. apply find_some in Hfind. apply Hfind.
Qed.

(** ** The checks before a commit *)

Lemma submit_rejects_subtotal (now : Z) (p : Props) (st : State) :
  BillDetails.subtotal (billDetails p st) <= 0 ->
  handleTransactionSubmit now p st = None.
Proof.
  intro H. apply submit_rejects. intros [S _]. lra.
Qed.

Lemma submit_rejects_short_cash (now : Z) (p : Props) (st : State) (cash : Q) :
  cashGiven st = Some cash ->
  cash < BillDetails.cashPayable (billDetails p st) ->
  handleTransactionSubmit now p st = None.
Proof.
  intros Hc H. apply submit_rejects. intros [_ C].
  rewrite Hc in C. cbn [JS.nan_ltb] in C. apply ltb_false in C. lra.
Qed.

(** A cash field that does not parse passes the cash check, whatever is
    payable. *)
Lemma submit_accepts_NaN_cash (now : Z) (p : Props) (st : State) :
  cashGiven st = None ->
  0 < BillDetails.subtotal (billDetails p st) ->
  exists r, handleTransactionSubmit now p st = Some r.
Proof.
  intros Hc Hs. apply submit_commits. split; [exact Hs|].
  rewrite Hc. reflexivity.
Qed.

(** C6 at its failing input: a walk-in with a bill of 100 and the cash
    field left empty.  [billDetails] reads the cash as 0, 100 is payable,
    and yet [handleTransactionSubmit] does not reject: it compares the
    unparsed NaN, and the collection gains the new customer. *)
Theorem submit_commits_without_cash :
  cashGiven walkInNoCash = None
  /\ BillDetails.cashPayable (billDetails shop walkInNoCash) == 100
  /\ JS.orZero (cashGiven walkInNoCash)
     < BillDetails.cashPayable (billDetails shop walkInNoCash)
  /\ exists r,
       handleTransactionSubmit (dayAfter 30) shop walkInNoCash = Some r
       /\ nextCustomers r
          = customers shop ++ [newCustomer (dayAfter 30) shop walkInNoCash]
       /\ nextCustomers r <> customers shop.
Proof.
  split; [reflexivity|].
  split; [vm_compute; reflexivity|].
  split; [vm_compute; reflexivity|].
  destruct (handleTransactionSubmit (dayAfter 30) shop walkInNoCash) as [r|] eqn:E;
    [|vm_compute in E; discriminate E].
  exists r. split; [reflexivity|].
  apply submit_Some in E. destruct E as [_ E].
  change (isNewCustomer walkInNoCash) with true in E.
  split; [exact E|].
  rewrite E. intro Habs. apply (f_equal (@List.length Customer.t)) in Habs.
  rewrite length_app in Habs. cbn in Habs. lia.
Qed.

(** * Further properties of the code *)

(** ** Tier classification *)

Lemma geb_mono (a b t : Q) : a <= b -> JS.geb a t = true -> JS.geb b t = true.
Proof. rewrite !geb_true. intros; lra. Qed.

Lemma rank_getCustomerTier (c : Customer.t) (s : TierSettings.t) :
  tier_rank (getCustomerTier c s)
  = Nat.max (tier_rank (getTierBySpend c s)) (tier_rank (getTierByPoints c s)).
Proof.
  unfold getCustomerTier, getTierBySpend, getTierByPoints.
  destruct (JS.geb (Customer.totalSpent c) (minSpend (TierSettings.platinum s)));
  destruct (JS.geb (Customer.points c) (minPoints (TierSettings.platinum s)));
  destruct (JS.geb (Customer.totalSpent c) (minSpend (TierSettings.gold s)));
  destruct (JS.geb (Customer.points c) (minPoints (TierSettings.gold s)));
  destruct (JS.geb (Customer.totalSpent c) (minSpend (TierSettings.silver s)));
  destruct (JS.geb (Customer.points c) (minPoints (TierSettings.silver s)));
  reflexivity.
Qed.

(** Case analysis on every threshold test of the goal; the cases the data
    allows are closed by [lia], the others contradict [geb_mono]. *)
Ltac mono_cases H :=
  repeat match goal with
         | |- context [JS.geb ?a ?t] =>
             let E := fresh "E" in destruct (JS.geb a t) eqn:E
         end;
  cbn; try lia; exfalso;
  repeat match goal with
         | E : JS.geb _ _ = true |- _ => apply (geb_mono _ _ _ H) in E
         end;
  congruence.

Lemma getTierBySpend_mono (c1 c2 : Customer.t) (s : TierSettings.t) :
  Customer.totalSpent c1 <= Customer.totalSpent c2 ->
  tier_le (getTierBySpend c1 s) (getTierBySpend c2 s).
Proof.
  intro H. unfold tier_le, getTierBySpend. mono_cases H.
Qed.

Lemma getTierByPoints_mono (c1 c2 : Customer.t) (s : TierSettings.t) :
  Customer.points c1 <= Customer.points c2 ->
  tier_le (getTierByPoints c1 s) (getTierByPoints c2 s).
Proof.
  intro H. unfold tier_le, getTierByPoints. mono_cases H.
Qed.

(** X1: classification is monotone for every settings value: a customer who
    has spent at least as much is at least as high by spend, one with at
    least as many points is at least as high by points, and one with both is
    at least as high in the effective tier. *)
Theorem tiers_monotone (c1 c2 : Customer.t) (s : TierSettings.t) :
  (Customer.totalSpent c1 <= Customer.totalSpent c2 ->
   tier_le (getTierBySpend c1 s) (getTierBySpend c2 s))
  /\ (Customer.points c1 <= Customer.points c2 ->
      tier_le (getTierByPoints c1 s) (getTierByPoints c2 s))
  /\ (Customer.totalSpent c1 <= Customer.totalSpent c2 ->
      Customer.points c1 <= Customer.points c2 ->
      tier_le (getCustomerTier c1 s) (getCustomerTier c2 s)).
Proof.
  split; [apply getTierBySpend_mono|]. split; [apply getTierByPoints_mono|].
  intros Hs Hp. unfold tier_le. rewrite !rank_getCustomerTier.
  pose proof (getTierBySpend_mono c1 c2 s Hs) as H1.
  pose proof (getTierByPoints_mono c1 c2 s Hp) as H2.
  unfold tier_le in H1, H2. lia.
Qed.

Lemma tiers_monotone_witness :
  Customer.totalSpent bala <= Customer.totalSpent devi
  /\ Customer.points bala <= Customer.points devi
  /\ tier_le (getTierBySpend bala DEFAULT_TIER_SETTINGS)
             (getTierBySpend devi DEFAULT_TIER_SETTINGS)
  /\ tier_le (getTierByPoints bala DEFAULT_TIER_SETTINGS)
             (getTierByPoints devi DEFAULT_TIER_SETTINGS)
  /\ tier_le (getCustomerTier bala DEFAULT_TIER_SETTINGS)
             (getCustomerTier devi DEFAULT_TIER_SETTINGS).
Proof.
  assert (Hs : Customer.totalSpent bala <= Customer.totalSpent devi)
    by (vm_compute; discriminate).
  assert (Hp : Customer.points bala <= Customer.points devi)
    by (vm_compute; discriminate).
  destruct (tiers_monotone bala devi DEFAULT_TIER_SETTINGS) as (H1 & H2 & H3).
  exact (conj Hs (conj Hp (conj (H1 Hs) (conj (H2 Hp) (H3 Hs Hp))))).
Defined.

(** X2: when the thresholds increase from Silver to Platinum, a customer is
    at least Silver, Gold or Platinum by spend exactly when the total spent
    reaches that tier's [minSpend], and by points exactly when the points
    reach its [minPoints]. *)
Theorem tier_reached_iff_threshold (c : Customer.t) (s : TierSettings.t) :
  (minSpend (TierSettings.silver s) <= minSpend (TierSettings.gold s) ->
   minSpend (TierSettings.gold s) <= minSpend (TierSettings.platinum s) ->
   (tier_le Silver (getTierBySpend c s)
      <-> minSpend (TierSettings.silver s) <= Customer.totalSpent c)
   /\ (tier_le Gold (getTierBySpend c s)
      <-> minSpend (TierSettings.gold s) <= Customer.totalSpent c)
   /\ (tier_le Platinum (getTierBySpend c s)
      <-> minSpend (TierSettings.platinum s) <= Customer.totalSpent c))
  /\ (minPoints (TierSettings.silver s) <= minPoints (TierSettings.gold s) ->
      minPoints (TierSettings.gold s) <= minPoints (TierSettings.platinum s) ->
      (tier_le Silver (getTierByPoints c s)
         <-> minPoints (TierSettings.silver s) <= Customer.points c)
      /\ (tier_le Gold (getTierByPoints c s)
         <-> minPoints (TierSettings.gold s) <= Customer.points c)
      /\ (tier_le Platinum (getTierByPoints c s)
         <-> minPoints (TierSettings.platinum s) <= Customer.points c)).
Proof.
  unfold tier_le, getTierBySpend, getTierByPoints. split; intros H1 H2.
  - destruct (JS.geb (Customer.totalSpent c) (minSpend (TierSettings.platinum s))) eqn:P;
    destruct (JS.geb (Customer.totalSpent c) (minSpend (TierSettings.gold s))) eqn:G;
    destruct (JS.geb (Customer.totalSpent c) (minSpend (TierSettings.silver s))) eqn:S;
    try apply geb_true in P; try apply geb_true in G; try apply geb_true in S;
    try (apply not_true_iff_false in P; rewrite geb_true in P);
    try (apply not_true_iff_false in G; rewrite geb_true in G);
    try (apply not_true_iff_false in S; rewrite geb_true in S);
    cbn; repeat split; intros; try lia; try lra; exfalso; lra.
  - destruct (JS.geb (Customer.points c) (minPoints (TierSettings.platinum s))) eqn:P;
    destruct (JS.geb (Customer.points c) (minPoints (TierSettings.gold s))) eqn:G;
    destruct (JS.geb (Customer.points c) (minPoints (TierSettings.silver s))) eqn:S;
    try apply geb_true in P; try apply geb_true in G; try apply geb_true in S;
    try (apply not_true_iff_false in P; rewrite geb_true in P);
    try (apply not_true_iff_false in G; rewrite geb_true in G);
    try (apply not_true_iff_false in S; rewrite geb_true in S);
    cbn; repeat split; intros; try lia; try lra; exfalso; lra.
Qed.

Lemma tier_reached_iff_threshold_witness :
  minSpend (TierSettings.silver DEFAULT_TIER_SETTINGS)
    <= minSpend (TierSettings.gold DEFAULT_TIER_SETTINGS)
  /\ minSpend (TierSettings.gold DEFAULT_TIER_SETTINGS)
       <= minSpend (TierSettings.platinum DEFAULT_TIER_SETTINGS)
  /\ (tier_le Gold (getTierBySpend asha DEFAULT_TIER_SETTINGS)
      <-> minSpend (TierSettings.gold DEFAULT_TIER_SETTINGS) <= Customer.totalSpent asha)
  /\ (tier_le Platinum (getTierBySpend asha DEFAULT_TIER_SETTINGS)
      <-> minSpend (TierSettings.platinum DEFAULT_TIER_SETTINGS)
          <= Customer.totalSpent asha).
Proof.
  assert (H1 : minSpend (TierSettings.silver DEFAULT_TIER_SETTINGS)
               <= minSpend (TierSettings.gold DEFAULT_TIER_SETTINGS))
    by (vm_compute; discriminate).
  assert (H2 : minSpend (TierSettings.gold DEFAULT_TIER_SETTINGS)
               <= minSpend (TierSettings.platinum DEFAULT_TIER_SETTINGS))
    by (vm_compute; discriminate).
  destruct (proj1 (tier_reached_iff_threshold asha DEFAULT_TIER_SETTINGS) H1 H2)
    as (_ & HG & HP).
  exact (conj H1 (conj H2 (conj HG HP))).
Defined.

(** X3: a tier whose threshold is not below the next tier's is never
    assigned: with [gold.minSpend <= silver.minSpend] no customer is Silver
    by spend, with [platinum.minSpend <= gold.minSpend] none is Gold by
    spend, likewise by points, and with both criteria inverted likewise for
    the effective tier. *)
Theorem inverted_threshold_hides_tier (c : Customer.t) (s : TierSettings.t) :
  (minSpend (TierSettings.gold s) <= minSpend (TierSettings.silver s) ->
   getTierBySpend c s <> Silver)
  /\ (minSpend (TierSettings.platinum s) <= minSpend (TierSettings.gold s) ->
      getTierBySpend c s <> Gold)
  /\ (minPoints (TierSettings.gold s) <= minPoints (TierSettings.silver s) ->
      getTierByPoints c s <> Silver)
  /\ (minPoints (TierSettings.platinum s) <= minPoints (TierSettings.gold s) ->
      getTierByPoints c s <> Gold)
  /\ (minSpend (TierSettings.gold s) <= minSpend (TierSettings.silver s) ->
      minPoints (TierSettings.gold s) <= minPoints (TierSettings.silver s) ->
      getCustomerTier c s <> Silver)
  /\ (minSpend (TierSettings.platinum s) <= minSpend (TierSettings.gold s) ->
      minPoints (TierSettings.platinum s) <= minPoints (TierSettings.gold s) ->
      getCustomerTier c s <> Gold).
Proof.
  unfold getTierBySpend, getTierByPoints, getCustomerTier.
  destruct (JS.geb (Customer.totalSpent c) (minSpend (TierSettings.platinum s))) eqn:SP;
  destruct (JS.geb (Customer.totalSpent c) (minSpend (TierSettings.gold s))) eqn:SG;
  destruct (JS.geb (Customer.totalSpent c) (minSpend (TierSettings.silver s))) eqn:SS;
  destruct (JS.geb (Customer.points c) (minPoints (TierSettings.platinum s))) eqn:PP;
  destruct (JS.geb (Customer.points c) (minPoints (TierSettings.gold s))) eqn:PG;
  destruct (JS.geb (Customer.points c) (minPoints (TierSettings.silver s))) eqn:PS;
  cbn [orb];
  repeat match goal with
         | E : JS.geb _ _ = true |- _ => apply geb_true in E
         | E : JS.geb _ _ = false |- _ =>
             apply not_true_iff_false in E; rewrite geb_true in E
         end;
  repeat split; intros; try discriminate; exfalso; lra.
Qed.

(** Settings whose Silver threshold was raised to Gold's. *)
Lemma inverted_threshold_hides_tier_witness :
  let s := {| TierSettings.bronze := {| minSpend := 0; minPoints := 0 |};
              TierSettings.silver := {| minSpend := 10000; minPoints := 500 |};
              TierSettings.gold := {| minSpend := 10000; minPoints := 500 |};
              TierSettings.platinum := {| minSpend := 50000; minPoints := 2500 |} |} in
  minSpend (TierSettings.gold s) <= minSpend (TierSettings.silver s)
  /\ minPoints (TierSettings.gold s) <= minPoints (TierSettings.silver s)
  /\ getTierBySpend asha s <> Silver
  /\ getCustomerTier asha s <> Silver.
Proof.
  intro s.
  assert (H1 : minSpend (TierSettings.gold s) <= minSpend (TierSettings.silver s))
    by (vm_compute; discriminate).
  assert (H2 : minPoints (TierSettings.gold s) <= minPoints (TierSettings.silver s))
    by (vm_compute; discriminate).
  destruct (inverted_threshold_hides_tier asha s) as (A & _ & _ & _ & B & _).
  exact (conj H1 (conj H2 (conj (A H1) (B H1 H2)))).
Defined.

(** ** Bounds on the bill *)

Lemma orZero_nonneg (x : JS.parsed) :
  (forall q, x = Some q -> 0 <= q) -> 0 <= JS.orZero x.
Proof.
  intro H. unfold JS.orZero. destruct x as [q|]; [|lra].
  destruct (Qeq_bool q 0); [lra | apply H; reflexivity].
Qed.

Lemma discount_part (subtotal pct : Q) :
  0 <= subtotal -> 0 <= pct <= 100 ->
  0 <= subtotal * (pct / 100) <= subtotal.
Proof.
  intros Hs [Hp0 Hp1].
  assert (H0 : 0 <= pct / 100).
  { apply Qle_shift_div_l; [reflexivity | lra]. }
  assert (H1 : pct / 100 <= 1).
  { apply Qle_shift_div_r; [reflexivity | lra]. }
  split.
  - apply Qmult_le_0_compat; assumption.
  - setoid_replace subtotal with (subtotal * 1) at 2 by ring.
    rewrite (Qmult_comm subtotal), (Qmult_comm subtotal 1).
    apply Qmult_le_compat_r; assumption.
Qed.

Lemma discountAmount_range (p : Props) (st : State) :
  (forall tier, 0 <= DiscountSettings.get (discountSettings p) tier <= 100) ->
  0 <= JS.orZero (billAmount st) ->
  0 <= BillDetails.discountAmount (billDetails p st)
    <= BillDetails.subtotal (billDetails p st).
Proof.
  intros Hds Hsub.
  unfold billDetails. cbn [BillDetails.discountAmount BillDetails.subtotal].
  destruct (discountGuard p st (JS.orZero (billAmount st))); [|lra].
  apply discount_part; [exact Hsub|].
  destruct (tierInfo p st) as [ti|]; [|lra].
  rewrite orZero_Some. apply Hds.
Qed.

(** X4: with every discount setting between 0 and 100 and a bill amount
    that is not negative, [billDetails] keeps
    [0 <= discountAmount <= subtotal], [0 <= finalBill <= subtotal] and
    [0 <= cashPayable]; when the points asked for are not negative either,
    [0 <= pointsUsed] and [cashPayable <= finalBill]. *)
Theorem billDetails_bounds (p : Props) (st : State) :
  (forall tier, 0 <= DiscountSettings.get (discountSettings p) tier <= 100) ->
  0 <= JS.orZero (billAmount st) ->
  let bd := billDetails p st in
  0 <= BillDetails.discountAmount bd <= BillDetails.subtotal bd
  /\ 0 <= BillDetails.finalBill bd <= BillDetails.subtotal bd
  /\ 0 <= BillDetails.cashPayable bd
  /\ (0 <= JS.orZero (pointsToUse st) ->
      0 <= BillDetails.pointsUsed bd
      /\ BillDetails.cashPayable bd <= BillDetails.finalBill bd).
Proof.
  intros Hds Hsub. cbn zeta.
  assert (Hd : 0 <= BillDetails.discountAmount (billDetails p st)
               <= BillDetails.subtotal (billDetails p st)).
  { unfold billDetails. cbn [BillDetails.discountAmount BillDetails.subtotal].
    destruct (discountGuard p st (JS.orZero (billAmount st))); [|lra].
    apply discount_part; [exact Hsub|].
    destruct (tierInfo p st) as [ti|]; [|lra].
    rewrite orZero_Some. apply Hds. }
  assert (Hf : BillDetails.finalBill (billDetails p st)
               = BillDetails.subtotal (billDetails p st)
                 - BillDetails.discountAmount (billDetails p st)) by reflexivity.
  assert (Hc : BillDetails.cashPayable (billDetails p st)
               = BillDetails.finalBill (billDetails p st)
                 - BillDetails.pointsUsed (billDetails p st)) by reflexivity.
  assert (Hu : (BillDetails.pointsUsed (billDetails p st) = 0)
               \/ (exists c, 0 < Customer.points c
                   /\ BillDetails.pointsUsed (billDetails p st)
                      = JS.Math_min3 (Customer.points c)
                          (BillDetails.finalBill (billDetails p st))
                          (JS.orZero (pointsToUse st)))).
  { destruct (currentCustomer st) as [c|] eqn:Ec.
    - destruct (usePointsAndDiscount st) eqn:Eu.
      + destruct (Qlt_le_dec 0 (Customer.points c)) as [Hp|Hp].
        * right. exists c. split; [exact Hp|].
          apply pointsUsed_guard_on; assumption.
        * left. apply pointsUsed_guard_off.
          intros (_ & c' & Hc' & Hp').
          assert (c' = c) by congruence. subst c'. lra.
      + left. apply pointsUsed_guard_off. intros (E & _). congruence.
    - left. apply pointsUsed_guard_off. intros (_ & c' & Hc' & _). congruence. }
  rewrite Hc, Hf in *. split; [exact Hd|]. split; [lra|].
  destruct Hu as [->|(c & Hp & ->)].
  - split; [lra|]. intros _. lra.
  - pose proof (Math_min3_glb (Customer.points c)
                  (BillDetails.subtotal (billDetails p st)
                   - BillDetails.discountAmount (billDetails p st))
                  (JS.orZero (pointsToUse st))) as (_ & Hle & _).
    split; [lra|]. intro Hr.
    assert (Hpos : 0 <= JS.Math_min3 (Customer.points c)
                          (BillDetails.subtotal (billDetails p st)
                           - BillDetails.discountAmount (billDetails p st))
                          (JS.orZero (pointsToUse st))).
    { unfold JS.Math_min3. apply Q.min_glb; [apply Q.min_glb|]; lra. }
    lra.
Qed.

Lemma billDetails_bounds_witness :
  let bd := billDetails shop ashaRedeems in
  0 <= BillDetails.discountAmount bd <= BillDetails.subtotal bd
  /\ 0 <= BillDetails.finalBill bd <= BillDetails.subtotal bd
  /\ 0 <= BillDetails.cashPayable bd
  /\ (0 <= JS.orZero (pointsToUse ashaRedeems) ->
      0 <= BillDetails.pointsUsed bd
      /\ BillDetails.cashPayable bd <= BillDetails.finalBill bd).
Proof.
  apply (billDetails_bounds shop ashaRedeems).
  - intros []; vm_compute; split; discriminate.
  - vm_compute; discriminate.
Defined.

(** ** What a commit does to the collection *)

Lemma map_updateCustomer_absent (t : string) (bd : BillDetails.t)
    (e : TransactionHistory.t) (cs : list Customer.t) :
  ~ In t (map Customer.mobile cs) -> map (updateCustomer t bd e) cs = cs.
Proof.
  induction cs as [|x cs IH]; intro H; [reflexivity|].
  cbn [map] in *. rewrite updateCustomer_other, IH; [reflexivity | |].
  - intro Hin. apply H. right. exact Hin.
  - intro Hx. apply H. left. exact Hx.
Qed.

(** X5: a commit for an existing customer whose key is not in the
    collection records nothing: every check passes, the confirmation is
    shown with a new balance of 0, and the collection is returned as it was
    (the form is open before any mobile is typed, with the key [countryCode]
    alone). *)
Theorem submit_unknown_key (now : Z) (p : Props) (st : State) (r : Committed) :
  handleTransactionSubmit now p st = Some r ->
  isNewCustomer st = false ->
  ~ In (targetMobile st) (map Customer.mobile (customers p)) ->
  nextCustomers r = customers p
  /\ LastTransactionDetails.newTotalPoints (lastTransactionDetails r) = 0
  /\ LastTransactionDetails.finalBill (lastTransactionDetails r)
     = BillDetails.finalBill (billDetails p st).
Proof.
  intros H Hn Habs. pose proof (submit_Some now p st r H) as [_ Hnext].
  rewrite Hn in Hnext. rewrite map_updateCustomer_absent in Hnext by exact Habs.
  split; [exact Hnext|].
  unfold handleTransactionSubmit in H.
  destruct (JS.falsy (BillDetails.subtotal (billDetails p st))
            || JS.leb (BillDetails.subtotal (billDetails p st)) 0); [discriminate|].
  destruct (JS.nan_ltb (cashGiven st) (BillDetails.cashPayable (billDetails p st)));
    [discriminate|].
  rewrite Hn in H. injection H as <-.
  cbn [lastTransactionDetails LastTransactionDetails.newTotalPoints
       LastTransactionDetails.finalBill].
  split; [|reflexivity].
  unfold newTotalPointsAfterMap. apply newTotalPoints_untouched. exact Habs.
Qed.

Lemma submit_unknown_key_witness :
  exists r,
    handleTransactionSubmit jan1 shop (setAmounts (Some 100) (Some 100) initialState)
    = Some r
    /\ nextCustomers r = customers shop
    /\ LastTransactionDetails.newTotalPoints (lastTransactionDetails r) = 0
    /\ LastTransactionDetails.finalBill (lastTransactionDetails r)
       = BillDetails.finalBill
           (billDetails shop (setAmounts (Some 100) (Some 100) initialState)).
Proof.
  destruct (handleTransactionSubmit jan1 shop
              (setAmounts (Some 100) (Some 100) initialState)) as [r|] eqn:E;
    [|vm_compute in E; discriminate E].
  exists r. split; [reflexivity|].
  apply (submit_unknown_key jan1 shop (setAmounts (Some 100) (Some 100) initialState) r E).
  - reflexivity.
  - cbn. intuition discriminate.
Defined.

(** X6: a commit never drives the balance of the customer on the form
    below zero: the points redeemed are at most the points held, so a
    balance that was not negative is not negative afterwards. *)
Theorem submit_keeps_points_nonneg
    (now : Z) (p : Props) (st : State) (c : Customer.t) (i : nat) (r : Committed) :
  handleTransactionSubmit now p st = Some r ->
  isNewCustomer st = false ->
  currentCustomer st = Some c ->
  nth_error (customers p) i = Some c ->
  0 <= Customer.points c ->
  exists c',
    nth_error (nextCustomers r) i = Some c'
    /\ Customer.points c'
       = Customer.points c - BillDetails.pointsUsed (billDetails p st)
         + BillDetails.pointsEarned (billDetails p st)
    /\ BillDetails.pointsUsed (billDetails p st) <= Customer.points c
    /\ 0 <= Customer.points c'.
Proof.
  intros H Hn Hc Hi Hp. apply submit_Some in H. destruct H as [_ ->]. rewrite Hn.
  exists (updateCustomer (targetMobile st) (billDetails p st)
            (newHistoryEntry now p st) c).
  split; [apply map_nth_error; exact Hi|].
  rewrite updateCustomer_target by (unfold targetMobile; rewrite Hc; reflexivity).
  cbn [Customer.points]. split; [reflexivity|].
  assert (Hu : BillDetails.pointsUsed (billDetails p st) <= Customer.points c).
  { destruct (usePointsAndDiscount st) eqn:Eu.
    - destruct (Qlt_le_dec 0 (Customer.points c)) as [Hpos|Hneg].
      + rewrite (pointsUsed_guard_on p st c Eu Hc Hpos). apply Math_min3_glb.
      + rewrite pointsUsed_guard_off; [exact Hp|].
        intros (_ & c' & Hc' & Hp'). assert (c' = c) by congruence. subst c'. lra.
    - rewrite pointsUsed_guard_off; [exact Hp|]. intros (E & _). congruence. }
  split; [exact Hu|].
  assert (He : 0 <= BillDetails.pointsEarned (billDetails p st)).
  { unfold billDetails. cbn [BillDetails.pointsEarned]. unfold JS.Math_max.
    apply Q.le_max_l. }
  lra.
Qed.

Lemma submit_keeps_points_nonneg_witness :
  exists r c',
    handleTransactionSubmit (dayAfter 30) shop ashaRedeems = Some r
    /\ nth_error (nextCustomers r) 0 = Some c'
    /\ Customer.points c'
       = Customer.points asha - BillDetails.pointsUsed (billDetails shop ashaRedeems)
         + BillDetails.pointsEarned (billDetails shop ashaRedeems)
    /\ BillDetails.pointsUsed (billDetails shop ashaRedeems) <= Customer.points asha
    /\ 0 <= Customer.points c'.
Proof.
  destruct (handleTransactionSubmit (dayAfter 30) shop ashaRedeems) as [r|] eqn:E;
    [|vm_compute in E; discriminate E].
  exists r.
  assert (Hp : 0 <= Customer.points asha) by (vm_compute; discriminate).
  destruct (submit_keeps_points_nonneg (dayAfter 30) shop ashaRedeems asha 0%nat r E
              eq_refl eq_refl eq_refl Hp) as (c' & H).
  exists c'. exact (conj eq_refl H).
Defined.

(** X7: the ledger is append-only: a commit leaves, at every position, a
    record whose history is the old history followed by at most one entry,
    and, when every discount setting is between 0 and 100, whose
    [totalSpent] is not below the old one. *)
Theorem submit_append_only (now : Z) (p : Props) (st : State) (r : Committed) :
  handleTransactionSubmit now p st = Some r ->
  forall (i : nat) (c : Customer.t),
    nth_error (customers p) i = Some c ->
    exists c' suffix,
      nth_error (nextCustomers r) i = Some c'
      /\ Customer.history c' = Customer.history c ++ suffix
      /\ (List.length suffix <= 1)%nat
      /\ ((forall tier, 0 <= DiscountSettings.get (discountSettings p) tier <= 100) ->
          Customer.totalSpent c <= Customer.totalSpent c').
Proof.
  intros H i c Hi. pose proof (submit_Some now p st r H) as [[Hs _] Hnext].
  rewrite Hnext. destruct (isNewCustomer st).
  - exists c, []. split.
    + rewrite nth_error_app1; [exact Hi|]. apply nth_error_Some. congruence.
    + rewrite app_nil_r. repeat split; [cbn; lia | intros _; lra].
  - destruct (String.eqb (Customer.mobile c) (targetMobile st)) eqn:E.
    + apply String.eqb_eq in E.
      exists (updateCustomer (targetMobile st) (billDetails p st)
                (newHistoryEntry now p st) c), [newHistoryEntry now p st].
      split; [apply map_nth_error; exact Hi|].
      rewrite (updateCustomer_target _ _ _ _ E).
      cbn [Customer.history Customer.totalSpent].
      repeat split; [cbn; lia|]. intro Hds.
      assert (Hsub : 0 <= JS.orZero (billAmount st)).
      { change (JS.orZero (billAmount st))
          with (BillDetails.subtotal (billDetails p st)). lra. }
      pose proof (discountAmount_range p st Hds Hsub) as Hd.
      change (BillDetails.finalBill (billDetails p st))
        with (BillDetails.subtotal (billDetails p st)
              - BillDetails.discountAmount (billDetails p st)).
      lra.
    + apply String.eqb_neq in E. exists c, [].
      split.
      * rewrite (map_nth_error _ _ _ Hi), updateCustomer_other by exact E.
        reflexivity.
      * rewrite app_nil_r. repeat split; [cbn; lia | intros _; lra].
Qed.

Lemma submit_append_only_witness :
  exists r c' suffix,
    handleTransactionSubmit (dayAfter 30) shop ashaRedeems = Some r
    /\ nth_error (nextCustomers r) 0 = Some c'
    /\ Customer.history c' = Customer.history asha ++ suffix
    /\ (List.length suffix <= 1)%nat
    /\ Customer.totalSpent asha <= Customer.totalSpent c'.
Proof.
  destruct (handleTransactionSubmit (dayAfter 30) shop ashaRedeems) as [r|] eqn:E;
    [|vm_compute in E; discriminate E].
  destruct (submit_append_only (dayAfter 30) shop ashaRedeems r E 0%nat asha eq_refl)
    as (c' & suffix & H1 & H2 & H3 & H4).
  exists r, c', suffix.
  assert (Hds : forall tier,
             0 <= DiscountSettings.get (discountSettings shop) tier <= 100)
    by (intros []; vm_compute; split; discriminate).
  exact (conj eq_refl (conj H1 (conj H2 (conj H3 (H4 Hds))))).
Defined.

(** ** The overview totals *)

Lemma fold_left_sumOf {A : Type} (f : A -> Q) (l : list A) (a : Q) :
  fold_left (fun acc x => acc + f x) l a == a + sumOf f l.
Proof.
  revert a. induction l as [|x l IH]; intro a.
  - unfold sumOf; simpl. ring.
  - simpl fold_left. rewrite IH. unfold sumOf; simpl. ring.
Qed.

Lemma sumOf_app {A : Type} (f : A -> Q) (l1 l2 : list A) :
  sumOf f (l1 ++ l2) == sumOf f l1 + sumOf f l2.
Proof.
  induction l1 as [|x l1 IH].
  - unfold sumOf; simpl. ring.
  - unfold sumOf in *; simpl. rewrite IH. ring.
Qed.

Lemma countKey_cons (t : string) (x : Customer.t) (cs : list Customer.t) :
  countKey t (x :: cs)
  = ((if String.eqb (Customer.mobile x) t then 1 else 0) + countKey t cs)%nat.
Proof.
  unfold countKey. cbn [filter].
  destruct (String.eqb (Customer.mobile x) t); reflexivity.
Qed.

(** The sum of a field that the update moves by [delta] at every record it
    touches. *)
Lemma sumOf_updateCustomer (f : Customer.t -> Q) (delta : Q) (t : string)
    (bd : BillDetails.t) (e : TransactionHistory.t) (cs : list Customer.t) :
  (forall c, Customer.mobile c = t ->
             f (updateCustomer t bd e c) == f c + delta) ->
  sumOf f (map (updateCustomer t bd e) cs)
  == sumOf f cs + inject_Z (Z.of_nat (countKey t cs)) * delta.
Proof.
  intro Hf. induction cs as [|x cs IH].
  - unfold sumOf, countKey; simpl. ring.
  - change (sumOf f (map (updateCustomer t bd e) (x :: cs)))
      with (f (updateCustomer t bd e x) + sumOf f (map (updateCustomer t bd e) cs)).
    change (sumOf f (x :: cs)) with (f x + sumOf f cs).
    rewrite IH, countKey_cons.
    destruct (String.eqb (Customer.mobile x) t) eqn:E.
    + apply String.eqb_eq in E. rewrite (Hf x E).
      rewrite Nat2Z.inj_add, inject_Z_plus. cbn [Z.of_nat]. 
      change (inject_Z (Z.pos 1)) with 1. ring.
    + apply String.eqb_neq in E. rewrite (updateCustomer_other _ _ _ _ E).
      cbn [Nat.add]. ring.
Qed.

(** X8: what a commit does to the overview cards ([dashboardStats]): a new
    customer adds one user, [finalBill] to the revenue and [pointsEarned] to
    the active points; an update leaves the number of users and adds
    [finalBill], and [pointsEarned - pointsUsed], once for every record
    stored under the key (once when the key is unique, not at all when it is
    absent). *)
Theorem dashboardStats_after_submit (now : Z) (p : Props) (st : State) (r : Committed) :
  handleTransactionSubmit now p st = Some r ->
  let bd := billDetails p st in
  let before := dashboardStats (customers p) in
  let after := dashboardStats (nextCustomers r) in
  (isNewCustomer st = true ->
   DashboardStats.totalCustomers after = S (DashboardStats.totalCustomers before)
   /\ DashboardStats.totalRevenue after
      == DashboardStats.totalRevenue before + BillDetails.finalBill bd
   /\ DashboardStats.totalPoints after
      == DashboardStats.totalPoints before + BillDetails.pointsEarned bd)
  /\ (isNewCustomer st = false ->
      let k := inject_Z (Z.of_nat (countKey (targetMobile st) (customers p))) in
      DashboardStats.totalCustomers after = DashboardStats.totalCustomers before
      /\ DashboardStats.totalRevenue after
         == DashboardStats.totalRevenue before + k * BillDetails.finalBill bd
      /\ DashboardStats.totalPoints after
         == DashboardStats.totalPoints before
            + k * (BillDetails.pointsEarned bd - BillDetails.pointsUsed bd)).
Proof.
  intro H. cbn zeta. apply submit_Some in H. destruct H as [_ ->].
  unfold dashboardStats.
  cbn [DashboardStats.totalCustomers DashboardStats.totalRevenue
       DashboardStats.totalPoints].
  rewrite !fold_left_sumOf. split; intros ->.
  - rewrite length_app, !sumOf_app. cbn [List.length sumOf fold_right].
    split; [lia|]. rewrite !orZero_Some. unfold newCustomer.
    cbn [Customer.totalSpent Customer.points]. split; ring.
  - rewrite length_map. split; [reflexivity|]. split.
    + rewrite (sumOf_updateCustomer _ (BillDetails.finalBill (billDetails p st))).
      * ring.
      * intros c Hc. rewrite (updateCustomer_target _ _ _ _ Hc), !orZero_Some.
        reflexivity.
    + rewrite (sumOf_updateCustomer _
                 (BillDetails.pointsEarned (billDetails p st)
                  - BillDetails.pointsUsed (billDetails p st))).
      * ring.
      * intros c Hc. rewrite (updateCustomer_target _ _ _ _ Hc), !orZero_Some.
        cbn [Customer.points]. ring.
Qed.

Lemma dashboardStats_after_submit_witness :
  (exists r,
     handleTransactionSubmit (dayAfter 30) shop walkInPays = Some r
     /\ DashboardStats.totalCustomers (dashboardStats (nextCustomers r)) = 4%nat
     /\ DashboardStats.totalRevenue (dashboardStats (nextCustomers r))
        == DashboardStats.totalRevenue (dashboardStats (customers shop))
           + BillDetails.finalBill (billDetails shop walkInPays))
  /\ (exists r,
        handleTransactionSubmit (dayAfter 30) shop ashaRedeems = Some r
        /\ countKey (targetMobile ashaRedeems) (customers shop) = 1%nat
        /\ DashboardStats.totalRevenue (dashboardStats (nextCustomers r))
           == DashboardStats.totalRevenue (dashboardStats (customers shop))
              + 1 * BillDetails.finalBill (billDetails shop ashaRedeems)
        /\ DashboardStats.totalPoints (dashboardStats (nextCustomers r))
           == DashboardStats.totalPoints (dashboardStats (customers shop))
              + 1 * (BillDetails.pointsEarned (billDetails shop ashaRedeems)
                     - BillDetails.pointsUsed (billDetails shop ashaRedeems))).
Proof.
  split.
  - destruct (handleTransactionSubmit (dayAfter 30) shop walkInPays) as [r|] eqn:E;
      [|vm_compute in E; discriminate E].
    exists r.
    destruct (proj1 (dashboardStats_after_submit (dayAfter 30) shop walkInPays r E)
                eq_refl) as (H1 & H2 & _).
    exact (conj eq_refl (conj H1 H2)).
  - destruct (handleTransactionSubmit (dayAfter 30) shop ashaRedeems) as [r|] eqn:E;
      [|vm_compute in E; discriminate E].
    exists r.
    destruct (proj2 (dashboardStats_after_submit (dayAfter 30) shop ashaRedeems r E)
                eq_refl) as (_ & H2 & H3).
    exact (conj eq_refl (conj eq_refl (conj H2 H3))).
Defined.

(** ** Reading a customer back *)

(** The test of the lookup: [c.mobile === fullMobile || c.mobile === mobile]. *)
Lemma find_app_new {A : Type} (P : A -> bool) (l : list A) (x : A) :
  find P l = None -> P x = true -> find P (l ++ [x]) = Some x.
Proof.
  intros Hn Hx. induction l as [|y l IH]; cbn [app find] in *.
  - rewrite Hx. reflexivity.
  - destruct (P y); [discriminate | apply IH; exact Hn].
Qed.


(** X9: a new customer can be read back: after the commit, the lookup for
    the same country code and mobile finds exactly the record that was
    created, and no longer treats the number as new. *)
Theorem lookup_finds_new_customer
    (now now2 : Z) (p : Props) (st st2 : State) (r : Committed) :
  handleTransactionSubmit now p st = Some r ->
  isNewCustomer st = true ->
  currentCustomer st = None ->
  find (fun c => String.eqb (Customer.mobile c) (countryCode st ++ mobile st)
                 || String.eqb (Customer.mobile c) (mobile st))
       (customers p) = None ->
  (10 <= String.length (mobile st2))%nat ->
  countryCode st2 = countryCode st ->
  mobile st2 = mobile st ->
  let st3 := lookupEffect now2 (withCustomers p (nextCustomers r)) st2 in
  currentCustomer st3 = Some (newCustomer now p st)
  /\ isNewCustomer st3 = false
  /\ name st3 = JS.orString (name st) "Guest"
  /\ Customer.totalSpent (newCustomer now p st)
     = BillDetails.finalBill (billDetails p st)
  /\ Customer.points (newCustomer now p st)
     = BillDetails.pointsEarned (billDetails p st).
Proof.
  intros H Hn Hc Hfind Hlen Hcc Hm. cbn zeta.
  apply submit_Some in H. destruct H as [_ Hnext]. rewrite Hn in Hnext.
  unfold lookupEffect. apply Nat.leb_le in Hlen. rewrite Hlen.
  cbn [customers withCustomers]. rewrite Hnext, Hcc, Hm.
  rewrite (find_app_new _ _ (newCustomer now p st) Hfind).
  - cbn. repeat split.
  - unfold newCustomer, targetMobile. rewrite Hc. cbn [Customer.mobile].
    rewrite String.eqb_refl. reflexivity.
Qed.

Lemma lookup_finds_new_customer_witness :
  exists r,
    handleTransactionSubmit (dayAfter 30) shop walkInPays = Some r
    /\ currentCustomer
         (lookupEffect (dayAfter 31) (withCustomers shop (nextCustomers r)) walkInPays)
       = Some (newCustomer (dayAfter 30) shop walkInPays)
    /\ isNewCustomer
         (lookupEffect (dayAfter 31) (withCustomers shop (nextCustomers r)) walkInPays)
       = false.
Proof.
  destruct (handleTransactionSubmit (dayAfter 30) shop walkInPays) as [r|] eqn:E;
    [|vm_compute in E; discriminate E].
  exists r.
  assert (Hlen : (10 <= String.length (mobile walkInPays))%nat) by (cbn; lia).
  destruct (lookup_finds_new_customer (dayAfter 30) (dayAfter 31) shop walkInPays
              walkInPays r E eq_refl eq_refl eq_refl Hlen eq_refl eq_refl)
    as (H1 & H2 & _).
  exact (conj eq_refl (conj H1 H2)).
Defined.



(** X11: the PIN chosen at enrolment is the one that opens the form later:
    a new customer's PIN is accepted only with length 4, and at the next
    visit [handlePinVerify] accepts exactly that PIN. *)
Theorem pin_set_at_enrolment_verifies
    (now now2 : Z) (p : Props) (st st2 : State) (r : Committed) :
  handlePinVerify st = PinAccepted ->
  handleTransactionSubmit now p st = Some r ->
  isNewCustomer st = true ->
  currentCustomer st = None ->
  find (fun c => String.eqb (Customer.mobile c) (countryCode st ++ mobile st)
                 || String.eqb (Customer.mobile c) (mobile st))
       (customers p) = None ->
  (10 <= String.length (mobile st2))%nat ->
  countryCode st2 = countryCode st ->
  mobile st2 = mobile st ->
  let st3 := lookupEffect now2 (withCustomers p (nextCustomers r)) st2 in
  String.length (pin st) = 4%nat
  /\ (handlePinVerify st3 = PinAccepted <-> pin st2 = pin st).
Proof.
  intros Hpin H Hn Hc Hfind Hlen Hcc Hm. cbn zeta. split.
  - unfold handlePinVerify in Hpin. rewrite Hn in Hpin.
    destruct (String.length (pin st) =? 4)%nat eqn:E; [|discriminate].
    apply Nat.eqb_eq. exact E.
  - apply submit_Some in H. destruct H as [_ Hnext]. rewrite Hn in Hnext.
    unfold lookupEffect. apply Nat.leb_le in Hlen. rewrite Hlen.
    cbn [customers withCustomers]. rewrite Hnext, Hcc, Hm.
    rewrite (find_app_new _ _ (newCustomer now p st) Hfind).
    + unfold handlePinVerify.
      cbn [isNewCustomer currentCustomer pin newCustomer Customer.pin].
      destruct (String.eqb (pin st) (pin st2)) eqn:E.
      * apply String.eqb_eq in E. split; [intros _; symmetry; exact E | reflexivity].
      * apply String.eqb_neq in E. split; [discriminate | intro; exfalso; auto].
    + unfold newCustomer, targetMobile. rewrite Hc. cbn [Customer.mobile].
      rewrite String.eqb_refl. reflexivity.
Qed.

Lemma pin_set_at_enrolment_verifies_witness :
  exists r,
    handleTransactionSubmit (dayAfter 30) shop walkInPays = Some r
    /\ String.length (pin walkInPays) = 4%nat
    /\ (handlePinVerify
          (lookupEffect (dayAfter 31) (withCustomers shop (nextCustomers r)) walkInPays)
        = PinAccepted <-> pin walkInPays = pin walkInPays).
Proof.
  destruct (handleTransactionSubmit (dayAfter 30) shop walkInPays) as [r|] eqn:E;
    [|vm_compute in E; discriminate E].
  exists r. split; [reflexivity|].
  assert (Hlen : (10 <= String.length (mobile walkInPays))%nat) by (cbn; lia).
  exact (pin_set_at_enrolment_verifies (dayAfter 30) (dayAfter 31) shop walkInPays
           walkInPays r eq_refl E eq_refl eq_refl eq_refl Hlen eq_refl eq_refl).
Defined.

(** ** Days left, and eligibility after a purchase *)

(** X12: the days left shown for a customer are N/A exactly when the
    history is empty; otherwise they are [max(0, deadline - days)], never
    negative, positive only for an eligible customer, and 0 for an
    ineligible one. *)
Theorem daysLeft_spec (now : Z) (c : Customer.t) (dl : DeadlineSettings.t)
    (ts : TierSettings.t) :
  let e := checkDiscountEligibility now c dl ts in
  (Customer.history c = [] <-> daysLeft now c dl ts = None)
  /\ (Customer.history c <> [] ->
      exists deadline days v,
        Eligibility.deadline e = Some deadline
        /\ Eligibility.daysSinceLastTxn e = Some days
        /\ daysLeft now c dl ts = Some v
        /\ v = JS.Math_max 0 (deadline - days)
        /\ 0 <= v
        /\ (0 < v -> Eligibility.eligible e = true)
        /\ (Eligibility.eligible e = false -> v == 0)).
Proof.
  cbn zeta. unfold daysLeft, checkDiscountEligibility.
  destruct (Customer.history c) as [|first rest].
  - split; [split; reflexivity | intro H; contradiction H; reflexivity].
  - cbn [Eligibility.deadline Eligibility.daysSinceLastTxn Eligibility.eligible].
    split; [split; discriminate|]. intros _.
    generalize (JS.Math_floor
                  (inject_Z (now - TransactionHistory.date (fold_left laterOf rest first))
                   / inject_Z msPerDay)).
    generalize (DeadlineSettings.get dl (getTierByPoints c ts)).
    intros deadline days.
    exists deadline, days, (JS.Math_max 0 (deadline - days)).
    repeat split.
    + apply Q.le_max_l.
    + intro Hv. apply leb_true. unfold JS.Math_max in Hv.
      destruct (Qlt_le_dec (deadline - days) 0) as [Hneg|Hpos]; [|lra].
      rewrite Q.max_l in Hv by lra. lra.
    + intro He. unfold JS.Math_max. apply Q.max_l.
      apply not_true_iff_false in He. rewrite leb_true in He. lra.
Qed.

Lemma daysLeft_spec_witness :
  Customer.history devi <> []
  /\ exists deadline days v,
       Eligibility.deadline
         (checkDiscountEligibility (dayAfter 100) devi DEFAULT_DEADLINE_SETTINGS
            DEFAULT_TIER_SETTINGS) = Some deadline
       /\ Eligibility.daysSinceLastTxn
            (checkDiscountEligibility (dayAfter 100) devi DEFAULT_DEADLINE_SETTINGS
               DEFAULT_TIER_SETTINGS) = Some days
       /\ daysLeft (dayAfter 100) devi DEFAULT_DEADLINE_SETTINGS DEFAULT_TIER_SETTINGS
          = Some v
       /\ v = JS.Math_max 0 (deadline - days)
       /\ 0 <= v
       /\ (0 < v ->
           Eligibility.eligible
             (checkDiscountEligibility (dayAfter 100) devi DEFAULT_DEADLINE_SETTINGS
                DEFAULT_TIER_SETTINGS) = true)
       /\ (Eligibility.eligible
             (checkDiscountEligibility (dayAfter 100) devi DEFAULT_DEADLINE_SETTINGS
                DEFAULT_TIER_SETTINGS) = false -> v == 0).
Proof.
  assert (Hh : Customer.history devi <> []) by (cbn; discriminate).
  exact (conj Hh
           (proj2 (daysLeft_spec (dayAfter 100) devi DEFAULT_DEADLINE_SETTINGS
                     DEFAULT_TIER_SETTINGS) Hh)).
Defined.

Lemma fold_laterOf_app (rest : list TransactionHistory.t)
    (first e : TransactionHistory.t) :
  TransactionHistory.date (fold_left laterOf (rest ++ [e]) first)
  = Z.max (TransactionHistory.date (fold_left laterOf rest first))
          (TransactionHistory.date e).
Proof.
  rewrite fold_left_app. cbn [fold_left].
  generalize (fold_left laterOf rest first). intro latest. unfold laterOf.
  destruct (Z.gtb_spec (TransactionHistory.date e) (TransactionHistory.date latest));
    lia.
Qed.

(** The days the eligibility counts for a history that ends with an entry
    dated [now] and holds nothing later. *)
Lemma days_since_last_entry (now now2 : Z) (c : Customer.t)
    (older : list TransactionHistory.t) (e : TransactionHistory.t)
    (dl : DeadlineSettings.t) (ts : TierSettings.t) :
  Customer.history c = older ++ [e] ->
  TransactionHistory.date e = now ->
  (forall h, In h older -> (TransactionHistory.date h <= now)%Z) ->
  Eligibility.daysSinceLastTxn (checkDiscountEligibility now2 c dl ts)
  = Some (inject_Z ((now2 - now) / msPerDay)).
Proof.
  intros Hh He Hold. unfold checkDiscountEligibility. rewrite Hh.
  destruct older as [|first rest]; cbn [app].
  - cbn [fold_left Eligibility.daysSinceLastTxn]. rewrite He, floor_days. reflexivity.
  - cbn [Eligibility.daysSinceLastTxn]. rewrite fold_laterOf_app, He, floor_days.
    destruct (fold_laterOf_latest rest first) as [Hin _].
    rewrite Z.max_r by (apply Hold; exact Hin). reflexivity.
Qed.

Lemma eligible_iff_days (now : Z) (c : Customer.t) (dl : DeadlineSettings.t)
    (ts : TierSettings.t) (days : Q) :
  Eligibility.daysSinceLastTxn (checkDiscountEligibility now c dl ts) = Some days ->
  (Eligibility.eligible (checkDiscountEligibility now c dl ts) = true
   <-> days <= DeadlineSettings.get dl (getTierByPoints c ts)).
Proof.
  unfold checkDiscountEligibility.
  destruct (Customer.history c) as [|first rest]; [discriminate|].
  cbn [Eligibility.daysSinceLastTxn Eligibility.eligible].
  intro H. injection H as <-. apply leb_true.
Qed.

(** X13: eligibility counts from the purchase just committed: for the
    record a commit creates, and for a record it updates whose earlier
    entries are not dated after it, a later evaluation reports
    [floor((later - now) / one day)] days since the last transaction; within
    the first day the customer is eligible whenever the deadline of the
    points tier is not negative. *)
Theorem eligibility_counts_from_commit
    (now now2 : Z) (p : Props) (st : State) (r : Committed)
    (dl : DeadlineSettings.t) (ts : TierSettings.t) :
  handleTransactionSubmit now p st = Some r ->
  forall (i : nat) (c' : Customer.t),
    nth_error (nextCustomers r) i = Some c' ->
    (isNewCustomer st = true /\ i = List.length (customers p))
    \/ (isNewCustomer st = false
        /\ Customer.mobile c' = targetMobile st
        /\ forall h, In h (removelast (Customer.history c')) ->
                     (TransactionHistory.date h <= now)%Z) ->
    let e := checkDiscountEligibility now2 c' dl ts in
    Eligibility.daysSinceLastTxn e = Some (inject_Z ((now2 - now) / msPerDay))
    /\ ((0 <= now2 - now < msPerDay)%Z ->
        0 <= DeadlineSettings.get dl (getTierByPoints c' ts) ->
        Eligibility.eligible e = true).
Proof.
  intros H i c' Hi Hcase. cbn zeta.
  apply submit_Some in H. destruct H as [_ Hnext]. rewrite Hnext in Hi.
  assert (Hdays : Eligibility.daysSinceLastTxn (checkDiscountEligibility now2 c' dl ts)
                  = Some (inject_Z ((now2 - now) / msPerDay))).
  { destruct Hcase as [[Hn ->]|(Hn & Hm & Hold)]; rewrite Hn in Hi.
    - rewrite nth_error_app2, Nat.sub_diag in Hi by lia.
      cbn in Hi. injection Hi as <-.
      apply (days_since_last_entry now now2 _ [] (newHistoryEntry now p st));
        [reflexivity | reflexivity | intros h []].
    - apply nth_error_In in Hi. apply in_map_iff in Hi.
      destruct Hi as (c & <- & _).
      destruct (updateCustomer_identity (targetMobile st) (billDetails p st)
                  (newHistoryEntry now p st) c) as (Hmob & _).
      rewrite Hmob in Hm. rewrite (updateCustomer_target _ _ _ _ Hm) in *.
      cbn [Customer.history] in Hold. rewrite removelast_last in Hold.
      apply (days_since_last_entry now now2 _ (Customer.history c)
               (newHistoryEntry now p st)); [reflexivity | reflexivity | exact Hold]. }
  split; [exact Hdays|]. intros Hday Hdl.
  apply (eligible_iff_days now2 c' dl ts _ Hdays).
  rewrite Z.div_small by exact Hday. exact Hdl.
Qed.

Lemma eligibility_counts_from_commit_witness :
  exists r c',
    handleTransactionSubmit (dayAfter 100) shop deviReturns = Some r
    /\ nth_error (nextCustomers r) 2 = Some c'
    /\ Eligibility.daysSinceLastTxn
         (checkDiscountEligibility (dayAfter 100 + 3600000) c'
            DEFAULT_DEADLINE_SETTINGS DEFAULT_TIER_SETTINGS)
       = Some (inject_Z ((dayAfter 100 + 3600000 - dayAfter 100) / msPerDay))
    /\ Eligibility.eligible
         (checkDiscountEligibility (dayAfter 100 + 3600000) c'
            DEFAULT_DEADLINE_SETTINGS DEFAULT_TIER_SETTINGS) = true.
Proof.
  destruct (handleTransactionSubmit (dayAfter 100) shop deviReturns) as [r|] eqn:E;
    [|vm_compute in E; discriminate E].
  destruct (nth_error (nextCustomers r) 2) as [c'|] eqn:Ec;
    [|apply submit_Some in E; destruct E as [_ E]; rewrite E in Ec;
      vm_compute in Ec; discriminate Ec].
  exists r, c'.
  assert (Hcase : (isNewCustomer deviReturns = true
                   /\ 2%nat = List.length (customers shop))
                  \/ (isNewCustomer deviReturns = false
                      /\ Customer.mobile c' = targetMobile deviReturns
                      /\ forall h, In h (removelast (Customer.history c')) ->
                                   (TransactionHistory.date h <= dayAfter 100)%Z)).
  { right. pose proof (submit_Some _ _ _ _ E) as [_ Hnext]. rewrite Hnext in Ec.
    vm_compute in Ec. injection Ec as <-.
    split; [reflexivity|]. split; [reflexivity|].
    intros h [<-|[]]. vm_compute. discriminate. }
  destruct (eligibility_counts_from_commit (dayAfter 100) (dayAfter 100 + 3600000)
              shop deviReturns r DEFAULT_DEADLINE_SETTINGS DEFAULT_TIER_SETTINGS
              E 2%nat c' Ec Hcase) as [H1 H2].
  split; [reflexivity|]. split; [first [exact Ec | reflexivity]|].
  split; [exact H1|]. apply H2.
  - vm_compute. split; [discriminate | reflexivity].
  - pose proof (submit_Some _ _ _ _ E) as [_ Hnext]. rewrite Hnext in Ec.
    vm_compute in Ec. injection Ec as <-. vm_compute. discriminate.
Defined.

(** ** What every ledger holds *)

Lemma newHistoryEntry_valid (now : Z) (p : Props) (st : State) :
  committed now p st ->
  0 < TransactionHistory.bill (newHistoryEntry now p st)
  /\ TransactionHistory.pointsUsed (newHistoryEntry now p st) <> None
  /\ exists n : Z,
       (0 <= n)%Z /\ TransactionHistory.points (newHistoryEntry now p st) = inject_Z n.
Proof.
  intros [Hs _]. unfold newHistoryEntry.
  cbn [TransactionHistory.bill TransactionHistory.pointsUsed TransactionHistory.points].
  split; [exact Hs|]. split; [discriminate|].
  unfold billDetails. cbn [BillDetails.pointsEarned]. unfold JS.Math_floor.
  rewrite Math_max_0_whole. eexists. split; [|reflexivity]. apply Z.le_max_l.
Qed.

Lemma afterSecondSale_Ledger : Ledger afterSecondSale.
Proof.
  assert (L1 : Ledger afterFirstSale).
  { unfold afterFirstSale.
    destruct (handleTransactionSubmit jan1 newShop firstSale) as [r|] eqn:E;
      [|constructor].
    exact (ledger_submit jan1 newShop firstSale r ledger_empty E). }
  unfold afterSecondSale.
  destruct (handleTransactionSubmit (dayAfter 10) shopAfterFirstSale secondSale)
    as [r|] eqn:E; [|constructor].
  exact (ledger_submit (dayAfter 10) shopAfterFirstSale secondSale r L1 E).
Qed.

(** X14: in every collection built from the empty one by
    [handleTransactionSubmit] alone, each customer has at least one history
    entry, and each entry has a positive [bill], a recorded [pointsUsed] and,
    as points earned, a whole number that is not negative. *)
Theorem Ledger_histories (cs : list Customer.t) :
  Ledger cs ->
  Forall (fun c =>
            Customer.history c <> []
            /\ Forall (fun h =>
                         0 < TransactionHistory.bill h
                         /\ TransactionHistory.pointsUsed h <> None
                         /\ exists n : Z,
                              (0 <= n)%Z /\ TransactionHistory.points h = inject_Z n)
                      (Customer.history c))
         cs.
Proof.
  induction 1 as [|now p st r _ IH H]; [constructor|].
  apply submit_Some in H. destruct H as [Hc ->].
  pose proof (newHistoryEntry_valid now p st Hc) as He.
  destruct (isNewCustomer st).
  - apply Forall_app. split; [exact IH|]. constructor; [|constructor].
    unfold newCustomer. cbn [Customer.history]. split; [discriminate|].
    constructor; [exact He | constructor].
  - apply Forall_map. eapply Forall_impl; [|exact IH].
    intros c [Hne Hall]. unfold updateCustomer.
    destruct (negb (Customer.mobile c =? targetMobile st)%string);
      [split; assumption|].
    cbn [Customer.history]. split.
    + intro Habs. apply app_eq_nil in Habs. destruct Habs as [_ Habs]. discriminate.
    + apply Forall_app. split; [exact Hall|]. constructor; [exact He | constructor].
Qed.

Lemma Ledger_histories_witness :
  Ledger afterSecondSale
  /\ List.length afterSecondSale = 1%nat
  /\ Forall (fun c =>
               Customer.history c <> []
               /\ Forall (fun h =>
                            0 < TransactionHistory.bill h
                            /\ TransactionHistory.pointsUsed h <> None
                            /\ exists n : Z,
                                 (0 <= n)%Z
                                 /\ TransactionHistory.points h = inject_Z n)
                         (Customer.history c))
            afterSecondSale.
Proof.
  exact (conj afterSecondSale_Ledger
           (conj eq_refl (Ledger_histories afterSecondSale afterSecondSale_Ledger))).
Defined.

(** ** Analytics *)




Example aov_rounds_half_up :
  Analytics.aov afterSecondSale == 163.
Proof. vm_compute. reflexivity. Qed.

Lemma tier_eqb_eq (a b : Tier) : Analytics.tier_eqb a b = true <-> a = b.
Proof. destruct a, b; cbn; split; congruence. Qed.

Lemma tier_eqb_refl (a : Tier) : Analytics.tier_eqb a a = true.
Proof. apply tier_eqb_eq. reflexivity. Qed.

Lemma tier_eqb_neq (a b : Tier) : Analytics.tier_eqb a b = false <-> a <> b.
Proof.
  rewrite <- tier_eqb_eq. destruct (Analytics.tier_eqb a b); split; congruence.
Qed.

Lemma countOf_bump_same (t : Tier) (acc : list (Tier * nat)) :
  countOf t (Analytics.bump t acc) = S (countOf t acc).
Proof.
  unfold countOf. induction acc as [|[t' n] acc IH]; cbn [Analytics.bump find fst snd].
  - rewrite tier_eqb_refl. reflexivity.
  - destruct (Analytics.tier_eqb t' t) eqn:E; cbn [find fst snd]; rewrite E.
    + cbn [snd]. lia.
    + exact IH.
Qed.

Lemma countOf_bump_other (t u : Tier) (acc : list (Tier * nat)) :
  u <> t -> countOf u (Analytics.bump t acc) = countOf u acc.
Proof.
  intro H. unfold countOf.
  induction acc as [|[t' n] acc IH]; cbn [Analytics.bump find fst snd].
  - assert (E : Analytics.tier_eqb t u = false) by (apply tier_eqb_neq; congruence).
    rewrite E. reflexivity.
  - destruct (Analytics.tier_eqb t' t) eqn:E; cbn [find fst snd].
    + apply tier_eqb_eq in E. subst t'.
      assert (E' : Analytics.tier_eqb t u = false) by (apply tier_eqb_neq; congruence).
      rewrite E'. reflexivity.
    + destruct (Analytics.tier_eqb t' u); [reflexivity | exact IH].
Qed.

(** The shape an object of counts keeps: each key once, each count at
    least 1. *)
Lemma bump_shape (t : Tier) (acc : list (Tier * nat)) :
  NoDup (map fst acc) -> Forall (fun e => (1 <= snd e)%nat) acc ->
  NoDup (map fst (Analytics.bump t acc))
  /\ Forall (fun e => (1 <= snd e)%nat) (Analytics.bump t acc)
  /\ (forall u, In u (map fst (Analytics.bump t acc)) -> u = t \/ In u (map fst acc))
  /\ fold_right (fun e s => (snd e + s)%nat) 0%nat (Analytics.bump t acc)
     = S (fold_right (fun e s => (snd e + s)%nat) 0%nat acc).
Proof.
  induction acc as [|[t' n] acc IH]; intros Hnd Hall;
    cbn [Analytics.bump map fst snd fold_right].
  - repeat split.
    + constructor; [intros [] | constructor].
    + constructor; [cbn; lia | constructor].
    + intros u [<-|[]]. left. reflexivity.
  - inversion Hnd as [|? ? Hnot Hnd']. inversion Hall as [|? ? Hn Hall']. subst.
    destruct (Analytics.tier_eqb t' t) eqn:E; cbn [map fst snd fold_right].
    + repeat split.
      * constructor; assumption.
      * constructor; [cbn; lia | assumption].
      * intros u Hu. right. exact Hu.
      * lia.
    + destruct (IH Hnd' Hall') as (I1 & I2 & I3 & I4). repeat split.
      * constructor; [|exact I1]. intro Hin. destruct (I3 t' Hin) as [->|Hin'].
        -- rewrite tier_eqb_refl in E. discriminate.
        -- contradiction.
      * constructor; assumption.
      * intros u [<-|Hu]; [right; left; reflexivity|].
        destruct (I3 u Hu) as [->|Hin]; [left; reflexivity | right; right; exact Hin].
      * rewrite I4. lia.
Qed.

Lemma countOf_In (t : Tier) (n : nat) (acc : list (Tier * nat)) :
  NoDup (map fst acc) -> Forall (fun e => (1 <= snd e)%nat) acc ->
  (In (t, n) acc <-> countOf t acc = n /\ (1 <= n)%nat).
Proof.
  unfold countOf. induction acc as [|[t' m] acc IH]; intros Hnd Hall; cbn [find fst snd In].
  - split; [intros [] | intros [<- H]; lia].
  - inversion Hnd as [|? ? Hnot Hnd']. inversion Hall as [|? ? Hm Hall']. subst.
    cbn [fst snd map] in *.
    destruct (Analytics.tier_eqb t' t) eqn:E.
    + apply tier_eqb_eq in E. subst t'. cbn [snd]. split.
      * intros [H|H]; [injection H as <-; split; [reflexivity | exact Hm]|].
        exfalso. apply Hnot. apply (in_map fst) in H. exact H.
      * intros [<- _]. left. reflexivity.
    + rewrite <- (IH Hnd' Hall'). split.
      * intros [H|H]; [|exact H]. injection H as -> _.
        rewrite tier_eqb_refl in E. discriminate.
      * intro H. right. exact H.
Qed.

Lemma tierCounts_fold (ts : TierSettings.t) (cs : list Customer.t)
    (acc : list (Tier * nat)) :
  NoDup (map fst acc) -> Forall (fun e => (1 <= snd e)%nat) acc ->
  let out := fold_left (fun acc c => Analytics.bump (getCustomerTier c ts) acc) cs acc in
  NoDup (map fst out)
  /\ Forall (fun e => (1 <= snd e)%nat) out
  /\ (forall t, countOf t out = (countOf t acc + customersInTier t cs ts)%nat)
  /\ fold_right (fun e s => (snd e + s)%nat) 0%nat out
     = (fold_right (fun e s => (snd e + s)%nat) 0%nat acc + List.length cs)%nat.
Proof.
  revert acc. induction cs as [|c cs IH]; intros acc Hnd Hall; cbn zeta;
    cbn [fold_left].
  - repeat split; try assumption.
    + intro t. unfold customersInTier. cbn. lia.
    + cbn. lia.
  - destruct (bump_shape (getCustomerTier c ts) acc Hnd Hall) as (B1 & B2 & _ & B4).
    destruct (IH _ B1 B2) as (I1 & I2 & I3 & I4).
    repeat split; try assumption.
    + intro t. rewrite I3. unfold customersInTier. cbn [filter].
      destruct (Analytics.tier_eqb (getCustomerTier c ts) t) eqn:E.
      * apply tier_eqb_eq in E. subst t. rewrite countOf_bump_same.
        cbn [List.length]. lia.
      * apply tier_eqb_neq in E. rewrite countOf_bump_other by congruence. lia.
    + rewrite I4, B4. cbn [List.length]. lia.
Qed.

(** X16: the tier counts behind the pie chart list a tier exactly when at
    least one customer is in it, each listed tier once and with the number
    of customers whose effective tier it is; the counts add up to the number
    of customers. *)
Theorem tierCounts_spec (cs : list Customer.t) (ts : TierSettings.t) :
  NoDup (map fst (Analytics.tierCounts cs ts))
  /\ (forall (t : Tier) (n : nat),
        In (t, n) (Analytics.tierCounts cs ts)
        <-> n = customersInTier t cs ts /\ (1 <= n)%nat)
  /\ fold_right (fun e s => (snd e + s)%nat) 0%nat (Analytics.tierCounts cs ts)
     = List.length cs.
Proof.
  destruct (tierCounts_fold ts cs [] (NoDup_nil _) (Forall_nil _))
    as (H1 & H2 & H3 & H4).
  fold (Analytics.tierCounts cs ts) in H1, H2, H3, H4.
  split; [exact H1|]. split; [|exact H4].
  intros t n. rewrite (countOf_In t n _ H1 H2), H3. cbn. intuition congruence.
Qed.

Example tierCounts_shop :
  Analytics.tierCounts (customers shop) DEFAULT_TIER_SETTINGS = [(Gold, 2%nat); (Bronze, 1%nat)].
Proof. reflexivity. Qed.

Lemma insertSorted_perm {A : Type} (cmp : A -> A -> Q) (x : A) (l : list A) :
  Permutation (Analytics.insertSorted cmp x l) (x :: l).
Proof.
  induction l as [|y l IH]; cbn [Analytics.insertSorted]; [reflexivity|].
  destruct (JS.leb (cmp x y) 0); [reflexivity|].
  rewrite IH. apply perm_swap.
Qed.

Lemma sort_perm {A : Type} (cmp : A -> A -> Q) (l : list A) :
  Permutation (Analytics.sort cmp l) l.
Proof.
  unfold Analytics.sort. induction l as [|x l IH]; cbn [fold_right]; [reflexivity|].
  rewrite insertSorted_perm. constructor. exact IH.
Qed.

Lemma insertSorted_desc (x : Customer.t) (l : list Customer.t) :
  StronglySorted spendsAtLeast l ->
  StronglySorted spendsAtLeast (Analytics.insertSorted Analytics.bySpendDesc x l).
Proof.
  induction 1 as [|y l Hs IH Hy]; cbn [Analytics.insertSorted].
  - constructor; constructor.
  - destruct (JS.leb (Analytics.bySpendDesc x y) 0) eqn:E.
    + apply leb_true in E. unfold Analytics.bySpendDesc in E.
      assert (Hxy : spendsAtLeast x y) by (unfold spendsAtLeast; lra).
      constructor; [constructor; assumption|].
      constructor; [exact Hxy|].
      eapply Forall_impl; [|exact Hy]. unfold spendsAtLeast in *. intros; lra.
    + apply not_true_iff_false in E. rewrite leb_true in E.
      unfold Analytics.bySpendDesc in E.
      constructor; [exact IH|].
      rewrite (insertSorted_perm Analytics.bySpendDesc x l).
      constructor; [unfold spendsAtLeast; lra | exact Hy].
Qed.

Lemma sort_desc (l : list Customer.t) :
  StronglySorted spendsAtLeast (Analytics.sort Analytics.bySpendDesc l).
Proof.
  unfold Analytics.sort. induction l as [|x l IH]; cbn [fold_right].
  - constructor.
  - apply insertSorted_desc. exact IH.
Qed.

Lemma StronglySorted_app {A : Type} (R : A -> A -> Prop) (l1 l2 : list A) :
  StronglySorted R (l1 ++ l2) ->
  StronglySorted R l1 /\ forall a b, In a l1 -> In b l2 -> R a b.
Proof.
  induction l1 as [|x l1 IH]; cbn [app]; intro H.
  - split; [constructor | intros a b []].
  - inversion H as [|? ? Hs Hx]. subst. destruct (IH Hs) as [I1 I2]. split.
    + constructor; [exact I1|]. apply Forall_app in Hx. apply Hx.
    + intros a b [<-|Ha] Hb.
      * apply Forall_app in Hx. destruct Hx as [_ Hx].
        rewrite Forall_forall in Hx. apply Hx. exact Hb.
      * apply I2; assumption.
Qed.

(** X17: the top customers are the five biggest spenders: the list has
    [min(5, customers)] entries taken from the collection without
    repetition, in descending order of [totalSpent], and every customer left
    out has spent no more than any customer listed. *)
Theorem topCustomers_spec (cs : list Customer.t) :
  exists rest : list Customer.t,
    Permutation (Analytics.topCustomers cs ++ rest) cs
    /\ List.length (Analytics.topCustomers cs) = Nat.min 5 (List.length cs)
    /\ StronglySorted spendsAtLeast (Analytics.topCustomers cs)
    /\ forall a b,
         In a (Analytics.topCustomers cs) -> In b rest ->
         Customer.totalSpent b <= Customer.totalSpent a.
Proof.
  unfold Analytics.topCustomers.
  set (sorted := Analytics.sort Analytics.bySpendDesc cs).
  exists (skipn 5 sorted).
  assert (Hperm : Permutation sorted cs) by apply sort_perm.
  assert (Hsorted : StronglySorted spendsAtLeast (firstn 5 sorted ++ skipn 5 sorted)).
  { rewrite firstn_skipn. apply sort_desc. }
  apply StronglySorted_app in Hsorted. destruct Hsorted as [H1 H2].
  split; [rewrite firstn_skipn; exact Hperm|].
  split; [rewrite length_firstn, (Permutation_length Hperm); reflexivity|].
  split; [exact H1 | exact H2].
Qed.

Example topCustomers_shop :
  map Customer.name (Analytics.topCustomers (customers shop)) = ["Asha"; "Devi"; "Bala"]%string.
Proof. reflexivity. Qed.

(** ** Accounts *)

Lemma existsb_username (u : string) (l : list Admin) :
  existsb (fun a => String.eqb (username a) u) l = true <-> In u (map username l).
Proof.
  rewrite existsb_exists, in_map_iff. split.
  - intros (a & Ha & E). apply String.eqb_eq in E. exists a. split; assumption.
  - intros (a & E & Ha). exists a. split; [exact Ha | apply String.eqb_eq; exact E].
Qed.

Lemma find_credentials_absent (u pw : string) (l : list Admin) :
  ~ In u (map username l) ->
  find (fun a => String.eqb (username a) u && String.eqb (password a) pw) l = None.
Proof.
  intro H. induction l as [|a l IH]; cbn [find]; [reflexivity|].
  cbn [map In] in H.
  assert (E : String.eqb (username a) u = false).
  { apply String.eqb_neq. intro Ha. apply H. left. exact Ha. }
  rewrite E. cbn [andb]. apply IH. intro Hin. apply H. right. exact Hin.
Qed.

Lemma find_app_none {A : Type} (P : A -> bool) (l1 l2 : list A) :
  find P l1 = None -> find P (l1 ++ l2) = find P l2.
Proof.
  induction l1 as [|y l1 IH]; cbn [app find]; [reflexivity|].
  destruct (P y); [discriminate | exact IH].
Qed.

(** What [handleRegister] returns, in the form the invariant needs. *)
Lemma handleRegister_parts (st : App.state) (bn u pw : string) :
  NoDup (map username (App.admins st)) ->
  NoDup (map username (App.admins (fst (App.handleRegister st bn u pw))))
  /\ (snd (App.handleRegister st bn u pw) = true ->
      App.admins (fst (App.handleRegister st bn u pw))
      = App.admins st ++ [{| businessName := bn; username := u; password := pw |}])
  /\ (snd (App.handleRegister st bn u pw) = false ->
      fst (App.handleRegister st bn u pw) = st).
Proof.
  intro Hnd. unfold App.handleRegister.
  destruct (existsb (fun a => String.eqb (username a) u) (App.admins st)) eqn:E;
    cbn [fst snd App.admins].
  - split; [exact Hnd|]. split; [discriminate | reflexivity].
  - assert (Hnot : ~ In u (map username (App.admins st))).
    { intro H. apply existsb_username in H. congruence. }
    split; [|split; [reflexivity | discriminate]].
    rewrite map_app. cbn [map username].
    apply Permutation_NoDup with (l := u :: map username (App.admins st)).
    + apply Permutation_cons_append.
    + constructor; assumption.
Qed.

(** X18: [handleRegister] refuses exactly the usernames already taken and
    then changes nothing; otherwise it appends the one new account and logs
    it in; either way usernames stay unique. *)
Theorem handleRegister_spec (st : App.state) (bn u pw : string) :
  NoDup (map username (App.admins st)) ->
  let st' := fst (App.handleRegister st bn u pw) in
  let ok := snd (App.handleRegister st bn u pw) in
  NoDup (map username (App.admins st'))
  /\ (ok = false <-> In u (map username (App.admins st)))
  /\ (ok = false -> st' = st)
  /\ (ok = true ->
      App.admins st'
      = App.admins st ++ [{| businessName := bn; username := u; password := pw |}]
      /\ App.currentUser st'
         = Some {| businessName := bn; username := u; password := pw |}).
Proof.
  intro Hnd. cbn zeta. unfold App.handleRegister.
  destruct (existsb (fun a => String.eqb (username a) u) (App.admins st)) eqn:E;
    cbn [fst snd].
  - apply existsb_username in E.
    split; [exact Hnd|]. split; [split; [intros _; exact E | reflexivity]|].
    split; [reflexivity | discriminate].
  - assert (Hnot : ~ In u (map username (App.admins st))).
    { intro H. apply existsb_username in H. congruence. }
    cbn [App.admins App.currentUser]. repeat split; try discriminate.
    + rewrite map_app. cbn [map username].
      apply NoDup_app_remove_l with (l := []). cbn [app].
      apply Permutation_NoDup with (l := u :: map username (App.admins st)).
      * apply Permutation_cons_append.
      * constructor; assumption.
    + intro H. contradiction.
Qed.

Lemma handleRegister_spec_witness :
  let st := {| App.admins := []; App.currentUser := None |} in
  NoDup (map username (App.admins st))
  /\ snd (App.handleRegister st "Corner Store" "admin" "secret") = true
  /\ App.admins (fst (App.handleRegister st "Corner Store" "admin" "secret"))
     = App.admins st
       ++ [{| businessName := "Corner Store"; username := "admin";
              password := "secret" |}].
Proof.
  intro st.
  assert (Hnd : NoDup (map username (App.admins st))) by constructor.
  destruct (handleRegister_spec st "Corner Store" "admin" "secret" Hnd)
    as (_ & _ & _ & H).
  exact (conj Hnd (conj eq_refl (proj1 (H eq_refl)))).
Defined.

(** X19: an account can be used once registered: after a successful
    registration and a logout, [handleLogin] with that username succeeds
    exactly with the password given at registration, logs that account in,
    and on a wrong password leaves nobody logged in. *)
Theorem register_then_login (st : App.state) (bn u pw pw' : string) :
  snd (App.handleRegister st bn u pw) = true ->
  let registered := App.handleLogout (fst (App.handleRegister st bn u pw)) in
  let st' := fst (App.handleLogin registered u pw') in
  let ok := snd (App.handleLogin registered u pw') in
  (ok = true <-> pw' = pw)
  /\ (ok = true ->
      App.currentUser st'
      = Some {| businessName := bn; username := u; password := pw |})
  /\ (ok = false -> App.currentUser st' = None)
  /\ App.admins st' = App.admins registered.
Proof.
  intro H. cbn zeta. unfold App.handleRegister in *.
  destruct (existsb (fun a => String.eqb (username a) u) (App.admins st)) eqn:E;
    [discriminate|]. cbn [fst snd].
  assert (Hnot : ~ In u (map username (App.admins st))).
  { intro Hin. apply existsb_username in Hin. congruence. }
  unfold App.handleLogin, App.handleLogout. cbn [App.admins App.currentUser].
  rewrite (find_app_none _ _ _ (find_credentials_absent u pw' _ Hnot)).
  cbn [find username password]. rewrite String.eqb_refl. cbn [andb].
  destruct (String.eqb pw pw') eqn:Ep; cbn [fst snd App.currentUser App.admins].
  - apply String.eqb_eq in Ep. subst pw'. repeat split; discriminate.
  - apply String.eqb_neq in Ep. repeat split; try discriminate; try congruence.
Qed.

Lemma register_then_login_witness :
  let st := {| App.admins := []; App.currentUser := None |} in
  snd (App.handleRegister st "Corner Store" "admin" "secret") = true
  /\ snd (App.handleLogin
            (App.handleLogout (fst (App.handleRegister st "Corner Store" "admin" "secret")))
            "admin" "secret") = true
  /\ snd (App.handleLogin
            (App.handleLogout (fst (App.handleRegister st "Corner Store" "admin" "secret")))
            "admin" "guess") = false.
Proof.
  intro st.
  destruct (register_then_login st "Corner Store" "admin" "secret" "secret" eq_refl)
    as (H1 & _).
  destruct (register_then_login st "Corner Store" "admin" "secret" "guess" eq_refl)
    as (H2 & _).
  split; [reflexivity|]. split; [apply H1; reflexivity|].
  destruct (snd (App.handleLogin
                   (App.handleLogout
                      (fst (App.handleRegister st "Corner Store" "admin" "secret")))
                   "admin" "guess")) eqn:E; [|reflexivity].
  apply proj1 in H2. specialize (H2 eq_refl). discriminate H2.
Defined.

Lemma isEmpty_false (s : string) : App.isEmpty s = false <-> s <> EmptyString.
Proof. destruct s; cbn; split; congruence. Qed.

(** X20: the registration form never stores an incomplete or duplicate
    account: in every account list built from none through
    [handleRegisterSubmit], each account has a business name, a username
    and a password, none of them empty, and no username occurs twice. *)
Theorem Registered_accounts (l : list Admin) :
  App.Registered l ->
  Forall (fun a => businessName a <> EmptyString
                   /\ username a <> EmptyString
                   /\ password a <> EmptyString) l
  /\ NoDup (map username l).
Proof.
  induction 1 as [|st bn u pw pw2 _ [IH1 IH2]]; [split; constructor|].
  unfold App.handleRegisterSubmit.
  destruct (negb (String.eqb pw pw2)); [split; assumption|].
  destruct (App.isEmpty bn || App.isEmpty u || App.isEmpty pw) eqn:E;
    [split; assumption|].
  apply orb_false_iff in E. destruct E as [E Epw].
  apply orb_false_iff in E. destruct E as [Ebn Eu].
  apply isEmpty_false in Ebn, Eu, Epw.
  pose proof (handleRegister_parts st bn u pw IH2) as Hreg.
  destruct (App.handleRegister st bn u pw) as [st' ok]. cbn [fst snd] in *.
  destruct Hreg as (Hnd & Hnew & Hsame). split; [|exact Hnd].
  destruct ok.
  - rewrite (Hnew eq_refl). apply Forall_app. split; [exact IH1|].
    constructor; [|constructor]. cbn. repeat split; assumption.
  - rewrite (Hsame eq_refl). exact IH1.
Qed.

Lemma Registered_accounts_witness :
  let l := App.admins
             (fst (App.handleRegisterSubmit
                     {| App.admins := []; App.currentUser := None |}
                     "Corner Store" "admin" "secret" "secret")) in
  App.Registered l
  /\ List.length l = 1%nat
  /\ Forall (fun a => businessName a <> EmptyString
                      /\ username a <> EmptyString
                      /\ password a <> EmptyString) l
  /\ NoDup (map username l).
Proof.
  intro l.
  assert (R : App.Registered l).
  { exact (App.registered_submit {| App.admins := []; App.currentUser := None |}
             "Corner Store" "admin" "secret" "secret" App.registered_none). }
  exact (conj R (conj eq_refl (Registered_accounts l R))).
Defined.

Example register_form_errors :
  snd (App.handleRegisterSubmit {| App.admins := []; App.currentUser := None |}
         "" "" "" "") = "All fields are required."%string
  /\ snd (App.handleRegisterSubmit {| App.admins := []; App.currentUser := None |}
            "" "" "a" "b") = "Passwords do not match."%string.
Proof. split; reflexivity. Qed.

(** ** Storage keys *)

Lemma hasUnderscore_app (a b : string) :
  hasUnderscore (a ++ String "_" b) = true.
Proof.
  induction a as [|c a IH]; cbn [String.append hasUnderscore].
  - reflexivity.
  - rewrite IH. apply orb_true_r.
Qed.

Lemma prefixed_key_inj (u1 u2 k1 k2 : string) :
  hasUnderscore k1 = false -> hasUnderscore k2 = false ->
  (u1 ++ String "_" k1)%string = (u2 ++ String "_" k2)%string ->
  u1 = u2 /\ k1 = k2.
Proof.
  intros H1 H2. revert u2.
  induction u1 as [|c u1 IH]; intros [|d u2] E; cbn [String.append] in E.
  - injection E as E. split; [reflexivity | exact E].
  - injection E as Ec E. rewrite E, hasUnderscore_app in H1. discriminate.
  - injection E as Ec E. rewrite <- E, hasUnderscore_app in H2. discriminate.
  - injection E as Ec E. destruct (IH u2 E) as [-> ->]. subst d. split; reflexivity.
Qed.

(** X21: tenants do not share storage: for the keys [App] stores under,
    two logged-in users with different, non-empty usernames never get the
    same storage key, whatever the keys, one user's keys are all different,
    and no user's key is a key used while nobody is logged in. *)
Theorem userKey_isolation (u1 u2 k1 k2 : string) :
  u1 <> EmptyString -> u2 <> EmptyString ->
  In k1 storeKeys -> In k2 storeKeys ->
  (userKey k1 (Some u1) = userKey k2 (Some u2) -> u1 = u2 /\ k1 = k2)
  /\ userKey k1 (Some u1) <> userKey k2 None.
Proof.
  intros Hu1 Hu2 Hk1 Hk2. unfold userKey.
  apply isEmpty_false in Hu1, Hu2. rewrite Hu1, Hu2.
  assert (U : forall k, In k storeKeys -> hasUnderscore k = false).
  { intros k Hk. cbn in Hk.
    repeat (destruct Hk as [<-|Hk]; [reflexivity|]). contradiction. }
  change ("_" ++ k1)%string with (String "_" k1).
  change ("_" ++ k2)%string with (String "_" k2).
  split.
  - apply prefixed_key_inj; apply U; assumption.
  - intro E. pose proof (U k2 Hk2) as H2.
    rewrite <- E, hasUnderscore_app in H2. discriminate.
Qed.

Lemma userKey_isolation_witness :
  userKey "loyaltyDB" (Some "admin"%string) = "admin_loyaltyDB"%string
  /\ userKey "loyaltyDB" (Some "admin"%string) <> userKey "loyaltyDB" None
  /\ (userKey "loyaltyDB" (Some "admin"%string)
      = userKey "loyaltySettings" (Some "admin_loyalty"%string)
      -> "admin"%string = "admin_loyalty"%string).
Proof.
  assert (Hu1 : "admin"%string <> EmptyString) by discriminate.
  assert (Hu2 : "admin_loyalty"%string <> EmptyString) by discriminate.
  assert (Hk1 : In "loyaltyDB"%string storeKeys) by (cbn; tauto).
  assert (Hk2 : In "loyaltySettings"%string storeKeys) by (cbn; tauto).
  split; [reflexivity|].
  split.
  - exact (proj2 (userKey_isolation "admin" "admin" "loyaltyDB" "loyaltyDB"
                    Hu1 Hu1 Hk1 Hk1)).
  - intro E.
    exact (proj1 (proj1 (userKey_isolation "admin" "admin_loyalty" "loyaltyDB"
                           "loyaltySettings" Hu1 Hu2 Hk1 Hk2) E)).
Defined.

(** ** Searching *)

Lemma string_length_append (a b : string) :
  String.length (a ++ b) = (String.length a + String.length b)%nat.
Proof.
  induction a as [|c a IH]; cbn [String.append String.length]; [reflexivity|].
  rewrite IH. reflexivity.
Qed.

Lemma append_self_empty (a b : string) : (a ++ b)%string = b -> a = EmptyString.
Proof.
  intro H. apply (f_equal String.length) in H.
  rewrite string_length_append in H.
  destruct a; [reflexivity | cbn in H; lia].
Qed.

Lemma find_weaken {A : Type} (P Q' : A -> bool) (l : list A) :
  (forall x, Q' x = true -> P x = true) -> find P l = None -> find Q' l = None.
Proof.
  intros H Hn. induction l as [|y l IH]; cbn [find] in *; [reflexivity|].
  destruct (P y) eqn:E; [discriminate|].
  destruct (Q' y) eqn:E'; [apply H in E'; congruence | apply IH; exact Hn].
Qed.

(** X22: a customer enrolled through the transaction form is stored under
    the country code followed by the mobile: the search finds the created
    record under that key, and, the country code not being empty, reports
    not found for the mobile as it was typed. *)
Theorem search_after_enrolment (now : Z) (p : Props) (st : State) (r : Committed) :
  handleTransactionSubmit now p st = Some r ->
  isNewCustomer st = true ->
  currentCustomer st = None ->
  find (fun c => String.eqb (Customer.mobile c) (countryCode st ++ mobile st)
                 || String.eqb (Customer.mobile c) (mobile st))
       (customers p) = None ->
  handleSearch (nextCustomers r) (countryCode st ++ mobile st)
  = (Some (newCustomer now p st), false)
  /\ (countryCode st <> EmptyString ->
      handleSearch (nextCustomers r) (mobile st) = (None, true)).
Proof.
  intros H Hn Hc Hfind. apply submit_Some in H. destruct H as [_ ->]. rewrite Hn.
  assert (Hm : Customer.mobile (newCustomer now p st)
               = (countryCode st ++ mobile st)%string).
  { unfold newCustomer, targetMobile. rewrite Hc. reflexivity. }
  unfold handleSearch. split.
  - rewrite find_app_new; [reflexivity | |].
    + revert Hfind. apply find_weaken. intros x Hx. rewrite Hx. reflexivity.
    + rewrite Hm. apply String.eqb_refl.
  - intro Hcc. rewrite find_app_none.
    + cbn [find]. rewrite Hm.
      assert (E : String.eqb (countryCode st ++ mobile st) (mobile st) = false).
      { apply String.eqb_neq. intro E. apply Hcc. exact (append_self_empty _ _ E). }
      rewrite E. reflexivity.
    + revert Hfind. apply find_weaken. intros x Hx. rewrite Hx. apply orb_true_r.
Qed.

Lemma search_after_enrolment_witness :
  exists r,
    handleTransactionSubmit (dayAfter 30) shop walkInPays = Some r
    /\ handleSearch (nextCustomers r) "+919000000001"
       = (Some (newCustomer (dayAfter 30) shop walkInPays), false)
    /\ handleSearch (nextCustomers r) "9000000001" = (None, true).
Proof.
  destruct (handleTransactionSubmit (dayAfter 30) shop walkInPays) as [r|] eqn:E;
    [|vm_compute in E; discriminate E].
  exists r.
  destruct (search_after_enrolment (dayAfter 30) shop walkInPays r E
              eq_refl eq_refl eq_refl) as [H1 H2].
  assert (Hcc : countryCode walkInPays <> EmptyString) by (cbn; discriminate).
  exact (conj eq_refl (conj H1 (H2 Hcc))).
Defined.

(** ** The settings editors *)

Lemma digitsPrefix_numeral (d : Decimal.uint) (acc : nat) :
  Editor.digitsPrefix (DecimalString.NilEmpty.string_of_uint d) (N.of_nat acc) true
  = Some (N.of_nat (Nat.of_uint_acc d acc)).
Proof.
  revert acc.
  induction d as [|d IH|d IH|d IH|d IH|d IH|d IH|d IH|d IH|d IH|d IH]; intro acc;
    cbn [DecimalString.NilEmpty.string_of_uint Editor.digitsPrefix Nat.of_uint_acc];
    [reflexivity|..];
    (match goal with
     | |- context [Editor.digitOf ?c] =>
         let v := eval vm_compute in (Editor.digitOf c) in
         change (Editor.digitOf c) with v
     end);
    cbv iota; rewrite <- IH; f_equal; rewrite Nat.tail_mul_spec; lia.
Qed.

Lemma mathInt_numeral (n : nat) :
  Editor.mathInt (Editor.numeral n) = Some (Z.of_nat n).
Proof.
  unfold Editor.numeral.
  rewrite <- (DecimalNat.Unsigned.of_to n) at 2.
  unfold Nat.of_uint. generalize (Nat.to_uint n). intro d.
  destruct d as [|d|d|d|d|d|d|d|d|d|d];
    cbn [DecimalString.NilZero.string_of_uint DecimalString.NilEmpty.string_of_uint];
    unfold Editor.mathInt;
    cbn [Editor.skipWhiteSpace Editor.digitsPrefix Nat.of_uint_acc];
    [reflexivity|..];
    (match goal with
     | |- context [Editor.isWhiteSpace ?c] =>
         let v := eval vm_compute in (Editor.isWhiteSpace c) in
         change (Editor.isWhiteSpace c) with v
     end);
    cbv iota;
    (match goal with
     | |- context [Editor.digitOf ?c] =>
         let v := eval vm_compute in (Editor.digitOf c) in
         change (Editor.digitOf c) with v
     end);
    cbv iota;
    (match goal with
     | |- context [Editor.digitsPrefix _ ?a true] =>
         match goal with
         | |- context [Nat.of_uint_acc d ?b] =>
             change a with (N.of_nat b)
         end
     end);
    rewrite digitsPrefix_numeral; cbn [option_map]; f_equal; lia.
Qed.

Lemma parseIntOrZero_whole (z : Z) :
  JS.orZero (Some (inject_Z z)) = inject_Z z.
Proof.
  cbn [JS.orZero].
  destruct (Qeq_bool (inject_Z z) 0) eqn:E; [|reflexivity].
  apply Qeq_bool_iff in E. unfold Qeq in E. cbn in E.
  assert (z = 0%Z) by lia. subst z. reflexivity.
Qed.

(** A numeral up to [Number.MAX_SAFE_INTEGER] is read as its value. *)
Lemma parseIntOrZero_numeral (n : nat) :
  (Z.of_nat n <= JS.MAX_SAFE_INTEGER)%Z ->
  Editor.parseIntOrZero (Editor.numeral n) = inject_Z (Z.of_nat n).
Proof.
  intro H. unfold Editor.parseIntOrZero, Editor.parseInt.
  rewrite mathInt_numeral. cbn [option_map].
  rewrite roundDouble_whole by (unfold JS.MAX_SAFE_INTEGER in H; lia).
  apply parseIntOrZero_whole.
Qed.

Lemma allDigits_numeral (n : nat) : Editor.allDigits (Editor.numeral n) = true.
Proof.
  unfold Editor.numeral. generalize (Nat.to_uint n). intro d.
  assert (H : forall d', Editor.allDigits
                           (DecimalString.NilEmpty.string_of_uint d') = true).
  { induction d' as [|d' IH|d' IH|d' IH|d' IH|d' IH|d' IH|d' IH|d' IH|d' IH|d' IH];
      cbn [DecimalString.NilEmpty.string_of_uint Editor.allDigits];
      [reflexivity|..]; rewrite IH; reflexivity. }
  destruct d; try apply H. reflexivity.
Qed.

Lemma digitsPrefix_seen (s : string) (acc : N) :
  Editor.digitsPrefix s acc true <> None.
Proof.
  revert acc. induction s as [|c s IH]; intro acc; cbn [Editor.digitsPrefix].
  - discriminate.
  - destruct (Editor.digitOf c); [apply IH | discriminate].
Qed.

(** A digit is neither white space nor a sign. *)
Lemma digit_first (c : ascii) (rest : string) :
  Editor.digitOf c <> None ->
  Editor.mathInt (String c rest)
  = option_map Z.of_N (Editor.digitsPrefix (String c rest) 0 false)
  /\ Editor.digitsPrefix (String c rest) 0 false <> None.
Proof.
  intro H. unfold Editor.mathInt. cbn [Editor.skipWhiteSpace Editor.digitsPrefix].
  destruct c as [[|] [|] [|] [|] [|] [|] [|] [|]];
    try (exfalso; apply H; reflexivity);
    (split; [reflexivity|]);
    (match goal with
     | |- context [Editor.digitOf ?c] =>
         let v := eval vm_compute in (Editor.digitOf c) in
         change (Editor.digitOf c) with v
     end);
    cbv iota; clear H;
    (generalize (0 * 10 + 0)%N, (0 * 10 + 1)%N, (0 * 10 + 2)%N, (0 * 10 + 3)%N,
                (0 * 10 + 4)%N, (0 * 10 + 5)%N, (0 * 10 + 6)%N, (0 * 10 + 7)%N,
                (0 * 10 + 8)%N, (0 * 10 + 9)%N);
    intros; apply digitsPrefix_seen.
Qed.

Lemma digits_whole (s : string) :
  Editor.allDigits s = true ->
  exists k : N, Editor.parseIntOrZero s = inject_Z (Z.of_N k).
Proof.
  intro H. destruct s as [|c rest].
  - exists 0%N. reflexivity.
  - cbn [Editor.allDigits] in H. apply andb_true_iff in H. destruct H as [Hc _].
    assert (Hd : Editor.digitOf c <> None)
      by (destruct (Editor.digitOf c); [discriminate | discriminate Hc]).
    destruct (digit_first c rest Hd) as [Hp Hn].
    destruct (Editor.digitsPrefix (String c rest) 0 false) as [k|] eqn:E;
      [|contradiction Hn; reflexivity].
    destruct (roundDouble_whole_any (Z.of_N k) (N2Z.is_nonneg k)) as (z & Hz & Ez).
    exists (Z.to_N z). unfold Editor.parseIntOrZero, Editor.parseInt.
    rewrite Hp. cbn [option_map]. rewrite Ez, Z2N.id by exact Hz.
    apply parseIntOrZero_whole.
Qed.

Lemma text_setText (tier t : Tier) (v : string) (fs : Editor.TierTexts) :
  Editor.text (Editor.setText tier v fs) t
  = if Analytics.tier_eqb tier t then v else Editor.text fs t.
Proof. destruct tier, t; reflexivity. Qed.

Lemma saveDiscounts_get (fs : Editor.TierTexts) (t : Tier) :
  DiscountSettings.get (Editor.saveDiscounts fs) t
  = Editor.parseIntOrZero (Editor.text fs t).
Proof. destruct t; reflexivity. Qed.

Lemma saveDeadlines_get (fs : Editor.TierTexts) (t : Tier) :
  DeadlineSettings.get (Editor.saveDeadlines fs) t
  = Editor.parseIntOrZero (Editor.text fs t).
Proof. destruct t; reflexivity. Qed.

(** X23: the discount and the deadline editor.  A text with a character
    that is not a digit is refused and the form stays as it was; a numeral
    up to [Number.MAX_SAFE_INTEGER] typed for a tier is what saving stores
    for that tier (beyond it the nearest double is stored); whatever is
    typed for a tier, the other tiers are saved as before; digit texts stay
    digit texts; and from a form of digit texts of at most 308 digits every
    saved setting is a whole number that is not negative (0 for an empty
    field). *)
Theorem editor_saves_typed_number (fs : Editor.TierTexts) (tier : Tier) :
  (forall v, Editor.allDigits v = false -> Editor.handleInputChange tier v fs = fs)
  /\ (forall n : nat,
        (Z.of_nat n <= JS.MAX_SAFE_INTEGER)%Z ->
        let fs' := Editor.handleInputChange tier (Editor.numeral n) fs in
        DiscountSettings.get (Editor.saveDiscounts fs') tier = inject_Z (Z.of_nat n)
        /\ DeadlineSettings.get (Editor.saveDeadlines fs') tier = inject_Z (Z.of_nat n))
  /\ (forall v t,
        t <> tier ->
        let fs' := Editor.handleInputChange tier v fs in
        DiscountSettings.get (Editor.saveDiscounts fs') t
        = DiscountSettings.get (Editor.saveDiscounts fs) t
        /\ DeadlineSettings.get (Editor.saveDeadlines fs') t
           = DeadlineSettings.get (Editor.saveDeadlines fs) t)
  /\ ((forall t, Editor.allDigits (Editor.text fs t) = true) ->
      forall v t, Editor.allDigits
                    (Editor.text (Editor.handleInputChange tier v fs) t) = true)
  /\ ((forall t, Editor.allDigits (Editor.text fs t) = true
                 /\ (String.length (Editor.text fs t) <= 308)%nat) ->
      forall t, exists k : N,
        DiscountSettings.get (Editor.saveDiscounts fs) t = inject_Z (Z.of_N k)
        /\ DeadlineSettings.get (Editor.saveDeadlines fs) t = inject_Z (Z.of_N k)).
Proof.
  split; [|split; [|split; [|split]]].
  - intros v Hv. unfold Editor.handleInputChange. rewrite Hv. reflexivity.
  - intros n Hn. cbn zeta. unfold Editor.handleInputChange.
    rewrite allDigits_numeral, !saveDiscounts_get, !saveDeadlines_get.
    rewrite !text_setText, tier_eqb_refl, (parseIntOrZero_numeral n Hn).
    split; reflexivity.
  - intros v t Ht. cbn zeta. unfold Editor.handleInputChange.
    destruct (Editor.allDigits v); [|split; reflexivity].
    rewrite !saveDiscounts_get, !saveDeadlines_get, text_setText.
    assert (E : Analytics.tier_eqb tier t = false) by (apply tier_eqb_neq; congruence).
    rewrite E. split; reflexivity.
  - intros Hall v t. unfold Editor.handleInputChange.
    destruct (Editor.allDigits v) eqn:Hv; [|apply Hall].
    rewrite text_setText. destruct (Analytics.tier_eqb tier t); [exact Hv | apply Hall].
  - intros Hall t. rewrite saveDiscounts_get, saveDeadlines_get.
    destruct (digits_whole _ (proj1 (Hall t))) as [k Hk]. exists k. split; exact Hk.
Qed.

Lemma editor_saves_typed_number_witness :
  let fs := {| Editor.bronze := "0"; Editor.silver := "5"; Editor.gold := "10";
               Editor.platinum := "" |} in
  Editor.allDigits "1O" = false
  /\ Editor.handleInputChange Gold "1O" fs = fs
  /\ (Z.of_nat 12 <= JS.MAX_SAFE_INTEGER)%Z
  /\ DiscountSettings.get
       (Editor.saveDiscounts (Editor.handleInputChange Gold (Editor.numeral 12) fs)) Gold
     = inject_Z (Z.of_nat 12)
  /\ (forall t, Editor.allDigits (Editor.text fs t) = true
                /\ (String.length (Editor.text fs t) <= 308)%nat)
  /\ forall t, exists k : N,
       DiscountSettings.get (Editor.saveDiscounts fs) t = inject_Z (Z.of_N k)
       /\ DeadlineSettings.get (Editor.saveDeadlines fs) t = inject_Z (Z.of_N k).
Proof.
  intro fs.
  destruct (editor_saves_typed_number fs Gold) as (H1 & H2 & _ & _ & H5).
  assert (Hv : Editor.allDigits "1O" = false) by reflexivity.
  assert (Hn : (Z.of_nat 12 <= JS.MAX_SAFE_INTEGER)%Z) by (vm_compute; discriminate).
  assert (Hall : forall t, Editor.allDigits (Editor.text fs t) = true
                           /\ (String.length (Editor.text fs t) <= 308)%nat)
    by (intros []; (split; [reflexivity | apply Nat.leb_le; reflexivity])).
  exact (conj Hv (conj (H1 _ Hv) (conj Hn (conj (proj1 (H2 12%nat Hn))
           (conj Hall (H5 Hall)))))).
Defined.

(** Beyond [Number.MAX_SAFE_INTEGER] the nearest double is saved. *)
Example editor_saves_nearest_double :
  Editor.allDigits "9007199254740993" = true
  /\ Editor.mathInt "9007199254740993" = Some 9007199254740993%Z
  /\ Editor.parseIntOrZero "9007199254740993" = 9007199254740992.
Proof. repeat split; vm_compute; reflexivity. Qed.

Lemma fieldText_setField (field f : Editor.Field) (v : string)
    (t : Editor.ThresholdTexts) :
  Editor.fieldText (Editor.setField field v t) f
  = match field, f with
    | Editor.MinSpend, Editor.MinSpend | Editor.MinPoints, Editor.MinPoints => v
    | _, _ => Editor.fieldText t f
    end.
Proof. destruct field, f; reflexivity. Qed.

Lemma saveTiers_field (fs : Editor.TierForm) (t : Tier) (f : Editor.Field) :
  Editor.thresholdField (Editor.threshold (Editor.saveTiers fs) t) f
  = Editor.parseIntOrZero (Editor.fieldText (Editor.texts fs t) f).
Proof. destruct t, f; reflexivity. Qed.

(** X24: the tier editor.  A text with a character that is not a digit is
    refused; a numeral up to [Number.MAX_SAFE_INTEGER] typed for a threshold
    is what saving stores for it (beyond it the nearest double is stored);
    whatever is typed, every other threshold is saved as before; and from a
    form of digit texts of at most 308 digits every saved threshold is a
    whole number that is not negative. *)
Theorem tier_editor_saves_typed_number
    (fs : Editor.TierForm) (tier : Tier) (field : Editor.Field) :
  (forall v, Editor.allDigits v = false ->
             Editor.handleTierInputChange tier field v fs = fs)
  /\ (forall n : nat,
        (Z.of_nat n <= JS.MAX_SAFE_INTEGER)%Z ->
        let fs' := Editor.handleTierInputChange tier field (Editor.numeral n) fs in
        Editor.thresholdField (Editor.threshold (Editor.saveTiers fs') tier) field
        = inject_Z (Z.of_nat n))
  /\ (forall v t f,
        (t <> tier \/ f <> field) ->
        let fs' := Editor.handleTierInputChange tier field v fs in
        Editor.thresholdField (Editor.threshold (Editor.saveTiers fs') t) f
        = Editor.thresholdField (Editor.threshold (Editor.saveTiers fs) t) f)
  /\ ((forall t f,
         Editor.allDigits (Editor.fieldText (Editor.texts fs t) f) = true
         /\ (String.length (Editor.fieldText (Editor.texts fs t) f) <= 308)%nat) ->
      forall t f, exists k : N,
        Editor.thresholdField (Editor.threshold (Editor.saveTiers fs) t) f
        = inject_Z (Z.of_N k)).
Proof.
  split; [|split; [|split]].
  - intros v Hv. unfold Editor.handleTierInputChange. rewrite Hv. reflexivity.
  - intros n Hn. cbn zeta. unfold Editor.handleTierInputChange.
    rewrite allDigits_numeral, saveTiers_field.
    destruct tier, field; cbn; apply (parseIntOrZero_numeral n Hn).
  - intros v t f Hdiff. cbn zeta. unfold Editor.handleTierInputChange.
    destruct (Editor.allDigits v); [|reflexivity].
    rewrite !saveTiers_field.
    destruct tier, t, field, f; try reflexivity;
      exfalso; destruct Hdiff as [H|H]; apply H; reflexivity.
  - intros Hall t f. rewrite saveTiers_field. apply digits_whole. apply Hall.
Qed.

Lemma tier_editor_saves_typed_number_witness :
  let fs := {| Editor.bronzeTexts := {| Editor.minSpendText := "0";
                                        Editor.minPointsText := "0" |};
               Editor.silverTexts := {| Editor.minSpendText := "2000";
                                        Editor.minPointsText := "100" |};
               Editor.goldTexts := {| Editor.minSpendText := "10000";
                                      Editor.minPointsText := "500" |};
               Editor.platinumTexts := {| Editor.minSpendText := "50000";
                                          Editor.minPointsText := "" |} |} in
  Editor.handleTierInputChange Silver Editor.MinSpend "-1" fs = fs
  /\ (Z.of_nat 2500 <= JS.MAX_SAFE_INTEGER)%Z
  /\ Editor.thresholdField
       (Editor.threshold
          (Editor.saveTiers
             (Editor.handleTierInputChange Silver Editor.MinSpend
                (Editor.numeral 2500) fs)) Silver) Editor.MinSpend
     = inject_Z (Z.of_nat 2500)
  /\ forall t f, exists k : N,
       Editor.thresholdField (Editor.threshold (Editor.saveTiers fs) t) f
       = inject_Z (Z.of_N k).
Proof.
  intro fs.
  destruct (tier_editor_saves_typed_number fs Silver Editor.MinSpend)
    as (H1 & H2 & _ & H4).
  assert (Hv : Editor.allDigits "-1" = false) by reflexivity.
  assert (Hn : (Z.of_nat 2500 <= JS.MAX_SAFE_INTEGER)%Z) by (vm_compute; discriminate).
  assert (Hall : forall t f,
             Editor.allDigits (Editor.fieldText (Editor.texts fs t) f) = true
             /\ (String.length (Editor.fieldText (Editor.texts fs t) f) <= 308)%nat)
    by (intros [] []; (split; [reflexivity | apply Nat.leb_le; reflexivity])).
  exact (conj (H1 _ Hv) (conj Hn (conj (H2 2500%nat Hn) (H4 Hall)))).
Defined.
